(** * Thread processing pipeline: entity resolution and analysis

    A shallow embedding of the pipeline services

      - [backend/services/resolver.py]   (batch entity resolver),
      - [backend/services/processor.py]  (per-thread entity processor),
      - [backend/services/analyzer.py]   (thread analyzer),

    and the properties their specification states about them.

    Conventions of the embedding.

      - A Python [str] is a Rocq [string]; a character is a code point in
        U+0000..U+00FF.  Case mapping and white space follow Unicode on that
        range.
      - A Python [int] is a [Z]; slices take [Z] bounds and clamp them the way
        Python does, negative bounds counting from the end.
      - [None] is the [None] of an [option]; the truth value Python gives an
        object in [if x:] and [x or y] is [truthy].
      - A [dict] is a [gmap], a [set] a [gset]; a table of the record store is
        the list of its rows.
      - The record store, the language model and the job trigger are the
        outside world: every call to them is a step of the monad [M], which
        threads the tables, records the call in a trace and lets the call
        fail when the fault plan of the world says so. *)

From Stdlib Require Import ZArith NArith Ascii String List Lia Bool.
From stdpp Require Import gmap strings list.

#[global] Set Warnings "-clear-no-such-hyp".

Open Scope string_scope.
Open Scope list_scope.
Open Scope Z_scope.

(** ** Python strings *)

Module Py.

Definition code (c : ascii) : N := N_of_ascii c.

(** [c.isspace()] for a code point below U+0100. *)
Definition isspace (c : ascii) : bool :=
  let n := code c in
  ((9 <=? n) && (n <=? 13) || (28 <=? n) && (n <=? 32)
   || (n =? 133) || (n =? 160))%N.

(** Code points with a lower-case partner: A-Z and the Latin-1 capitals. *)
Definition isupper (c : ascii) : bool :=
  let n := code c in
  ((65 <=? n) && (n <=? 90)
   || (192 <=? n) && (n <=? 222) && negb (n =? 215))%N.

(** Code points whose upper-case partner stays below U+0100. *)
Definition islower_in_range (c : ascii) : bool :=
  let n := code c in
  ((97 <=? n) && (n <=? 122)
   || (224 <=? n) && (n <=? 254) && negb (n =? 247))%N.

Definition lower_char (c : ascii) : ascii :=
  if isupper c then ascii_of_N (code c + 32) else c.

Definition upper_char (c : ascii) : ascii :=
  if islower_in_range c then ascii_of_N (code c - 32) else c.

(** [s.lower()] *)
Fixpoint lower (s : string) : string :=
  match s with
  | EmptyString => EmptyString
  | String c s' => String (lower_char c) (lower s')
  end.

(** [s.capitalize()] *)
Definition capitalize (s : string) : string :=
  match s with
  | EmptyString => EmptyString
  | String c s' => String (upper_char c) (lower s')
  end.

(** [s.lstrip()], [s.rstrip()], [s.strip()] *)
Fixpoint lstrip (s : string) : string :=
  match s with
  | EmptyString => EmptyString
  | String c s' => if isspace c then lstrip s' else s
  end.

Fixpoint rstrip (s : string) : string :=
  match s with
  | EmptyString => EmptyString
  | String c s' =>
      match rstrip s' with
      | EmptyString => if isspace c then EmptyString else String c EmptyString
      | r => String c r
      end
  end.

Definition strip (s : string) : string := rstrip (lstrip s).

(** [len(s)] *)
Definition len (s : string) : Z := Z.of_nat (String.length s).

(** [c in s] for a one-character [c]. *)
Fixpoint contains (c : ascii) (s : string) : bool :=
  match s with
  | EmptyString => false
  | String a s' => if Ascii.eqb a c then true else contains c s'
  end.

(** [s.find(c)]: the first index of [c], or -1. *)
Fixpoint find (c : ascii) (s : string) : Z :=
  match s with
  | EmptyString => -1
  | String a s' =>
      if Ascii.eqb a c then 0
      else let i := find c s' in if i <? 0 then -1 else i + 1
  end.

(** How a slice bound is read against a sequence of length [n]. *)
Definition clamp (n i : Z) : Z :=
  if i <? 0 then Z.max 0 (i + n) else Z.min i n.

(** [s[start:stop]] *)
Definition slice (s : string) (start stop : Z) : string :=
  let a := clamp (len s) start in
  let b := clamp (len s) stop in
  String.substring (Z.to_nat a) (Z.to_nat (b - a)) s.

(** [s.split(c)] for a one-character separator: never empty. *)
Fixpoint split_go (c : ascii) (cur : string) (s : string) : list string :=
  match s with
  | EmptyString => [String.rev cur]
  | String a s' =>
      if Ascii.eqb a c then String.rev cur :: split_go c EmptyString s'
      else split_go c (String a cur) s'
  end.

Definition split (c : ascii) (s : string) : list string :=
  split_go c EmptyString s.

(** [sep.join(parts)] *)
Fixpoint join (sep : string) (parts : list string) : string :=
  match parts with
  | [] => EmptyString
  | [p] => p
  | p :: rest => p +:+ sep +:+ join sep rest
  end.

(** [s.replace(c, by)] for a one-character [c]. *)
Fixpoint replace (c : ascii) (by_ : string) (s : string) : string :=
  match s with
  | EmptyString => EmptyString
  | String a s' =>
      if Ascii.eqb a c then by_ +:+ replace c by_ s'
      else String a (replace c by_ s')
  end.

(** [xs[start:]] and [xs[:stop]] on lists. *)
Definition slice_from {A} (xs : list A) (start : Z) : list A :=
  drop (Z.to_nat (clamp (Z.of_nat (length xs)) start)) xs.

Definition slice_to {A} (xs : list A) (stop : Z) : list A :=
  take (Z.to_nat (clamp (Z.of_nat (length xs)) stop)) xs.

(** The truth value of a string, and of a string that may be [None]. *)
Definition truthy (s : string) : bool :=
  match s with EmptyString => false | _ => true end.

Definition truthy_opt (o : option string) : bool :=
  match o with Some s => truthy s | None => false end.

(** [a or b] on values that are a string or [None]. *)
Definition or_ (a b : option string) : option string :=
  if truthy_opt a then a else b.

End Py.

(** ** The pieces of a text around a separator *)

(** The text before the first [c], all of it when there is none. *)
Fixpoint before_first (c : ascii) (s : string) : string :=
  match s with
  | EmptyString => EmptyString
  | String a s' => if Ascii.eqb a c then EmptyString else String a (before_first c s')
  end.

(** The text after the first [c], nothing when there is none. *)
Fixpoint after_first (c : ascii) (s : string) : string :=
  match s with
  | EmptyString => EmptyString
  | String a s' => if Ascii.eqb a c then s' else after_first c s'
  end.

(** ** Identity extraction ([resolver.py]) *)

(** [extract_email_from_address] *)
Definition extract_email_from_address (address : option string) : option string :=
  match address with
  | None => None
  | Some address =>
      if negb (Py.truthy address) then None
      else if Py.contains "<" address && Py.contains ">" address then
        let start := Py.find "<" address + 1 in
        let end_ := Py.find ">" address in
        Some (Py.strip (Py.slice address start end_))
      else Some (Py.strip address)
  end.

(** [extract_domain_from_email].  [email.split("@")[1]] is read with a default;
    [split_index_1_in_range] shows that the index is in range whenever the
    branch is taken, so the default is never the result. *)
Definition extract_domain_from_email (email : string) : string :=
  if negb (Py.contains "@" email) then ""
  else Py.lower (nth 1 (Py.split "@" email) "").

(** [extract_local_part_from_email] *)
Definition extract_local_part_from_email (email : string) : string :=
  if negb (Py.contains "@" email) then email
  else Py.lower (nth 0 (Py.split "@" email) "").

(** ** Domain classification ([processor.py]) *)

Definition COMMON_EMAIL_PROVIDERS : gset string :=
  {[ "gmail.com"; "yahoo.com"; "outlook.com"; "hotmail.com"; "icloud.com" ]}.

(** [is_business_domain] *)
Definition is_business_domain (domain : string) : bool :=
  if negb (Py.truthy domain) then false
  else negb (bool_decide (Py.lower domain ∈ COMMON_EMAIL_PROVIDERS)).


(** ** The record store

    Primary keys issued by the store are numbers here (the store issues
    UUIDs); a row read from the store always carries its key.  Thread and
    user ids come from outside and are strings.  Columns that the modelled
    code neither reads nor writes are left out of the rows. *)

Definition ID := N.

Record StageRow := {
  st_thread_id : string;
  st_user_id : string;
  st_current_stage : option string }.

Record ProfileRow := {
  pf_id : string;
  pf_email : option string }.

(** An address column holds JSON: an array, a string, null, or something
    else.  An array item that is no string is kept as its [str(item)]. *)
Inductive AddrItem :=
| ItemStr (s : string)
| ItemOther (repr : string).

Inductive AddrField :=
| AddrNull
| AddrList (items : list AddrItem)
| AddrStr (s : string)
| AddrOther.

Record MessageRow := {
  m_message_id : string;
  m_thread_id : string;
  m_user_id : string;
  m_from_address : option string;
  m_to_addresses : AddrField;
  m_cc_addresses : AddrField;
  m_body_text : option string;
  m_body_html : option string;
  m_sent_date : option string;
  m_customer_id : option ID }.

Record CompanyRow := {
  co_company_id : ID;
  co_user_id : string;
  co_domain_name : string;
  co_company_name : string;
  co_status : string }.

Record CustomerRow := {
  cu_customer_id : ID;
  cu_user_id : string;
  cu_email : string;
  cu_full_name : option string;
  cu_company_id : option ID;
  cu_domain_match : option string;
  cu_status : string }.

Record ParticipantRow := {
  pa_thread_id : string;
  pa_customer_id : ID;
  pa_user_id : string }.

Record LinkRow := {
  li_thread_id : string;
  li_company_id : ID;
  li_user_id : string }.

Record ThreadRow := {
  th_thread_id : string;
  th_user_id : string;
  th_last_analyzed_at : option string;
  th_summary : option string;
  th_sentiment : option string;
  th_sentiment_score : option Z;
  th_resolution_status : option string;
  th_problem_statement : option string;
  th_timeline_summary : option string }.

Record NextStepRow := {
  ns_step_id : ID;
  ns_thread_id : string;
  ns_user_id : string;
  ns_description : option string;
  ns_owner : option string;
  ns_due_date : option string;
  ns_status : string }.

Record AssignmentRow := {
  as_next_step_id : ID;
  as_customer_id : ID }.

Record FeatureRequestRow := {
  fr_thread_id : string;
  fr_user_id : string;
  fr_title : option string;
  fr_customer_description : option string;
  fr_use_case : option string;
  fr_urgency : option string;
  fr_urgency_signals : option string;
  fr_customer_impact : option string;
  fr_status : string }.

Record Tables := {
  t_stages : list StageRow;
  t_profiles : list ProfileRow;
  t_messages : list MessageRow;
  t_companies : list CompanyRow;
  t_customers : list CustomerRow;
  t_participants : list ParticipantRow;
  t_links : list LinkRow;
  t_threads : list ThreadRow;
  t_next_steps : list NextStepRow;
  t_assignments : list AssignmentRow;
  t_feature_requests : list FeatureRequestRow;
  t_next_id : ID }.

Definition set_stages (v : list StageRow) (t : Tables) : Tables :=
  {| t_stages := v; t_profiles := t_profiles t; t_messages := t_messages t;
     t_companies := t_companies t; t_customers := t_customers t;
     t_participants := t_participants t; t_links := t_links t;
     t_threads := t_threads t; t_next_steps := t_next_steps t;
     t_assignments := t_assignments t;
     t_feature_requests := t_feature_requests t; t_next_id := t_next_id t |}.

Definition set_companies (v : list CompanyRow) (t : Tables) : Tables :=
  {| t_stages := t_stages t; t_profiles := t_profiles t; t_messages := t_messages t;
     t_companies := v; t_customers := t_customers t;
     t_participants := t_participants t; t_links := t_links t;
     t_threads := t_threads t; t_next_steps := t_next_steps t;
     t_assignments := t_assignments t;
     t_feature_requests := t_feature_requests t; t_next_id := t_next_id t |}.

Definition set_customers (v : list CustomerRow) (t : Tables) : Tables :=
  {| t_stages := t_stages t; t_profiles := t_profiles t; t_messages := t_messages t;
     t_companies := t_companies t; t_customers := v;
     t_participants := t_participants t; t_links := t_links t;
     t_threads := t_threads t; t_next_steps := t_next_steps t;
     t_assignments := t_assignments t;
     t_feature_requests := t_feature_requests t; t_next_id := t_next_id t |}.

Definition set_participants (v : list ParticipantRow) (t : Tables) : Tables :=
  {| t_stages := t_stages t; t_profiles := t_profiles t; t_messages := t_messages t;
     t_companies := t_companies t; t_customers := t_customers t;
     t_participants := v; t_links := t_links t;
     t_threads := t_threads t; t_next_steps := t_next_steps t;
     t_assignments := t_assignments t;
     t_feature_requests := t_feature_requests t; t_next_id := t_next_id t |}.

Definition set_links (v : list LinkRow) (t : Tables) : Tables :=
  {| t_stages := t_stages t; t_profiles := t_profiles t; t_messages := t_messages t;
     t_companies := t_companies t; t_customers := t_customers t;
     t_participants := t_participants t; t_links := v;
     t_threads := t_threads t; t_next_steps := t_next_steps t;
     t_assignments := t_assignments t;
     t_feature_requests := t_feature_requests t; t_next_id := t_next_id t |}.

Definition set_threads (v : list ThreadRow) (t : Tables) : Tables :=
  {| t_stages := t_stages t; t_profiles := t_profiles t; t_messages := t_messages t;
     t_companies := t_companies t; t_customers := t_customers t;
     t_participants := t_participants t; t_links := t_links t;
     t_threads := v; t_next_steps := t_next_steps t;
     t_assignments := t_assignments t;
     t_feature_requests := t_feature_requests t; t_next_id := t_next_id t |}.

Definition set_next_steps (v : list NextStepRow) (t : Tables) : Tables :=
  {| t_stages := t_stages t; t_profiles := t_profiles t; t_messages := t_messages t;
     t_companies := t_companies t; t_customers := t_customers t;
     t_participants := t_participants t; t_links := t_links t;
     t_threads := t_threads t; t_next_steps := v;
     t_assignments := t_assignments t;
     t_feature_requests := t_feature_requests t; t_next_id := t_next_id t |}.

Definition set_assignments (v : list AssignmentRow) (t : Tables) : Tables :=
  {| t_stages := t_stages t; t_profiles := t_profiles t; t_messages := t_messages t;
     t_companies := t_companies t; t_customers := t_customers t;
     t_participants := t_participants t; t_links := t_links t;
     t_threads := t_threads t; t_next_steps := t_next_steps t;
     t_assignments := v;
     t_feature_requests := t_feature_requests t; t_next_id := t_next_id t |}.

Definition set_feature_requests (v : list FeatureRequestRow) (t : Tables) : Tables :=
  {| t_stages := t_stages t; t_profiles := t_profiles t; t_messages := t_messages t;
     t_companies := t_companies t; t_customers := t_customers t;
     t_participants := t_participants t; t_links := t_links t;
     t_threads := t_threads t; t_next_steps := t_next_steps t;
     t_assignments := t_assignments t;
     t_feature_requests := v; t_next_id := t_next_id t |}.

Definition set_next_id (v : ID) (t : Tables) : Tables :=
  {| t_stages := t_stages t; t_profiles := t_profiles t; t_messages := t_messages t;
     t_companies := t_companies t; t_customers := t_customers t;
     t_participants := t_participants t; t_links := t_links t;
     t_threads := t_threads t; t_next_steps := t_next_steps t;
     t_assignments := t_assignments t;
     t_feature_requests := t_feature_requests t; t_next_id := v |}.

(** ** Exceptions, the outside world and the monad *)

Inductive ExnClass := ValueError | TypeError | ImportError | APIError | OtherError.

(** A raised exception: its class and its [str(e)]. *)
Record PyExn := { exn_class : ExnClass; exn_str : string }.

(** The calls that leave the process, as the trace records them. *)
Inductive Call :=
| StageUpdate (stage : string) (thread_ids : list string) (user_id : string)
| StageSelect (thread_ids : list string) (user_id : string)
| ProfileSelect (user_id : string)
| MessageSelect (thread_ids : list string) (user_id : string)
| CompanySelect (domain user_id : string)
| CompanyUpsert (domain user_id : string)
| CompanyInsert (domain user_id : string)
| CustomerSelect (email user_id : string)
| CustomerSelectIn (customer_ids : list ID) (user_id : string)
| CustomerInsert (email user_id : string) (company_id : option ID)
| CustomerUpdate (company_id : option ID) (domain_match : option string)
                 (customer_id : ID) (user_id : string)
| ParticipantUpsert (rows : list ParticipantRow)
| ParticipantInsert (row : ParticipantRow)
| ParticipantSelect (thread_id : string) (user_id : option string)
| LinkInsert (row : LinkRow)
| LinkSelect (thread_id : string)
| ThreadSelect (thread_id user_id : string)
| ThreadUpdate (thread_id user_id : string)
| NextStepSelect (thread_id : string)
| NextStepInsert (descriptions : list string)
| AssignmentInsert (rows : list AssignmentRow)
| FeatureRequestSelect (thread_id : string)
| FeatureRequestInsert (titles : list string)
| HealthScoreRpc (company_id : ID)
| LlmGenerate (prompt : string)
| TriggerJob (user_id thread_id : string).

(** The world a service runs in: the tables, the calls made so far (latest
    first), the fate planned for the calls to come ([Some e]: the call raises
    [e] and has no effect; [None], or a plan that has run out: the call goes
    through), and the wall clock [datetime.now().isoformat()] reads. *)
Record World := {
  tables : Tables;
  trace : list Call;
  faults : list (option PyExn);
  clock : string }.

Definition M (A : Type) : Type := World -> (PyExn + A) * World.

Definition ret {A} (a : A) : M A := fun w => (inr a, w).

Definition raise {A} (e : PyExn) : M A := fun w => (inl e, w).

Definition bind {A B} (m : M A) (k : A -> M B) : M B :=
  fun w => match m w with
           | (inr a, w') => k a w'
           | (inl e, w') => (inl e, w')
           end.

(** [try: m except Exception as e: h e] *)
Definition try_ {A} (m : M A) (h : PyExn -> M A) : M A :=
  fun w => match m w with
           | (inr a, w') => (inr a, w')
           | (inl e, w') => h e w'
           end.

Declare Scope py_scope.
Delimit Scope py_scope with py.
Notation "x <- m ;; k" := (bind m (fun x => k))
  (at level 100, m at next level, right associativity) : py_scope.
Notation "m ;;; k" := (bind m (fun _ => k))
  (at level 100, right associativity) : py_scope.
Open Scope py_scope.

(** [for x in xs: st = body x st], an exception leaving the loop. *)
Fixpoint for_each {A S} (xs : list A) (body : A -> S -> M S) (st : S) : M S :=
  match xs with
  | [] => ret st
  | x :: rest => st' <- body x st ;; for_each rest body st'
  end.

(** One call to the outside: it is recorded, then it either raises what the
    plan holds for it or takes effect on the tables. *)
Definition call {A} (c : Call) (effect : Tables -> (PyExn + A) * Tables) : M A :=
  fun w =>
    let tr := c :: trace w in
    match faults w with
    | Some e :: plan =>
        (inl e, {| tables := tables w; trace := tr; faults := plan; clock := clock w |})
    | plan =>
        let (r, t') := effect (tables w) in
        (r, {| tables := t'; trace := tr; faults := tail plan; clock := clock w |})
    end.

Definition api_error (msg : string) : PyExn :=
  {| exn_class := APIError; exn_str := msg |}.

Definition duplicate_key_error : PyExn :=
  api_error "duplicate key value violates unique constraint".

(** [.maybe_single()]: no row is [None], one row is that row, more is an
    error of the store. *)
Definition maybe_single {R} (rows : list R) : PyExn + option R :=
  match rows with
  | [] => inr None
  | [r] => inr (Some r)
  | _ => inl (api_error "JSON object requested, multiple (or no) rows returned")
  end.

(** [needle in s] *)
Fixpoint is_prefix (p s : string) : bool :=
  match p, s with
  | EmptyString, _ => true
  | String a p', String b s' => Ascii.eqb a b && is_prefix p' s'
  | _, EmptyString => false
  end.

Fixpoint str_in (needle s : string) : bool :=
  is_prefix needle s ||
  match s with
  | EmptyString => false
  | String _ s' => str_in needle s'
  end.

(** ** Store calls

    Each is the effect of one query on the tables, then the call that makes
    it.  Unique constraints: companies on (user_id, domain_name), customers
    on (user_id, email), thread_participants on (thread_id, customer_id),
    thread_company_link on (thread_id, company_id). *)

Definition in_list (x : string) (xs : list string) : bool :=
  bool_decide (x ∈ xs).

(** *** thread_processing_stages *)

Definition stage_matches (thread_ids : list string) (user_id : string)
    (r : StageRow) : bool :=
  in_list (st_thread_id r) thread_ids && String.eqb (st_user_id r) user_id.

Definition stage_set (stage : string) (thread_ids : list string)
    (user_id : string) (r : StageRow) : StageRow :=
  if stage_matches thread_ids user_id r
  then {| st_thread_id := st_thread_id r; st_user_id := st_user_id r;
          st_current_stage := Some stage |}
  else r.

Definition stage_update (stage : string) (thread_ids : list string)
    (user_id : string) : M (list StageRow) :=
  call (StageUpdate stage thread_ids user_id) (fun t =>
    let rows := map (stage_set stage thread_ids user_id) (t_stages t) in
    (inr (filter (fun r => Is_true (stage_matches thread_ids user_id r)) rows),
     set_stages rows t)).

Definition stage_select (thread_ids : list string) (user_id : string)
    : M (list StageRow) :=
  call (StageSelect thread_ids user_id) (fun t =>
    (inr (filter (fun r => Is_true (stage_matches thread_ids user_id r))
            (t_stages t)), t)).

(** *** profiles *)

Definition profile_select (user_id : string) : M (option ProfileRow) :=
  call (ProfileSelect user_id) (fun t =>
    (maybe_single
       (filter (fun r => Is_true (String.eqb (pf_id r) user_id)) (t_profiles t)),
     t)).

(** *** thread_messages *)

Definition message_matches (thread_ids : list string) (user_id : string)
    (r : MessageRow) : bool :=
  in_list (m_thread_id r) thread_ids && String.eqb (m_user_id r) user_id.

Definition message_select (thread_ids : list string) (user_id : string)
    : M (list MessageRow) :=
  call (MessageSelect thread_ids user_id) (fun t =>
    (inr (filter (fun r => Is_true (message_matches thread_ids user_id r))
            (t_messages t)), t)).

(** [.order("sent_date", desc=False)]: ascending, rows without a date last,
    ties in table order.  The store compares instants; the dates it hands out
    share one format and offset, so their texts are compared here. *)
Definition sent_date_le (a b : MessageRow) : bool :=
  match m_sent_date a, m_sent_date b with
  | Some x, Some y => String.leb x y
  | Some _, None => true
  | None, Some _ => false
  | None, None => true
  end.

Fixpoint insert_by_sent_date (r : MessageRow) (sorted : list MessageRow)
    : list MessageRow :=
  match sorted with
  | [] => [r]
  | x :: rest =>
      if sent_date_le x r then x :: insert_by_sent_date r rest
      else r :: sorted
  end.

Definition order_by_sent_date (rows : list MessageRow) : list MessageRow :=
  fold_left (fun acc r => insert_by_sent_date r acc) rows [].

Definition message_select_ordered (thread_id user_id : string)
    : M (list MessageRow) :=
  call (MessageSelect [thread_id] user_id) (fun t =>
    (inr (order_by_sent_date
            (filter (fun r => Is_true (message_matches [thread_id] user_id r))
               (t_messages t))), t)).

(** *** companies *)

Definition company_matches (domain user_id : string) (r : CompanyRow) : bool :=
  String.eqb (co_domain_name r) domain && String.eqb (co_user_id r) user_id.

Definition company_select (domain user_id : string) : M (option CompanyRow) :=
  call (CompanySelect domain user_id) (fun t =>
    (maybe_single
       (filter (fun r => Is_true (company_matches domain user_id r))
          (t_companies t)), t)).

(** The payload [company_data] of an insert or upsert. *)
Record CompanyData := {
  cd_user_id : string;
  cd_domain_name : string;
  cd_company_name : string;
  cd_status : string }.

Definition company_new (id : ID) (d : CompanyData) : CompanyRow :=
  {| co_company_id := id; co_user_id := cd_user_id d;
     co_domain_name := cd_domain_name d; co_company_name := cd_company_name d;
     co_status := cd_status d |}.

Definition company_overwrite (d : CompanyData) (r : CompanyRow) : CompanyRow :=
  if company_matches (cd_domain_name d) (cd_user_id d) r
  then company_new (co_company_id r) d else r.

Definition company_insert_effect (d : CompanyData) (t : Tables)
    : (PyExn + CompanyRow) * Tables :=
  if existsb (company_matches (cd_domain_name d) (cd_user_id d)) (t_companies t)
  then (inl duplicate_key_error, t)
  else
    let r := company_new (t_next_id t) d in
    (inr r, set_next_id (t_next_id t + 1)%N
              (set_companies (t_companies t ++ [r]) t)).

(** [.insert(company_data)] *)
Definition company_insert (d : CompanyData) : M CompanyRow :=
  call (CompanyInsert (cd_domain_name d) (cd_user_id d)) (company_insert_effect d).

(** [.upsert(company_data, on_conflict="user_id,domain_name")] *)
Definition company_upsert (d : CompanyData) : M CompanyRow :=
  call (CompanyUpsert (cd_domain_name d) (cd_user_id d)) (fun t =>
    match filter (fun r => Is_true (company_matches (cd_domain_name d) (cd_user_id d) r))
            (t_companies t) with
    | r :: _ =>
        (inr (company_new (co_company_id r) d),
         set_companies (map (company_overwrite d) (t_companies t)) t)
    | [] => company_insert_effect d t
    end).

(** *** customers *)

Definition customer_matches (email user_id : string) (r : CustomerRow) : bool :=
  String.eqb (cu_email r) email && String.eqb (cu_user_id r) user_id.

Definition customer_select (email user_id : string) : M (option CustomerRow) :=
  call (CustomerSelect email user_id) (fun t =>
    (maybe_single
       (filter (fun r => Is_true (customer_matches email user_id r))
          (t_customers t)), t)).

(** The payload [customer_data] of an insert; a key left out of the payload
    and a null both make the column null. *)
Record CustomerData := {
  cud_user_id : string;
  cud_email : string;
  cud_full_name : string;
  cud_company_id : option ID;
  cud_domain_match : option string;
  cud_status : string }.

Definition customer_new (id : ID) (d : CustomerData) : CustomerRow :=
  {| cu_customer_id := id; cu_user_id := cud_user_id d; cu_email := cud_email d;
     cu_full_name := Some (cud_full_name d); cu_company_id := cud_company_id d;
     cu_domain_match := cud_domain_match d; cu_status := cud_status d |}.

(** [.insert(customer_data)] *)
Definition customer_insert (d : CustomerData) : M CustomerRow :=
  call (CustomerInsert (cud_email d) (cud_user_id d) (cud_company_id d)) (fun t =>
    if existsb (customer_matches (cud_email d) (cud_user_id d)) (t_customers t)
    then (inl duplicate_key_error, t)
    else
      let r := customer_new (t_next_id t) d in
      (inr r, set_next_id (t_next_id t + 1)%N
                (set_customers (t_customers t ++ [r]) t))).

Definition customer_set_company (company_id : option ID)
    (domain_match : option string) (customer_id : ID) (user_id : string)
    (r : CustomerRow) : CustomerRow :=
  if N.eqb (cu_customer_id r) customer_id && String.eqb (cu_user_id r) user_id
  then {| cu_customer_id := cu_customer_id r; cu_user_id := cu_user_id r;
          cu_email := cu_email r; cu_full_name := cu_full_name r;
          cu_company_id := company_id; cu_domain_match := domain_match;
          cu_status := cu_status r |}
  else r.

(** [.update({"company_id": .., "domain_match": ..}).eq("customer_id", ..).eq("user_id", ..)] *)
Definition customer_update (company_id : option ID) (domain_match : option string)
    (customer_id : ID) (user_id : string) : M unit :=
  call (CustomerUpdate company_id domain_match customer_id user_id) (fun t =>
    (inr tt,
     set_customers
       (map (customer_set_company company_id domain_match customer_id user_id)
          (t_customers t)) t)).

(** [.select("..., companies(company_id, company_name)").in_("customer_id", ids)]:
    each customer with the company its [company_id] points to. *)
Definition customer_select_in (ids : list ID) (user_id : string)
    : M (list (CustomerRow * option CompanyRow)) :=
  call (CustomerSelectIn ids user_id) (fun t =>
    (inr (map (fun r =>
                 (r, match cu_company_id r with
                     | Some c => List.find (fun co => N.eqb (co_company_id co) c)
                                   (t_companies t)
                     | None => None
                     end))
            (filter (fun r => Is_true (bool_decide (cu_customer_id r ∈ ids)
                                        && String.eqb (cu_user_id r) user_id))
               (t_customers t))), t)).

(** *** thread_participants *)

Definition participant_same (a b : ParticipantRow) : bool :=
  String.eqb (pa_thread_id a) (pa_thread_id b)
  && N.eqb (pa_customer_id a) (pa_customer_id b).

Definition participant_add_new (rows : list ParticipantRow) (r : ParticipantRow)
    : list ParticipantRow :=
  if existsb (participant_same r) rows then rows else rows ++ [r].

(** [.upsert(rows, on_conflict="thread_id,customer_id", ignore_duplicates=True)] *)
Definition participant_upsert (rows : list ParticipantRow) : M unit :=
  call (ParticipantUpsert rows) (fun t =>
    (inr tt, set_participants (fold_left participant_add_new rows (t_participants t)) t)).

(** [.insert(participant)] *)
Definition participant_insert (r : ParticipantRow) : M unit :=
  call (ParticipantInsert r) (fun t =>
    if existsb (participant_same r) (t_participants t)
    then (inl duplicate_key_error, t)
    else (inr tt, set_participants (t_participants t ++ [r]) t)).

(** [.select("customer_id").eq("thread_id", ..)], with or without the
    filter on the user. *)
Definition participant_select (thread_id : string) (user_id : option string)
    : M (list ID) :=
  call (ParticipantSelect thread_id user_id) (fun t =>
    (inr (map pa_customer_id
            (filter (fun r => Is_true
                       (String.eqb (pa_thread_id r) thread_id
                        && match user_id with
                           | Some u => String.eqb (pa_user_id r) u
                           | None => true
                           end))
               (t_participants t))), t)).

(** *** thread_company_link *)

Definition link_same (a b : LinkRow) : bool :=
  String.eqb (li_thread_id a) (li_thread_id b)
  && N.eqb (li_company_id a) (li_company_id b).

(** [.insert(link_data)] *)
Definition link_insert (r : LinkRow) : M LinkRow :=
  call (LinkInsert r) (fun t =>
    if existsb (link_same r) (t_links t)
    then (inl duplicate_key_error, t)
    else (inr r, set_links (t_links t ++ [r]) t)).

Definition link_select (thread_id : string) : M (list ID) :=
  call (LinkSelect thread_id) (fun t =>
    (inr (map li_company_id
            (filter (fun r => Is_true (String.eqb (li_thread_id r) thread_id))
               (t_links t))), t)).

(** ** Participants of a message ([resolver.py], shared with [processor.py]) *)

(** What [json.loads] makes of the text of an address column. *)
Inductive JsonLoad :=
| LoadError
| LoadList (items : list AddrItem)
| LoadOther.

Definition item_str (i : AddrItem) : string :=
  match i with ItemStr s => s | ItemOther repr => repr end.

(** The loop [for item in ...: email = extract_email_from_address(..);
    if email: emails.add(email.lower())] *)
Definition emails_of_items (items : list AddrItem) : gset string :=
  fold_left
    (fun (emails : gset string) item =>
       match extract_email_from_address (Some (item_str item)) with
       | Some email => if Py.truthy email then emails ∪ {[ Py.lower email ]} else emails
       | None => emails
       end)
    items ∅.

Definition addr_truthy (f : AddrField) : bool :=
  match f with
  | AddrNull => false
  | AddrList items => match items with [] => false | _ => true end
  | AddrStr s => Py.truthy s
  | AddrOther => true
  end.

Section Resolution.

(** [json.loads], a library function the services call on address text. *)
Variable json_loads : string -> JsonLoad.

(** [extract_emails_from_json] *)
Definition extract_emails_from_json (json_data : AddrField) : gset string :=
  if negb (addr_truthy json_data) then ∅
  else
    match json_data with
    | AddrList items => emails_of_items items
    | AddrStr s =>
        match json_loads s with
        | LoadList items => emails_of_items items
        | LoadOther => ∅
        | LoadError =>
            match extract_email_from_address (Some s) with
            | Some email => if Py.truthy email then {[ Py.lower email ]} else ∅
            | None => ∅
            end
        end
    | _ => ∅
    end.

(** The emails one message adds to a set: sender, recipients, copies. *)
Definition message_emails (message : MessageRow) : gset string :=
  let from_ :=
    if Py.truthy_opt (m_from_address message) then
      match extract_email_from_address (m_from_address message) with
      | Some email => if Py.truthy email then {[ Py.lower email ]} else ∅
      | None => ∅
      end
    else ∅ in
  let to_ :=
    if addr_truthy (m_to_addresses message)
    then extract_emails_from_json (m_to_addresses message) else ∅ in
  let cc :=
    if addr_truthy (m_cc_addresses message)
    then extract_emails_from_json (m_cc_addresses message) else ∅ in
  from_ ∪ to_ ∪ cc.

(** ** The entity processor ([processor.py]) *)

(** Step 3: the participant emails of the thread. *)
Definition extract_participant_emails (messages : list MessageRow) : gset string :=
  fold_left (fun emails message => emails ∪ message_emails message) messages ∅.

(** Step 4, the body of [for email in participant_emails]. *)
Definition add_business_domain (acc : gset string * gmap string string)
    (email : string) : gset string * gmap string string :=
  let domain := extract_domain_from_email email in
  if Py.truthy domain && is_business_domain domain
  then (acc.1 ∪ {[ domain ]}, <[ email := domain ]> acc.2)
  else acc.

(** Step 4: [business_domains] and [email_to_domain]. *)
Definition filter_business_domains (participant_emails : gset string)
    : gset string * gmap string string :=
  fold_left add_business_domain (elements participant_emails) (∅, ∅).

(** [domain.split(".")[0].capitalize() if "." in domain else domain.capitalize()] *)
Definition company_name_of_domain (domain : string) : string :=
  if Py.contains "." domain
  then Py.capitalize (nth 0 (Py.split "." domain) "")
  else Py.capitalize domain.

Definition company_data_of (user_id domain : string) : CompanyData :=
  {| cd_user_id := user_id; cd_domain_name := domain;
     cd_company_name := company_name_of_domain domain; cd_status := "active" |}.

(** ["duplicate key" in str(e).lower() or "unique constraint" in str(e).lower()] *)
Definition is_duplicate_error (e : PyExn) : bool :=
  str_in "duplicate key" (Py.lower (exn_str e))
  || str_in "unique constraint" (Py.lower (exn_str e)).

(** What step 5 carries from one domain to the next. *)
Record CompanyLoop := {
  cl_domain_to_company_id : gmap string ID;
  cl_companies_created : Z;
  cl_companies_found : Z;
  cl_errors : list string }.

Definition company_created (domain : string) (id : ID) (st : CompanyLoop) : CompanyLoop :=
  {| cl_domain_to_company_id := <[ domain := id ]> (cl_domain_to_company_id st);
     cl_companies_created := cl_companies_created st + 1;
     cl_companies_found := cl_companies_found st;
     cl_errors := cl_errors st |}.

Definition company_found (domain : string) (id : ID) (st : CompanyLoop) : CompanyLoop :=
  {| cl_domain_to_company_id := <[ domain := id ]> (cl_domain_to_company_id st);
     cl_companies_created := cl_companies_created st;
     cl_companies_found := cl_companies_found st + 1;
     cl_errors := cl_errors st |}.

Definition company_error (msg : string) (st : CompanyLoop) : CompanyLoop :=
  {| cl_domain_to_company_id := cl_domain_to_company_id st;
     cl_companies_created := cl_companies_created st;
     cl_companies_found := cl_companies_found st;
     cl_errors := cl_errors st ++ [msg] |}.

(** Step 5, the body of [for domain in business_domains]. *)
Definition upsert_company (user_id domain : string) (st : CompanyLoop) : M CompanyLoop :=
  try_
    (company_response <- company_select domain user_id ;;
     match company_response with
     | Some row => ret (company_found domain (co_company_id row) st)
     | None =>
         let company_data := company_data_of user_id domain in
         try_
           (inserted_company <- company_upsert company_data ;;
            ret (company_created domain (co_company_id inserted_company) st))
           (fun upsert_error =>
              try_
                (inserted_company <- company_insert company_data ;;
                 ret (company_created domain (co_company_id inserted_company) st))
                (fun insert_error =>
                   if negb (is_duplicate_error insert_error)
                   then ret (company_error
                               ("Error creating company for domain " +:+ domain
                                +:+ ": " +:+ exn_str insert_error) st)
                   else ret st))
     end)
    (fun e =>
       ret (company_error ("Error processing company for domain " +:+ domain
                           +:+ ": " +:+ exn_str e) st)).

Definition upsert_companies (user_id : string) (business_domains : gset string)
    : M CompanyLoop :=
  for_each (elements business_domains) (upsert_company user_id)
    {| cl_domain_to_company_id := ∅; cl_companies_created := 0;
       cl_companies_found := 0; cl_errors := [] |}.

(** What step 6 carries from one email to the next. *)
Record CustomerLoop := {
  ul_email_to_customer_id : gmap string ID;
  ul_customers_created : Z;
  ul_customers_found : Z;
  ul_errors : list string }.

Definition customer_created (email : string) (id : ID) (st : CustomerLoop) : CustomerLoop :=
  {| ul_email_to_customer_id := <[ email := id ]> (ul_email_to_customer_id st);
     ul_customers_created := ul_customers_created st + 1;
     ul_customers_found := ul_customers_found st;
     ul_errors := ul_errors st |}.

Definition customer_found (email : string) (id : ID) (st : CustomerLoop) : CustomerLoop :=
  {| ul_email_to_customer_id := <[ email := id ]> (ul_email_to_customer_id st);
     ul_customers_created := ul_customers_created st;
     ul_customers_found := ul_customers_found st + 1;
     ul_errors := ul_errors st |}.

Definition customer_error (msg : string) (st : CustomerLoop) : CustomerLoop :=
  {| ul_email_to_customer_id := ul_email_to_customer_id st;
     ul_customers_created := ul_customers_created st;
     ul_customers_found := ul_customers_found st;
     ul_errors := ul_errors st ++ [msg] |}.

(** [customer_data] of step 6: [company_id] and [domain_match] are set only
    when they are there. *)
Definition customer_data_of (user_id email : string) (company_id : option ID)
    (domain : option string) : CustomerData :=
  {| cud_user_id := user_id; cud_email := email;
     cud_full_name :=
       if Py.contains "@" email then nth 0 (Py.split "@" email) "" else email;
     cud_company_id := company_id;
     cud_domain_match := if Py.truthy_opt domain then domain else None;
     cud_status := "prospect" |}.

(** Step 6, the body of [for email in participant_emails]. *)
Definition upsert_customer (user_id : string)
    (email_to_domain : gmap string string) (domain_to_company_id : gmap string ID)
    (email : string) (st : CustomerLoop) : M CustomerLoop :=
  try_
    (customer_response <- customer_select email user_id ;;
     match customer_response with
     | Some row =>
         let customer_id := cu_customer_id row in
         let st := customer_found email customer_id st in
         let domain := email_to_domain !! email in
         if Py.truthy_opt domain then
           match domain ≫= (fun d => domain_to_company_id !! d) with
           | Some company_id =>
               try_ (customer_update (Some company_id) domain customer_id user_id ;;;
                     ret st)
                    (fun update_error => ret st)
           | None => ret st
           end
         else ret st
     | None =>
         let domain := email_to_domain !! email in
         let company_id :=
           if Py.truthy_opt domain
           then domain ≫= (fun d => domain_to_company_id !! d) else None in
         let customer_data := customer_data_of user_id email company_id domain in
         try_
           (inserted_row <- customer_insert customer_data ;;
            ret (customer_created email (cu_customer_id inserted_row) st))
           (fun insert_error =>
              if is_duplicate_error insert_error then
                try_
                  (existing_response <- customer_select email user_id ;;
                   match existing_response with
                   | Some row =>
                       let customer_id := cu_customer_id row in
                       let st := customer_found email customer_id st in
                       match company_id with
                       | Some c =>
                           try_ (customer_update (Some c) domain customer_id user_id ;;;
                                 ret st)
                                (fun _ => ret st)
                       | None => ret st
                       end
                   | None => ret st
                   end)
                  (fun fetch_error =>
                     ret (customer_error
                            ("Error fetching existing customer for " +:+ email
                             +:+ ": " +:+ exn_str fetch_error) st))
              else
                ret (customer_error ("Error creating customer for " +:+ email
                                     +:+ ": " +:+ exn_str insert_error) st))
     end)
    (fun e =>
       ret (customer_error ("Error processing customer for " +:+ email
                            +:+ ": " +:+ exn_str e) st)).

Definition upsert_customers (user_id : string) (participant_emails : gset string)
    (email_to_domain : gmap string string) (domain_to_company_id : gmap string ID)
    : M CustomerLoop :=
  for_each (elements participant_emails)
    (upsert_customer user_id email_to_domain domain_to_company_id)
    {| ul_email_to_customer_id := ∅; ul_customers_created := 0;
       ul_customers_found := 0; ul_errors := [] |}.

(** [set(domain_to_company_id.values())] *)
Definition map_values_set (m : gmap string ID) : gset ID :=
  list_to_set (map snd (map_to_list m)).

(** Step 7, the body of [for company_id in companies_for_thread]: the links
    created so far and the errors. *)
Definition create_link (user_id thread_id : string) (company_id : ID)
    (st : Z * list string) : M (Z * list string) :=
  let link_data := {| li_thread_id := thread_id; li_company_id := company_id;
                      li_user_id := user_id |} in
  try_
    (link_insert link_data ;;; ret (st.1 + 1, st.2))
    (fun insert_error =>
       if negb (is_duplicate_error insert_error)
       then ret (st.1, st.2 ++ ["Error creating thread-company link: "
                                +:+ exn_str insert_error])
       else ret st).

Record ProcessorReport := {
  pr_success : bool;
  pr_messages_processed : Z;
  pr_emails_extracted : Z;
  pr_business_domains_found : Z;
  pr_companies_created : Z;
  pr_companies_found : Z;
  pr_customers_created : Z;
  pr_customers_found : Z;
  pr_thread_company_links_created : Z;
  pr_errors : list string }.

Definition processor_report_early (success : bool) (errors : list string)
    : ProcessorReport :=
  {| pr_success := success; pr_messages_processed := 0; pr_emails_extracted := 0;
     pr_business_domains_found := 0; pr_companies_created := 0;
     pr_companies_found := 0; pr_customers_created := 0; pr_customers_found := 0;
     pr_thread_company_links_created := 0; pr_errors := errors |}.

(** The handler of the outermost [try]: the error is reported and the stage
    set to [failed], a failure of that write being swallowed. *)
Definition processor_fatal (user_id thread_id : string) (errors : list string)
    (e : PyExn) : M ProcessorReport :=
  try_ (stage_update "failed" [thread_id] user_id ;;; ret tt) (fun _ => ret tt) ;;;
  ret (processor_report_early false
         (errors ++ ["Fatal error in process_thread_entities: " +:+ exn_str e])).

(** Steps 3 to 8, once the messages are there. *)
Definition process_messages (user_id thread_id : string) (errors : list string)
    (messages : list MessageRow) : M ProcessorReport :=
  let participant_emails := extract_participant_emails messages in
  let '(business_domains, email_to_domain) :=
    filter_business_domains participant_emails in
  companies <- upsert_companies user_id business_domains ;;
  let domain_to_company_id := cl_domain_to_company_id companies in
  customers <- upsert_customers user_id participant_emails email_to_domain
                 domain_to_company_id ;;
  links <- for_each (elements (map_values_set domain_to_company_id))
             (create_link user_id thread_id) (0, []) ;;
  errors8 <- try_ (stage_update "queued" [thread_id] user_id ;;; ret [])
               (fun e => ret ["Error updating stage to 'queued': " +:+ exn_str e]) ;;
  ret {| pr_success := true;
         pr_messages_processed := Z.of_nat (length messages);
         pr_emails_extracted := Z.of_nat (size participant_emails);
         pr_business_domains_found := Z.of_nat (size business_domains);
         pr_companies_created := cl_companies_created companies;
         pr_companies_found := cl_companies_found companies;
         pr_customers_created := ul_customers_created customers;
         pr_customers_found := ul_customers_found customers;
         pr_thread_company_links_created := links.1;
         pr_errors := errors ++ cl_errors companies ++ ul_errors customers
                      ++ links.2 ++ errors8 |}.

(** Step 2: the messages of the thread; with none, the stage is set to
    [queued] at once.  An exception of either call is kept for the caller. *)
Definition fetch_messages (user_id thread_id : string)
    : M (PyExn + list MessageRow) :=
  try_
    (messages <- message_select [thread_id] user_id ;;
     match messages with
     | [] => stage_update "queued" [thread_id] user_id ;;; ret (inr [])
     | _ => ret (inr messages)
     end)
    (fun e => ret (inl e)).

(** [process_thread_entities].  Step 2 appends its message and raises again,
    which the outermost handler catches; every later step catches what its
    calls raise, so that handler runs for nothing else (the last [try_]
    below stands for it). *)
Definition process_thread_entities (user_id thread_id : string) : M ProcessorReport :=
  errors1 <- try_ (stage_update "resolving_entities" [thread_id] user_id ;;; ret [])
               (fun e => ret ["Error updating stage to 'resolving_entities': "
                              +:+ exn_str e]) ;;
  fetched <- fetch_messages user_id thread_id ;;
  match fetched with
  | inl e =>
      processor_fatal user_id thread_id
        (errors1 ++ ["Error fetching messages: " +:+ exn_str e]) e
  | inr [] => ret (processor_report_early true errors1)
  | inr messages =>
      try_ (process_messages user_id thread_id errors1 messages)
           (processor_fatal user_id thread_id errors1)
  end.

(** ** The batch resolver ([resolver.py]) *)

(** [m], with what it raises handed back as a value. *)
Definition attempt {A} (m : M A) : M (PyExn + A) :=
  try_ (a <- m ;; ret (inr a)) (fun e => ret (inl e)).

(** [trigger_analyze_thread_job]: the hand-over to the job transport.  What
    the transport, or the in-process fallback, then does to the thread is
    the analysis job's business and no part of this call. *)
Definition trigger_analyze_thread_job (user_id thread_id : string) : M unit :=
  call (TriggerJob user_id thread_id) (fun t => (inr tt, t)).

Record ResolverReport := {
  rr_success : bool;
  rr_processed_threads : Z;
  rr_failed_threads : list string;
  rr_customers_created : Z;
  rr_customers_found : Z;
  rr_participants_linked : Z;
  rr_jobs_triggered : Z;
  rr_skipped_threads : gmap string string;
  rr_errors : list string }.

Definition resolver_report (success : bool) (processed created found linked
    triggered : Z) (skipped : gmap string string) (errors : list string)
    : ResolverReport :=
  {| rr_success := success; rr_processed_threads := processed;
     rr_failed_threads := []; rr_customers_created := created;
     rr_customers_found := found; rr_participants_linked := linked;
     rr_jobs_triggered := triggered; rr_skipped_threads := skipped;
     rr_errors := errors |}.

(** Step 2, first half: the user's own address, lower-cased; any failure
    leaves it unknown. *)
Definition fetch_user_email (user_id : string) : M (option string) :=
  try_
    (profile_response <- profile_select user_id ;;
     match profile_response with
     | Some row =>
         if Py.truthy_opt (pf_email row)
         then ret (Py.lower <$> pf_email row) else ret None
     | None => ret None
     end)
    (fun e => ret None).

(** Step 3: the emails of each thread, the user's own address removed. *)
Definition add_message_emails (thread_emails : gmap string (gset string))
    (message : MessageRow) : gmap string (gset string) :=
  let thread_id := m_thread_id message in
  if negb (Py.truthy thread_id) then thread_emails
  else
    <[ thread_id := default ∅ (thread_emails !! thread_id) ∪ message_emails message ]>
      thread_emails.

Definition extract_thread_emails (user_email : option string)
    (messages : list MessageRow) : gmap string (gset string) :=
  let thread_emails := fold_left add_message_emails messages ∅ in
  match user_email with
  | Some own => if Py.truthy own
                then (fun emails => emails ∖ {[ own ]}) <$> thread_emails
                else thread_emails
  | None => thread_emails
  end.

(** [all_unique_emails] *)
Definition all_unique_emails (thread_emails : gmap string (gset string))
    : gset string :=
  fold_left (fun acc '(_, emails) => acc ∪ emails) (map_to_list thread_emails) ∅.

(** Step 4, the company of a new customer: looked up by domain, created
    when there is none; no domain, no company. *)
Definition find_or_create_company (user_id domain : string) : M (option ID) :=
  if Py.truthy domain then
    company_response <- company_select domain user_id ;;
    match company_response with
    | Some row => ret (Some (co_company_id row))
    | None =>
        inserted_company <- company_insert (company_data_of user_id domain) ;;
        ret (Some (co_company_id inserted_company))
    end
  else ret None.

(** Step 4, the body of [for email in all_unique_emails]. *)
Definition resolve_customer (user_id email : string) (st : CustomerLoop)
    : M CustomerLoop :=
  try_
    (customer_response <- customer_select email user_id ;;
     match customer_response with
     | Some row => ret (customer_found email (cu_customer_id row) st)
     | None =>
         let domain := extract_domain_from_email email in
         let local_part := extract_local_part_from_email email in
         company_id <- find_or_create_company user_id domain ;;
         match company_id with
         | None =>
             ret (customer_error
                    ("Could not create or find company for domain " +:+ domain
                     +:+ " - cannot create customer " +:+ email) st)
         | Some c =>
             inserted_row <- customer_insert
                {| cud_user_id := user_id; cud_email := email;
                   cud_full_name := local_part; cud_company_id := Some c;
                   cud_domain_match := Some domain; cud_status := "prospect" |} ;;
             ret (customer_created email (cu_customer_id inserted_row) st)
         end
     end)
    (fun e =>
       ret (customer_error ("Error resolving customer for " +:+ email
                            +:+ ": " +:+ exn_str e) st)).

(** Step 5: the rows to link, one for each email of a thread that has a
    customer. *)
Definition participants_to_insert (user_id : string)
    (thread_emails : gmap string (gset string))
    (email_to_customer_id : gmap string ID) : list ParticipantRow :=
  flat_map
    (fun '(thread_id, emails) =>
       flat_map
         (fun email =>
            match email_to_customer_id !! email with
            | Some customer_id =>
                [{| pa_thread_id := thread_id; pa_customer_id := customer_id;
                    pa_user_id := user_id |}]
            | None => []
            end)
         (elements emails))
    (map_to_list thread_emails).

(** Step 5: one upsert for all rows; when it fails, one insert per row,
    counting those that go through. *)
Definition link_participants (rows : list ParticipantRow) : M Z :=
  match rows with
  | [] => ret 0
  | _ =>
      try_ (participant_upsert rows ;;; ret (Z.of_nat (length rows)))
        (fun e =>
           for_each rows
             (fun participant successful_inserts =>
                try_ (participant_insert participant ;;;
                      ret (successful_inserts + 1))
                     (fun individual_error => ret successful_inserts))
             0)
  end.

(** Step 6: how the gate reads a stage. *)
Inductive Eligibility :=
| SkipInFlight (stage : string)
| SkipCompleted
| Process
| ProcessUnknown (stage : string).

Definition classify_stage (current_stage : option string) : Eligibility :=
  match current_stage with
  | Some s =>
      if in_list s ["analyzing"; "queued"; "queued_for_analysis"] then SkipInFlight s
      else if String.eqb s "completed" then SkipCompleted
      else if in_list s ["new"; "pending"; "resolving_entities"] then Process
      else ProcessUnknown s
  | None => Process
  end.

(** [thread_stages]: the stage read for each thread; a later row of the
    same thread overwrites an earlier one. *)
Definition thread_stages_of (rows : list StageRow) : gmap string (option string) :=
  fold_left (fun m r => <[ st_thread_id r := st_current_stage r ]> m) rows ∅.

Record Gate := {
  threads_to_process : list string;
  skipped_threads : gmap string string;
  gate_warnings : list string }.

(** Step 6, the body of [for thread_id in thread_ids]. *)
Definition gate_step (thread_stages : gmap string (option string)) (g : Gate)
    (thread_id : string) : Gate :=
  let current_stage := mjoin (thread_stages !! thread_id) in
  match classify_stage current_stage with
  | SkipInFlight s =>
      {| threads_to_process := threads_to_process g;
         skipped_threads :=
           <[ thread_id := "already in '" +:+ s +:+ "' stage" ]> (skipped_threads g);
         gate_warnings := gate_warnings g |}
  | SkipCompleted =>
      {| threads_to_process := threads_to_process g;
         skipped_threads := <[ thread_id := "already completed" ]> (skipped_threads g);
         gate_warnings := gate_warnings g |}
  | Process =>
      {| threads_to_process := threads_to_process g ++ [thread_id];
         skipped_threads := skipped_threads g;
         gate_warnings := gate_warnings g |}
  | ProcessUnknown s =>
      {| threads_to_process := threads_to_process g ++ [thread_id];
         skipped_threads := skipped_threads g;
         gate_warnings :=
           gate_warnings g ++ ["Thread " +:+ thread_id +:+ " has unknown stage '"
                               +:+ s +:+ "', will process anyway"] |}
  end.

Definition idempotency_gate (thread_stages : gmap string (option string))
    (thread_ids : list string) : Gate :=
  fold_left (gate_step thread_stages) thread_ids
    {| threads_to_process := []; skipped_threads := ∅; gate_warnings := [] |}.

(** Step 7, the body of [for thread_id in threads_to_process]: jobs triggered
    so far and the errors. *)
Definition trigger_job (user_id thread_id : string) (st : Z * list string)
    : M (Z * list string) :=
  try_ (trigger_analyze_thread_job user_id thread_id ;;; ret (st.1 + 1, st.2))
    (fun job_error =>
       ret (st.1, st.2 ++ ["Error triggering analysis job for thread " +:+ thread_id
                           +:+ ": " +:+ exn_str job_error])).

(** The handler of the outermost [try]. *)
Definition resolver_fatal (user_id : string) (thread_ids : list string)
    (created found linked : Z) (skipped : gmap string string)
    (errors : list string) (e : PyExn) : M ResolverReport :=
  try_ (stage_update "failed" thread_ids user_id ;;; ret tt) (fun _ => ret tt) ;;;
  ret (resolver_report false 0 created found linked 0 skipped
         (errors ++ ["Fatal error in resolve_thread_entities: " +:+ exn_str e])).

(** Steps 6 and 7: the gate, then the stage write and the jobs for the
    threads it lets through. *)
Definition queue_for_analysis (user_id : string) (thread_ids : list string)
    (created found linked : Z) (errors : list string) : M ResolverReport :=
  stages_response <- attempt (stage_select thread_ids user_id) ;;
  match stages_response with
  | inl e => resolver_fatal user_id thread_ids created found linked ∅ errors e
  | inr rows =>
      let g := idempotency_gate (thread_stages_of rows) thread_ids in
      let n := Z.of_nat (length thread_ids) in
      match threads_to_process g with
      | [] => ret (resolver_report true n created found linked 0
                     (skipped_threads g) errors)
      | to_process =>
          queued <- attempt (stage_update "queued" to_process user_id) ;;
          match queued with
          | inl e =>
              ret (resolver_report false 0 created found linked 0
                     (skipped_threads g)
                     (errors ++ ["Error updating final stage and triggering jobs: "
                                 +:+ exn_str e]))
          | inr _ =>
              jobs <- for_each to_process (trigger_job user_id) (0, errors) ;;
              ret (resolver_report true n created found linked jobs.1
                     (skipped_threads g) jobs.2)
          end
      end
  end.

(** [resolve_thread_entities] *)
Definition resolve_thread_entities (user_id : string) (thread_ids : list string)
    : M ResolverReport :=
  match thread_ids with
  | [] => ret (resolver_report true 0 0 0 0 0 ∅ [])
  | _ =>
      updated <- attempt (stage_update "resolving_entities" thread_ids user_id) ;;
      match updated with
      | inl e => resolver_fatal user_id thread_ids 0 0 0 ∅ [] e
      | inr _ =>
          user_email <- fetch_user_email user_id ;;
          messages_response <- attempt (message_select thread_ids user_id) ;;
          match messages_response with
          | inl e => resolver_fatal user_id thread_ids 0 0 0 ∅ [] e
          | inr [] =>
              analyzing <- attempt (stage_update "analyzing" thread_ids user_id) ;;
              match analyzing with
              | inl e => resolver_fatal user_id thread_ids 0 0 0 ∅ [] e
              | inr _ => ret (resolver_report true 0 0 0 0 0 ∅ [])
              end
          | inr messages =>
              let thread_emails := extract_thread_emails user_email messages in
              customers <- for_each (elements (all_unique_emails thread_emails))
                             (resolve_customer user_id)
                             {| ul_email_to_customer_id := ∅;
                                ul_customers_created := 0;
                                ul_customers_found := 0; ul_errors := [] |} ;;
              linked <- link_participants
                          (participants_to_insert user_id thread_emails
                             (ul_email_to_customer_id customers)) ;;
              queue_for_analysis user_id thread_ids
                (ul_customers_created customers) (ul_customers_found customers)
                linked (ul_errors customers)
          end
      end
  end.

End Resolution.

(** ** The thread analyzer ([analyzer.py]): transcripts *)

(** [estimate_tokens] *)
Definition estimate_tokens (text : string) : Z := Py.len text / 4.

(** [int(n * 0.2)] for a list length [n].  The product is the double
    nearest to [n] times the double 0.2 and [int] drops its fraction; for
    [0 <= n < 2^50] that is the integer quotient of [n] by 5. *)
Definition int_of_20_percent (n : Z) : Z := n / 5.

(** [sep.join(items)] when an item may be [None]: a [TypeError] then. *)
Fixpoint join_texts (sep : string) (items : list (option string)) : PyExn + list string :=
  match items with
  | [] => inr []
  | None :: _ =>
      inl {| exn_class := TypeError;
             exn_str := "sequence item: expected str instance, NoneType found" |}
  | Some s :: rest =>
      match join_texts sep rest with
      | inl e => inl e
      | inr l => inr (s :: l)
      end
  end.

Definition join_opt (sep : string) (items : list (option string)) : PyExn + string :=
  match join_texts sep items with
  | inl e => inl e
  | inr l => inr (Py.join sep l)
  end.

(** The separator of transcript lines: two line feeds. *)
Definition blank_line : string := String "010" (String "010" EmptyString).

Definition TRUNCATION_MARKER : string :=
  "[...Middle of conversation truncated for length...]".

(** The message dictionaries [truncate_messages_smart] works on. *)
Record SmartMessage := {
  sm_text : option string;
  sm_sender : option string;
  sm_timestamp : option string }.

(** [truncate_messages_smart] *)
Definition truncate_messages_smart (messages : list SmartMessage)
    : PyExn + list SmartMessage :=
  match messages with
  | [] => inr messages
  | _ =>
      match join_opt " " (map sm_text messages) with
      | inl e => inl e
      | inr total_text =>
          let total_tokens := estimate_tokens total_text in
          if total_tokens <=? 100000 then inr messages
          else
            let total_messages := Z.of_nat (length messages) in
            let first_20_percent := int_of_20_percent total_messages in
            let last_20_percent := int_of_20_percent total_messages in
            inr (Py.slice_to messages first_20_percent
                 ++ [{| sm_text := Some TRUNCATION_MARKER;
                        sm_sender := Some "System"; sm_timestamp := None |}]
                 ++ Py.slice_from messages (- last_20_percent))
      end
  end.

(** An entry of the [participants] dictionary. *)
Record ParticipantInfo := {
  customer_name : string;
  company_name : string }.

(** [message.get("body_text", "") or message.get("body_html", "")] *)
Definition message_body (message : MessageRow) : option string :=
  Py.or_ (m_body_text message) (m_body_html message).

(** The transcript line of a message, none for a message without body. *)
Definition transcript_line (participants : gmap ID ParticipantInfo)
    (message : MessageRow) : list string :=
  match message_body message with
  | Some body_text =>
      if Py.truthy body_text then
        let participant_info := m_customer_id message ≫= (fun c => participants !! c) in
        let customer_name := default "Unknown" (customer_name <$> participant_info) in
        let company_name := default "Unknown Company" (company_name <$> participant_info) in
        [customer_name +:+ " (" +:+ company_name +:+ "): " +:+ body_text]
      else []
  | None => []
  end.

(** [construct_transcript] *)
Definition construct_transcript (messages : list MessageRow)
    (participants : gmap ID ParticipantInfo) : string :=
  Py.join blank_line
    (flat_map (transcript_line participants) messages).

(** Steps 2 and 3 of [analyze_thread]: the transcript handed to the model. *)
Definition build_transcript (messages : list MessageRow)
    (participants : gmap ID ParticipantInfo) : PyExn + string :=
  let transcript := construct_transcript messages participants in
  match join_opt " " (map message_body messages) with
  | inl e => inl e
  | inr total_text =>
      let total_tokens := estimate_tokens total_text in
      if 100000 <? total_tokens then
        let total_messages := Z.of_nat (length messages) in
        let first_20_percent := int_of_20_percent total_messages in
        let last_20_percent := int_of_20_percent total_messages in
        let transcript_lines :=
          flat_map (transcript_line participants)
            (Py.slice_to messages first_20_percent)
          ++ [TRUNCATION_MARKER]
          ++ flat_map (transcript_line participants)
               (Py.slice_from messages (- last_20_percent)) in
        inr (Py.join blank_line transcript_lines)
      else inr transcript
  end.

(** ** Store calls of the analyzer *)

Definition thread_matches (thread_id user_id : string) (r : ThreadRow) : bool :=
  String.eqb (th_thread_id r) thread_id && String.eqb (th_user_id r) user_id.

Definition thread_select (thread_id user_id : string) : M (option ThreadRow) :=
  call (ThreadSelect thread_id user_id) (fun t =>
    (maybe_single
       (filter (fun r => Is_true (thread_matches thread_id user_id r))
          (t_threads t)), t)).

(** [threads_update_clean]: the columns to write, a column left out being
    [None] here. *)
Record ThreadPatch := {
  tp_summary : option string;
  tp_sentiment : option string;
  tp_sentiment_score : option Z;
  tp_resolution_status : option string;
  tp_problem_statement : option string;
  tp_timeline_summary : option string;
  tp_last_analyzed_at : option string }.

Definition patched {A} (new old : option A) : option A :=
  match new with Some v => Some v | None => old end.

Definition thread_patch (p : ThreadPatch) (thread_id user_id : string)
    (r : ThreadRow) : ThreadRow :=
  if thread_matches thread_id user_id r
  then {| th_thread_id := th_thread_id r; th_user_id := th_user_id r;
          th_last_analyzed_at := patched (tp_last_analyzed_at p) (th_last_analyzed_at r);
          th_summary := patched (tp_summary p) (th_summary r);
          th_sentiment := patched (tp_sentiment p) (th_sentiment r);
          th_sentiment_score := patched (tp_sentiment_score p) (th_sentiment_score r);
          th_resolution_status :=
            patched (tp_resolution_status p) (th_resolution_status r);
          th_problem_statement :=
            patched (tp_problem_statement p) (th_problem_statement r);
          th_timeline_summary :=
            patched (tp_timeline_summary p) (th_timeline_summary r) |}
  else r.

Definition thread_update (p : ThreadPatch) (thread_id user_id : string) : M unit :=
  call (ThreadUpdate thread_id user_id) (fun t =>
    (inr tt, set_threads (map (thread_patch p thread_id user_id) (t_threads t)) t)).

(** [.select("description").eq("thread_id", thread_id)] *)
Definition next_step_select (thread_id : string) : M (list (option string)) :=
  call (NextStepSelect thread_id) (fun t =>
    (inr (map ns_description
            (filter (fun r => Is_true (String.eqb (ns_thread_id r) thread_id))
               (t_next_steps t))), t)).

(** A row of [next_steps_to_insert]. *)
Record NextStepData := {
  nsd_thread_id : string;
  nsd_user_id : string;
  nsd_description : string;
  nsd_owner : option string;
  nsd_due_date : option string;
  nsd_status : string }.

Definition next_step_new (id : ID) (d : NextStepData) : NextStepRow :=
  {| ns_step_id := id; ns_thread_id := nsd_thread_id d; ns_user_id := nsd_user_id d;
     ns_description := Some (nsd_description d); ns_owner := nsd_owner d;
     ns_due_date := nsd_due_date d; ns_status := nsd_status d |}.

(** The rows a batch insert makes, keys counted up from [id]. *)
Fixpoint next_steps_new (id : ID) (ds : list NextStepData) : list NextStepRow :=
  match ds with
  | [] => []
  | d :: rest => next_step_new id d :: next_steps_new (id + 1)%N rest
  end.

(** [.insert(next_steps_to_insert)]: the rows as stored. *)
Definition next_step_insert (ds : list NextStepData) : M (list NextStepRow) :=
  call (NextStepInsert (map nsd_description ds)) (fun t =>
    let rows := next_steps_new (t_next_id t) ds in
    (inr rows,
     set_next_id (t_next_id t + N.of_nat (length ds))%N
       (set_next_steps (t_next_steps t ++ rows) t))).

Definition assignment_insert (rows : list AssignmentRow) : M unit :=
  call (AssignmentInsert rows) (fun t =>
    (inr tt, set_assignments (t_assignments t ++ rows) t)).

(** [.select("title").eq("thread_id", thread_id)] *)
Definition feature_request_select (thread_id : string) : M (list (option string)) :=
  call (FeatureRequestSelect thread_id) (fun t =>
    (inr (map fr_title
            (filter (fun r => Is_true (String.eqb (fr_thread_id r) thread_id))
               (t_feature_requests t))), t)).

Definition feature_request_insert (rows : list FeatureRequestRow) : M unit :=
  call (FeatureRequestInsert (map (fun r => default "" (fr_title r)) rows)) (fun t =>
    (inr tt, set_feature_requests (t_feature_requests t ++ rows) t)).

(** [supabase.rpc("recalculate_company_health_score", ..)]: the score lives
    in a column no modelled code reads. *)
Definition health_score_rpc (company_id : ID) : M unit :=
  call (HealthScoreRpc company_id) (fun t => (inr tt, t)).

(** [datetime.now().isoformat()] *)
Definition now_isoformat : M string := fun w => (inr (clock w), w).

(** ** Dates *)

(** A [datetime]: its wall-clock reading in microseconds since an epoch, and
    its offset from UTC in microseconds when it is aware of one. *)
Record DateTime := {
  dt_wall : Z;
  dt_utcoffset : option Z }.

(** [a > b]: a [TypeError] between a naive and an aware [datetime]. *)
Definition datetime_gt (a b : DateTime) : PyExn + bool :=
  match dt_utcoffset a, dt_utcoffset b with
  | None, None => inr (dt_wall b <? dt_wall a)
  | Some oa, Some ob => inr (dt_wall b - ob <? dt_wall a - oa)
  | _, _ => inl {| exn_class := TypeError;
                   exn_str := "can't compare offset-naive and offset-aware datetimes" |}
  end.

(** ** The analyzer: what the model returns *)

(** An item of [next_steps], of [feature_requests], and the analysis object
    itself, each field being what [.get] reads ([None]: null or absent). *)
Record NextStepJson := {
  nsj_text : option string;
  nsj_owner : option string;
  nsj_due_date : option string }.

Record FeatureRequestJson := {
  frj_title : option string;
  frj_customer_description : option string;
  frj_use_case : option string;
  frj_urgency : option string;
  frj_urgency_signals : option string;
  frj_customer_impact : option string }.

Record Analysis := {
  an_timeline_summary : option string;
  an_problem_statement : option string;
  an_customer_sentiment : option string;
  an_sentiment_score : option Z;
  an_resolution_status : option string;
  an_next_steps : list NextStepJson;
  an_feature_requests : list FeatureRequestJson }.

(** What [analyze_thread] returns under ["analysis"]. *)
Inductive AnalysisResult :=
| AnalysisSkipped (mode reason : string)
| AnalysisDone (mode : string) (problem_statement timeline_summary
                sentiment : option string) (sentiment_score : option Z)
               (resolution_status : option string)
               (next_steps_count feature_requests_count : Z)
               (last_analyzed_at : string).

Record AnalyzerReport := {
  ar_success : bool;
  ar_thread_id : string;
  ar_errors : list string;
  ar_analysis : option AnalysisResult }.

Definition value_error (msg : string) : PyExn :=
  {| exn_class := ValueError; exn_str := msg |}.

(** A value of [PyExn + A] as a step of the monad. *)
Definition lift {A} (r : PyExn + A) : M A :=
  match r with inl e => raise e | inr a => ret a end.

(** ** The analyzer: [analyze_thread] *)

Section Analysis.

(** Library functions and the language model, as the analyzer calls them:
    [datetime.fromisoformat] ([None]: it raises [ValueError]);
    [datetime.strptime(s, "%Y-%m-%d").isoformat()] (likewise);
    the text of the model's response to a prompt; [json.loads] on that
    text, read as an analysis; and the two instruction templates, the
    incremental one taking the earlier summary and the transcript. *)
Variable fromisoformat : string -> option DateTime.
Variable strptime_ymd : string -> option string.
Variable generate_content : string -> string.
Variable json_loads_analysis : string -> option Analysis.
Variable full_system_prompt : string.
Variable incremental_system_prompt : string -> string -> string.

(** [parse_due_date] *)
Definition parse_due_date (date_str : option string) : option string :=
  match date_str with
  | Some s => if Py.truthy s then strptime_ymd (Py.strip s) else None
  | None => None
  end.

(** The test in the loop of [check_next_step_exists]:
    [existing and existing.lower().strip() == description_lower]. *)
Definition same_text (text_lower : string) (existing : option string) : bool :=
  match existing with
  | Some e => Py.truthy e && String.eqb (Py.strip (Py.lower e)) text_lower
  | None => false
  end.

(** [check_next_step_exists] *)
Definition check_next_step_exists (thread_id description : string) : M bool :=
  if negb (Py.truthy description) then ret false
  else
    try_
      (data <- next_step_select thread_id ;;
       match data with
       | [] => ret false
       | _ =>
           let description_lower := Py.strip (Py.lower description) in
           ret (existsb (same_text description_lower) data)
       end)
      (fun e => ret false).

(** [check_feature_request_exists] *)
Definition check_feature_request_exists (thread_id title : string) : M bool :=
  if negb (Py.truthy title) then ret false
  else
    try_
      (data <- feature_request_select thread_id ;;
       match data with
       | [] => ret false
       | _ =>
           let title_lower := Py.strip (Py.lower title) in
           ret (existsb (same_text title_lower) data)
       end)
      (fun e => ret false).

(** Step 1.5, the body of [for msg in messages] in incremental mode: is the
    message kept?  [created_at] is not among the columns fetched, so
    [msg.get("sent_date") or msg.get("created_at")] has [None] on the
    right. *)
Definition keep_message (last_analyzed_at : string) (msg : MessageRow) : bool :=
  match Py.or_ (m_sent_date msg) None with
  | Some msg_date =>
      if Py.truthy msg_date then
        match fromisoformat (Py.replace "Z" "+00:00" msg_date) with
        | None => true
        | Some msg_datetime =>
            match fromisoformat (Py.replace "Z" "+00:00" last_analyzed_at) with
            | None => true
            | Some last_analyzed_datetime =>
                match datetime_gt msg_datetime last_analyzed_datetime with
                | inl _ => true
                | inr after => after
                end
            end
        end
      else true
  | None => true
  end.

(** The entry of one customer in [participants]. *)
Definition participant_entry (customer : CustomerRow * option CompanyRow)
    : ParticipantInfo :=
  let email_name :=
    if Py.truthy (cu_email customer.1)
    then nth 0 (Py.split "@" (cu_email customer.1)) "" else "Unknown" in
  {| customer_name :=
       match cu_full_name customer.1 with
       | Some n => if Py.truthy n then n else email_name
       | None => email_name
       end;
     company_name :=
       match customer.2 with
       | Some co => co_company_name co
       | None => "Unknown Company"
       end |}.

(** The [participants] dictionary of the thread. *)
Definition load_participants (user_id thread_id : string)
    : M (gmap ID ParticipantInfo) :=
  customer_ids <- participant_select thread_id None ;;
  match customer_ids with
  | [] => ret ∅
  | _ =>
      customers <- customer_select_in customer_ids user_id ;;
      ret (fold_left
             (fun (m : gmap ID ParticipantInfo) c =>
                <[ cu_customer_id c.1 := participant_entry c ]> m)
             customers ∅)
  end.

(** Step 4: the prompt, by mode. *)
Definition full_prompt (analysis_mode : string) (old_summary : option string)
    (transcript : string) : string :=
  let system_prompt :=
    if String.eqb analysis_mode "incremental"
    then incremental_system_prompt
           (if Py.truthy_opt old_summary then default "" old_summary
            else "No previous summary")
           transcript
    else full_system_prompt in
  let user_query := "Email Thread:" +:+ blank_line +:+ transcript +:+ blank_line in
  system_prompt +:+ blank_line +:+ user_query.

(** Step 4: the call, then [json.loads]. *)
Definition call_model (prompt : string) : M Analysis :=
  response_content <- call (LlmGenerate prompt)
                        (fun t => (inr (generate_content prompt), t)) ;;
  if negb (Py.truthy response_content)
  then raise (value_error "Empty response from Gemini")
  else
    match json_loads_analysis response_content with
    | Some analysis => ret analysis
    | None => raise (value_error "Expecting value")
    end.

(** Step 5: [threads_update_clean]. *)
Definition thread_patch_of (analysis : Analysis) (last_analyzed_timestamp : string)
    : ThreadPatch :=
  let timeline_summary := an_timeline_summary analysis in
  let problem_statement := an_problem_statement analysis in
  {| tp_summary :=
       if Py.truthy_opt timeline_summary then timeline_summary
       else if Py.truthy_opt problem_statement then problem_statement
       else None;
     tp_sentiment := an_customer_sentiment analysis;
     tp_sentiment_score := an_sentiment_score analysis;
     tp_resolution_status := an_resolution_status analysis;
     tp_problem_statement := problem_statement;
     tp_timeline_summary := timeline_summary;
     tp_last_analyzed_at := Some last_analyzed_timestamp |}.

(** [step_data] of a step that is not yet stored. *)
Definition next_step_data (user_id thread_id : string) (step : NextStepJson)
    (description : string) : NextStepData :=
  {| nsd_thread_id := thread_id; nsd_user_id := user_id;
     nsd_description := description;
     nsd_owner := if Py.truthy_opt (nsj_owner step) then nsj_owner step else None;
     nsd_due_date := parse_due_date (nsj_due_date step);
     nsd_status := "pending" |}.

(** The body of [for step in next_steps_data]: the rows to insert and the
    count of skipped steps. *)
Definition collect_next_step (user_id thread_id : string) (step : NextStepJson)
    (st : list NextStepData * Z) : M (list NextStepData * Z) :=
  match nsj_text step with
  | Some description =>
      if Py.truthy description then
        duplicate <- check_next_step_exists thread_id description ;;
        if (duplicate : bool) then ret (st.1, st.2 + 1)
        else ret (st.1 ++ [next_step_data user_id thread_id step description], st.2)
      else ret st
  | None => ret st
  end.

(** The assignments of the inserted steps: one for each step and each
    distinct customer of the thread. *)
Definition create_assignments (user_id thread_id : string)
    (inserted_steps : list NextStepRow) : M unit :=
  match inserted_steps with
  | [] => ret tt
  | _ =>
      participants <- participant_select thread_id (Some user_id) ;;
      let customer_ids := elements (list_to_set participants : gset ID) in
      let assignments :=
        flat_map (fun step =>
                    map (fun customer_id =>
                           {| as_next_step_id := ns_step_id step;
                              as_customer_id := customer_id |})
                      customer_ids)
          inserted_steps in
      match assignments with
      | [] => ret tt
      | _ => try_ (assignment_insert assignments) (fun assignment_error => ret tt)
      end
  end.

(** Step 5, next steps: each one checked against the store, then one
    insert for those that passed. *)
Definition persist_next_steps (user_id thread_id : string)
    (next_steps_data : list NextStepJson) : M unit :=
  st <- for_each next_steps_data (collect_next_step user_id thread_id) ([], 0) ;;
  match st.1 with
  | [] => ret tt
  | next_steps_to_insert =>
      inserted_steps <- next_step_insert next_steps_to_insert ;;
      create_assignments user_id thread_id inserted_steps
  end.

(** [fr_data], the urgency forced into its three values. *)
Definition feature_request_data (user_id thread_id : string)
    (fr : FeatureRequestJson) (title : string) : FeatureRequestRow :=
  {| fr_thread_id := thread_id; fr_user_id := user_id; fr_title := Some title;
     fr_customer_description := frj_customer_description fr;
     fr_use_case := frj_use_case fr;
     fr_urgency :=
       match frj_urgency fr with
       | Some u => if in_list u ["Low"; "Medium"; "High"] then Some u else Some "Low"
       | None => Some "Low"
       end;
     fr_urgency_signals := frj_urgency_signals fr;
     fr_customer_impact := frj_customer_impact fr;
     fr_status := "new" |}.

Definition collect_feature_request (user_id thread_id : string)
    (fr : FeatureRequestJson) (st : list FeatureRequestRow * Z)
    : M (list FeatureRequestRow * Z) :=
  match frj_title fr with
  | Some title =>
      if Py.truthy title then
        duplicate <- check_feature_request_exists thread_id title ;;
        if (duplicate : bool) then ret (st.1, st.2 + 1)
        else ret (st.1 ++ [feature_request_data user_id thread_id fr title], st.2)
      else ret st
  | None => ret st
  end.

(** Step 5, feature requests. *)
Definition persist_feature_requests (user_id thread_id : string)
    (feature_requests_data : list FeatureRequestJson) : M unit :=
  st <- for_each feature_requests_data (collect_feature_request user_id thread_id)
          ([], 0) ;;
  match st.1 with
  | [] => ret tt
  | feature_requests_to_insert => feature_request_insert feature_requests_to_insert
  end.

(** The health scores of the companies of the thread: nothing that fails
    here fails the analysis. *)
Definition update_health_scores (thread_id : string) : M unit :=
  try_
    (company_ids <- link_select thread_id ;;
     for_each company_ids
       (fun company_id _ => try_ (health_score_rpc company_id) (fun e => ret tt)) tt)
    (fun e => ret tt).

(** Steps 2 to 5 on the messages the mode selected. *)
Definition analyze_messages (user_id thread_id analysis_mode : string)
    (old_summary : option string) (messages : list MessageRow) : M AnalysisResult :=
  participants <- load_participants user_id thread_id ;;
  transcript <- lift (build_transcript messages participants) ;;
  analysis <- call_model (full_prompt analysis_mode old_summary transcript) ;;
  last_analyzed_timestamp <- now_isoformat ;;
  thread_update (thread_patch_of analysis last_analyzed_timestamp) thread_id user_id ;;;
  persist_next_steps user_id thread_id (an_next_steps analysis) ;;;
  persist_feature_requests user_id thread_id (an_feature_requests analysis) ;;;
  stage_update "completed" [thread_id] user_id ;;;
  update_health_scores thread_id ;;;
  ret (AnalysisDone analysis_mode (an_problem_statement analysis)
         (an_timeline_summary analysis) (an_customer_sentiment analysis)
         (an_sentiment_score analysis) (an_resolution_status analysis)
         (Z.of_nat (length (an_next_steps analysis)))
         (Z.of_nat (length (an_feature_requests analysis)))
         last_analyzed_timestamp).

(** Steps 1 and 1.5: the thread, its messages, the mode. *)
Definition analyze_selected (user_id thread_id : string) : M AnalysisResult :=
  thread_response <- thread_select thread_id user_id ;;
  match thread_response with
  | None =>
      raise (value_error ("Thread " +:+ thread_id +:+ " not found for user "
                          +:+ user_id))
  | Some thread_data =>
      let last_analyzed_at := th_last_analyzed_at thread_data in
      let old_summary := th_summary thread_data in
      messages <- message_select_ordered thread_id user_id ;;
      match messages with
      | [] => raise (value_error ("No messages found for thread " +:+ thread_id))
      | _ =>
          match last_analyzed_at with
          | None => analyze_messages user_id thread_id "full" old_summary messages
          | Some last_analyzed =>
              match List.filter (keep_message last_analyzed) messages with
              | [] =>
                  stage_update "completed" [thread_id] user_id ;;;
                  ret (AnalysisSkipped "incremental" "No new messages")
              | filtered_messages =>
                  analyze_messages user_id thread_id "incremental" old_summary
                    filtered_messages
              end
          end
      end
  end.

(** [analyze_thread] *)
Definition analyze_thread (user_id thread_id : string) : M AnalyzerReport :=
  try_
    (analysis <- analyze_selected user_id thread_id ;;
     ret {| ar_success := true; ar_thread_id := thread_id; ar_errors := [];
            ar_analysis := Some analysis |})
    (fun e =>
       try_ (stage_update "failed" [thread_id] user_id ;;; ret tt) (fun _ => ret tt) ;;;
       ret {| ar_success := false; ar_thread_id := thread_id;
              ar_errors := ["Error analyzing thread " +:+ thread_id +:+ ": "
                            +:+ exn_str e];
              ar_analysis := None |}).

End Analysis.

(** ** A reading of [datetime.fromisoformat]

    The texts the store hands out and [isoformat()] writes: a date
    [YYYY-MM-DD]; then, after one separator character, a time [HH:MM:SS],
    a fraction of three or six digits and an offset [+HH:MM] or [-HH:MM],
    the last two optional.  Any other text is refused ([None]), as
    [fromisoformat] refuses what it cannot read with [ValueError]. *)

Definition digit_of (c : ascii) : option Z :=
  let n := Z.of_N (N_of_ascii c) in
  if (48 <=? n) && (n <=? 57) then Some (n - 48) else None.

Fixpoint read_digits (k : nat) (s : string) (acc : Z) : option (Z * string) :=
  match k with
  | O => Some (acc, s)
  | S k' =>
      match s with
      | String c s' => d ← digit_of c; read_digits k' s' (acc * 10 + d)
      | EmptyString => None
      end
  end.

Definition expect_char (c : ascii) (s : string) : option string :=
  match s with
  | String a s' => if Ascii.eqb a c then Some s' else None
  | EmptyString => None
  end.

Definition is_leap_year (y : Z) : bool :=
  (y mod 4 =? 0) && (negb (y mod 100 =? 0) || (y mod 400 =? 0)).

Definition days_in_month (y m : Z) : Z :=
  if m =? 2 then (if is_leap_year y then 29 else 28)
  else if (m =? 4) || (m =? 6) || (m =? 9) || (m =? 11) then 30 else 31.

(** Days from 1970-01-01 to the given day of the Gregorian calendar. *)
Definition days_from_civil (y m d : Z) : Z :=
  let y' := if m <=? 2 then y - 1 else y in
  let era := y' / 400 in
  let yoe := y' - era * 400 in
  let doy := (153 * (if 2 <? m then m - 3 else m + 9) + 2) / 5 + d - 1 in
  let doe := yoe * 365 + yoe / 4 - yoe / 100 + doy in
  era * 146097 + doe - 719468.

Definition read_fraction (s : string) : option (Z * string) :=
  match s with
  | String "." rest =>
      match read_digits 6 rest 0 with
      | Some r => Some r
      | None => '(ms, rest') ← read_digits 3 rest 0; Some (ms * 1000, rest')
      end
  | _ => Some (0, s)
  end.

Definition read_offset (s : string) : option (option Z) :=
  match s with
  | EmptyString => Some None
  | String sign rest =>
      sgn ← (if Ascii.eqb sign "+" then Some 1
             else if Ascii.eqb sign "-" then Some (-1) else None);
      '(h, r1) ← read_digits 2 rest 0;
      r2 ← expect_char ":" r1;
      '(m, r3) ← read_digits 2 r2 0;
      match r3 with
      | EmptyString =>
          if (h <? 24) && (m <? 60)
          then Some (Some (sgn * (h * 3600 + m * 60) * 1000000)) else None
      | _ => None
      end
  end.

Definition fromisoformat_model (s : string) : option DateTime :=
  '(y, s) ← read_digits 4 s 0;
  s ← expect_char "-" s;
  '(mo, s) ← read_digits 2 s 0;
  s ← expect_char "-" s;
  '(d, s) ← read_digits 2 s 0;
  if negb ((1 <=? y) && (1 <=? mo) && (mo <=? 12) && (1 <=? d)
           && (d <=? days_in_month y mo)) then None
  else
    let day_us := days_from_civil y mo d * 86400 * 1000000 in
    match s with
    | EmptyString => Some {| dt_wall := day_us; dt_utcoffset := None |}
    | String _ s =>
        '(h, s) ← read_digits 2 s 0;
        s ← expect_char ":" s;
        '(mi, s) ← read_digits 2 s 0;
        s ← expect_char ":" s;
        '(se, s) ← read_digits 2 s 0;
        '(us, s) ← read_fraction s;
        off ← read_offset s;
        if (h <? 24) && (mi <? 60) && (se <? 60)
        then Some {| dt_wall := day_us + ((h * 60 + mi) * 60 + se) * 1000000 + us;
                     dt_utcoffset := off |}
        else None
    end.

(** ** Example data *)

(** A body of 400004 characters: 100001 estimated tokens. *)
Definition long_body : string := N.iter 400004 (String "a") EmptyString.

Definition long_message : MessageRow :=
  {| m_message_id := "m1"; m_thread_id := "t1"; m_user_id := "u1";
     m_from_address := Some "alice@acme.io"; m_to_addresses := AddrNull;
     m_cc_addresses := AddrNull; m_body_text := Some long_body;
     m_body_html := None; m_sent_date := Some "2024-01-01T00:00:00+00:00";
     m_customer_id := None |}.

Definition long_smart_message : SmartMessage :=
  {| sm_text := Some long_body; sm_sender := Some "alice@acme.io";
     sm_timestamp := None |}.

Definition marker_message : SmartMessage :=
  {| sm_text := Some TRUNCATION_MARKER; sm_sender := Some "System";
     sm_timestamp := None |}.

(** ** Relating the worlds before and after a run *)

(** Every run of [m] takes a world to one that [R] relates to it, whether
    [m] returns or raises. *)
Definition steps (R : relation World) {A} (m : M A) : Prop :=
  forall w, R w (m w).2.

(** The later world has made more calls, each of them satisfying [P]. *)
Definition emitting (P : Call -> Prop) : relation World :=
  fun w w' => exists new, trace w' = new ++ trace w /\ Forall P new.

(** The calls a run of [m] from [w] adds to the trace, latest first. *)
Definition new_calls {A} (m : M A) (w : World) : list Call :=
  take (length (trace (m w).2) - length (trace w)) (trace (m w).2).

(** The tables of the later world are related to those of the earlier. *)
Definition evolving (Rt : relation Tables) : relation World :=
  fun w w' => Rt (tables w) (tables w').


(** The test of step 4 of the processor on a domain. *)
Definition passes (domain : string) : bool :=
  Py.truthy domain && is_business_domain domain.


(** No fault to come stays no fault to come. *)
Definition faultless : relation World :=
  fun w w' => faults w = [] -> faults w' = [].

(** Both relations at once. *)
Definition both (R1 R2 : relation World) : relation World :=
  fun w w' => R1 w w' /\ R2 w w'.

(** ** Example worlds *)

Definition no_tables : Tables :=
  {| t_stages := []; t_profiles := []; t_messages := []; t_companies := [];
     t_customers := []; t_participants := []; t_links := []; t_threads := [];
     t_next_steps := []; t_assignments := []; t_feature_requests := [];
     t_next_id := 1%N |}.

(** A message of thread [t1] of user [u1] with the given sender and date. *)
Definition message_from (message_id from_address sent_date : string) : MessageRow :=
  {| m_message_id := message_id; m_thread_id := "t1"; m_user_id := "u1";
     m_from_address := Some from_address; m_to_addresses := AddrNull;
     m_cc_addresses := AddrNull; m_body_text := Some "Hello";
     m_body_html := None; m_sent_date := Some sent_date;
     m_customer_id := None |}.

Definition stage_of_t1 (stage : string) : StageRow :=
  {| st_thread_id := "t1"; st_user_id := "u1"; st_current_stage := Some stage |}.

(** A world with one thread [t1] in stage [new], holding the given
    messages, no company and no customer yet, and no fault planned. *)
Definition world_with (messages : list MessageRow) : World :=
  {| tables :=
       {| t_stages := [stage_of_t1 "new"]; t_profiles := [];
          t_messages := messages; t_companies := []; t_customers := [];
          t_participants := []; t_links := []; t_threads := [];
          t_next_steps := []; t_assignments := []; t_feature_requests := [];
          t_next_id := 1%N |};
     trace := []; faults := []; clock := "2024-06-01T12:00:00" |}.

(** An address column is never JSON text in the examples. *)
Definition no_json (s : string) : JsonLoad := LoadError.





(** ** What resolution may do to the customers *)

(** A customer row and what it has become: the same customer, with the
    company and the domain match it had or with both set to a value. *)
Definition row_improves (r r' : CustomerRow) : Prop :=
  cu_customer_id r' = cu_customer_id r
  /\ cu_user_id r' = cu_user_id r
  /\ cu_email r' = cu_email r
  /\ cu_full_name r' = cu_full_name r
  /\ cu_status r' = cu_status r
  /\ ((cu_company_id r' = cu_company_id r
       /\ cu_domain_match r' = cu_domain_match r)
      \/ (is_Some (cu_company_id r') /\ is_Some (cu_domain_match r'))).

(** The customers table and what it has become: every row in its place,
    improved at most, and new rows after them. *)
Definition customers_improve (t t' : Tables) : Prop :=
  exists kept added,
    t_customers t' = kept ++ added
    /\ Forall2 row_improves (t_customers t) kept.




(** The customers table has new rows after those it had, and no other
    change. *)
Definition customers_grow (t t' : Tables) : Prop :=
  exists added, t_customers t' = t_customers t ++ added.

(** [m] returns, whatever the world: it raises nothing. *)
Definition returns {A} (m : M A) : Prop :=
  forall w, exists a, (m w).1 = inr a.

(** The customers table is as it was. *)
Definition customers_same (t t' : Tables) : Prop :=
  t_customers t' = t_customers t.

(** The messages table is as it was. *)
Definition messages_same (t t' : Tables) : Prop :=
  t_messages t' = t_messages t.

(** No customer row for the email and user before, none after. *)
Definition no_row_kept (email user_id : string) (t t' : Tables) : Prop :=
  filter (fun r => Is_true (customer_matches email user_id r)) (t_customers t) = [] ->
  filter (fun r => Is_true (customer_matches email user_id r)) (t_customers t') = [].


(** Between two worlds a customer was created for the email: an insert was
    sent for it, with no company id when its domain does not pass step 4,
    and the later table holds a row for it, named after the local part, a
    prospect. *)
Definition created (email user_id : string) (w w' : World) : Prop :=
  (exists new c,
      trace w' = new ++ trace w
      /\ CustomerInsert email user_id c ∈ new
      /\ (passes (extract_domain_from_email email) = false -> c = None))
  /\ exists r,
      r ∈ t_customers (tables w')
      /\ cu_email r = email /\ cu_user_id r = user_id
      /\ cu_full_name r
         = Some (if Py.contains "@" email then before_first "@" email else email)
      /\ cu_status r = "prospect".

(** ** The gate, read off *)

(** Does the gate let a thread in this stage through? *)
Definition eligible (current_stage : option string) : bool :=
  match classify_stage current_stage with
  | Process | ProcessUnknown _ => true
  | SkipInFlight _ | SkipCompleted => false
  end.

(** The reason the gate gives for a skip. *)
Definition skip_reason (current_stage : option string) : option string :=
  match classify_stage current_stage with
  | SkipInFlight s => Some ("already in '" +:+ s +:+ "' stage")
  | SkipCompleted => Some "already completed"
  | Process | ProcessUnknown _ => None
  end.





(** ** The filter of incremental mode, as the specification words it

    A message is kept when its timestamp is missing or cannot be read, or
    when it is strictly after [last_analyzed_at]. *)
Definition kept_as_specified (fromisoformat : string -> option DateTime)
    (last_analyzed_at : string) (msg : MessageRow) : bool :=
  match m_sent_date msg with
  | None => true
  | Some msg_date =>
      if negb (Py.truthy msg_date) then true
      else
        match fromisoformat (Py.replace "Z" "+00:00" msg_date) with
        | None => true
        | Some msg_datetime =>
            match fromisoformat (Py.replace "Z" "+00:00" last_analyzed_at) with
            | Some last_analyzed_datetime =>
                match datetime_gt msg_datetime last_analyzed_datetime with
                | inr after => after
                | inl _ => false
                end
            | None => false
            end
        end
  end.

(** ** Example worlds of the analyzer *)

Definition thread_t1 (last_analyzed_at : option string) : ThreadRow :=
  {| th_thread_id := "t1"; th_user_id := "u1";
     th_last_analyzed_at := last_analyzed_at;
     th_summary := Some "Earlier summary"; th_sentiment := None;
     th_sentiment_score := None; th_resolution_status := None;
     th_problem_statement := None; th_timeline_summary := None |}.

(** Thread [t1], last analyzed at the given time, with the given messages
    and next steps. *)
Definition analysis_world (last_analyzed_at : option string)
    (messages : list MessageRow) (next_steps : list NextStepRow) : World :=
  {| tables :=
       {| t_stages := [stage_of_t1 "analyzing"]; t_profiles := [];
          t_messages := messages; t_companies := []; t_customers := [];
          t_participants := []; t_links := [];
          t_threads := [thread_t1 last_analyzed_at];
          t_next_steps := next_steps; t_assignments := [];
          t_feature_requests := []; t_next_id := 100%N |};
     trace := []; faults := []; clock := "2024-07-01T09:00:00" |}.

(** An analysis with the given next steps and nothing else. *)
Definition analysis_with (steps : list string) : Analysis :=
  {| an_timeline_summary := Some "Timeline"; an_problem_statement := None;
     an_customer_sentiment := Some "Neutral"; an_sentiment_score := Some 0;
     an_resolution_status := None;
     an_next_steps :=
       map (fun text => {| nsj_text := Some text; nsj_owner := None;
                           nsj_due_date := None |}) steps;
     an_feature_requests := [] |}.

(** [analyze_thread] with the model of [fromisoformat], a model that answers
    every prompt with the given analysis, and instruction templates that
    do not matter. *)
Definition analyze_with (analysis : Analysis) : string -> string -> M AnalyzerReport :=
  analyze_thread fromisoformat_model (fun _ => None) (fun _ => "{...}")
    (fun _ => Some analysis) "Analyze." (fun old_summary transcript => "Update.").

Definition is_llm_call (c : Call) : bool :=
  match c with LlmGenerate _ => true | _ => false end.

(** A message dated 2024-01-01, with an offset from UTC. *)
Definition january_message : MessageRow :=
  message_from "m1" "alice@acme.io" "2024-01-01T00:00:00+00:00".

(** The world after the two reads that open [analyze_thread]. *)
Definition after_reads (user_id thread_id : string) (w : World) : World :=
  {| tables := tables w;
     trace := MessageSelect [thread_id] user_id
              :: ThreadSelect thread_id user_id :: trace w;
     faults := []; clock := clock w |}.

(** The messages of a thread as [analyze_thread] reads them. *)
Definition messages_read (user_id thread_id : string) (w : World) : list MessageRow :=
  order_by_sent_date
    (filter (fun r => Is_true (message_matches [thread_id] user_id r))
       (t_messages (tables w))).

(** When incremental mode keeps a message: its date is missing or empty; or
    one of the two dates cannot be read; or one of them has an offset from
    UTC and the other has none, so that comparing them raises; or the
    message is strictly after [last_analyzed_at]. *)
Definition kept_when (fromisoformat : string -> option DateTime)
    (last_analyzed_at : string) (msg : MessageRow) : Prop :=
  Py.truthy_opt (m_sent_date msg) = false
  \/ exists msg_date,
      m_sent_date msg = Some msg_date
      /\ (fromisoformat (Py.replace "Z" "+00:00" msg_date) = None
          \/ fromisoformat (Py.replace "Z" "+00:00" last_analyzed_at) = None
          \/ exists msg_datetime last_analyzed_datetime,
              fromisoformat (Py.replace "Z" "+00:00" msg_date)
              = Some msg_datetime
              /\ fromisoformat (Py.replace "Z" "+00:00" last_analyzed_at)
                 = Some last_analyzed_datetime
              /\ ((exists e, datetime_gt msg_datetime last_analyzed_datetime
                             = inl e)
                  \/ datetime_gt msg_datetime last_analyzed_datetime
                     = inr true)).

(** ** Next steps: what a run of the analyzer stores *)

(** The next steps table and the key counter are as they were. *)
Definition next_steps_same (t t' : Tables) : Prop :=
  t_next_steps t' = t_next_steps t /\ t_next_id t' = t_next_id t.

(** With no fault to come, [m] returns a value, no fault is to come after
    it, and the tables after it are related to those before. *)
Definition succeeds (Rt : relation Tables) {A} (m : M A) : Prop :=
  forall w, faults w = [] ->
    exists a w', m w = (inr a, w') /\ faults w' = [] /\ Rt (tables w) (tables w').

(** The descriptions the next steps table holds for a thread, as
    [check_next_step_exists] reads them. *)
Definition stored_descriptions (thread_id : string) (stored : list NextStepRow)
    : list (option string) :=
  map ns_description
    (filter (fun r => Is_true (String.eqb (ns_thread_id r) thread_id)) stored).

(** Two descriptions are equal up to letter case and to whitespace at
    their two ends. *)
Definition same_description (a b : string) : Prop :=
  Py.strip (Py.lower a) = Py.strip (Py.lower b).

(** What [check_next_step_exists] answers on a table. *)
Definition is_duplicate (thread_id : string) (stored : list NextStepRow)
    (description : string) : bool :=
  existsb (same_text (Py.strip (Py.lower description)))
    (stored_descriptions thread_id stored).

(** The rows the loop over [next_steps_data] collects on a table: one for
    each step with a text that is not empty and not a duplicate. *)
Definition steps_to_insert (strptime_ymd : string -> option string)
    (user_id thread_id : string) (stored : list NextStepRow)
    (next_steps_data : list NextStepJson) : list NextStepData :=
  flat_map
    (fun step =>
       match nsj_text step with
       | Some description =>
           if Py.truthy description
              && negb (is_duplicate thread_id stored description)
           then [next_step_data strptime_ymd user_id thread_id step description]
           else []
       | None => []
       end)
    next_steps_data.

(** The model answers every prompt with the analysis. *)
Definition answers (generate_content : string -> string)
    (json_loads_analysis : string -> option Analysis) (analysis : Analysis) : Prop :=
  forall prompt,
    Py.truthy (generate_content prompt) = true
    /\ json_loads_analysis (generate_content prompt) = Some analysis.

(** Every message has a body column that is a text, so that joining the
    bodies raises nothing. *)
Definition readable (messages : list MessageRow) : Prop :=
  exists total_text, join_opt " " (map message_body messages) = inr total_text.

(** ** Example data for next steps *)

(** A pending next step of thread [t1], as the analyzer stores it for a
    step without owner and due date. *)
Definition stored_step (id : ID) (description : string) : NextStepRow :=
  {| ns_step_id := id; ns_thread_id := "t1"; ns_user_id := "u1";
     ns_description := Some description; ns_owner := None; ns_due_date := None;
     ns_status := "pending" |}.

(** A message dated after the clock of [analysis_world], without offset. *)
Definition august_message : MessageRow :=
  message_from "m2" "alice@acme.io" "2024-08-01T10:00:00".

(** Thread [t1], never analyzed, with two messages and the given next
    steps. *)
Definition legal_world (next_steps : list NextStepRow) : World :=
  analysis_world None [january_message; august_message] next_steps.

(** Steps 2 to 5 on thread [t1] with a model that answers every prompt
    with the given analysis. *)
Definition run_with (analysis : Analysis) (analysis_mode : string)
    (old_summary : option string) (messages : list MessageRow) : M AnalysisResult :=
  analyze_messages (fun _ => None) (fun _ => "{...}") (fun _ => Some analysis)
    "Analyze." (fun old_summary transcript => "Update.") "u1" "t1"
    analysis_mode old_summary messages.

(** The next steps table after a run. *)
Definition next_steps_after {A} (m : M A) (w : World) : list NextStepRow :=
  t_next_steps (tables (m w).2).

(** ** The analysis job ([analysis_job.py]) *)

(** The payload of the job, each field being what [payload.get] reads. *)
Record Payload := {
  payload_thread_id : option string;
  payload_user_id : option string }.

(** *** The environment and the clients

    Each service opens, before its [try], with [get_supabase_client()], and
    the analyzer with [get_gemini_client()] as well.  Both read the
    environment and raise [ValueError] when a setting is missing or empty.
    The definitions [process_thread_entities], [resolve_thread_entities]
    and [analyze_thread] above are the services once their clients are
    there; the definitions ending in [_in] are the services from their
    first line, in a given environment.  [create_client] and
    [genai.configure] are taken to return. *)

(** The settings that [os.getenv] is asked for. *)
Record Env := {
  SUPABASE_URL : option string;
  NEXT_PUBLIC_SUPABASE_URL : option string;
  SUPABASE_SERVICE_ROLE_KEY : option string;
  GEMINI_API_KEY : option string;
  TRIGGER_API_KEY : option string }.

(** [get_supabase_client], the same function in the four files. *)
Definition get_supabase_client (env : Env) : M unit :=
  let supabase_url := Py.or_ (SUPABASE_URL env) (NEXT_PUBLIC_SUPABASE_URL env) in
  let supabase_key := SUPABASE_SERVICE_ROLE_KEY env in
  if negb (Py.truthy_opt supabase_url)
  then raise (value_error ("SUPABASE_URL or NEXT_PUBLIC_SUPABASE_URL environment "
                           +:+ "variable is required"))
  else if negb (Py.truthy_opt supabase_key)
  then raise (value_error "SUPABASE_SERVICE_ROLE_KEY environment variable is required")
  else ret tt.

(** [get_gemini_client] *)
Definition get_gemini_client (env : Env) : M unit :=
  if negb (Py.truthy_opt (GEMINI_API_KEY env))
  then raise (value_error "GEMINI_API_KEY environment variable is required")
  else ret tt.

(** [process_thread_entities] from its first line. *)
Definition process_thread_entities_in (env : Env) (json_loads : string -> JsonLoad)
    (user_id thread_id : string) : M ProcessorReport :=
  get_supabase_client env ;;;
  process_thread_entities json_loads user_id thread_id.

(** [resolve_thread_entities] from its first line. *)
Definition resolve_thread_entities_in (env : Env) (json_loads : string -> JsonLoad)
    (user_id : string) (thread_ids : list string) : M ResolverReport :=
  get_supabase_client env ;;;
  resolve_thread_entities json_loads user_id thread_ids.

(** [analyze_thread] from its first line. *)
Definition analyze_thread_in (env : Env)
    (fromisoformat : string -> option DateTime)
    (strptime_ymd : string -> option string)
    (generate_content : string -> string)
    (json_loads_analysis : string -> option Analysis)
    (full_system_prompt : string)
    (incremental_system_prompt : string -> string -> string)
    (user_id thread_id : string) : M AnalyzerReport :=
  get_supabase_client env ;;;
  get_gemini_client env ;;;
  analyze_thread fromisoformat strptime_ymd generate_content json_loads_analysis
    full_system_prompt incremental_system_prompt user_id thread_id.

Section Job.

Variable env : Env.
Variable fromisoformat : string -> option DateTime.
Variable strptime_ymd : string -> option string.
Variable generate_content : string -> string.
Variable json_loads_analysis : string -> option Analysis.
Variable full_system_prompt : string.
Variable incremental_system_prompt : string -> string -> string.

(** [run_analyze_thread_job] *)
Definition run_analyze_thread_job (payload : Payload) : M AnalyzerReport :=
  let thread_id := payload_thread_id payload in
  let user_id := payload_user_id payload in
  if negb (Py.truthy_opt thread_id)
  then raise (value_error "thread_id is required in payload")
  else if negb (Py.truthy_opt user_id)
  then raise (value_error "user_id is required in payload")
  else
    let thread_id := default "" thread_id in
    let user_id := default "" user_id in
    get_supabase_client env ;;;
    try_
      (stage_update "analyzing" [thread_id] user_id ;;;
       analyze_thread_in env fromisoformat strptime_ymd generate_content
         json_loads_analysis full_system_prompt incremental_system_prompt
         user_id thread_id)
      (fun e =>
         try_ (stage_update "failed" [thread_id] user_id ;;; ret tt)
              (fun _ => ret tt) ;;;
         raise e).

(** [trigger_analyze_thread_job] with its two paths spelled out: with an
    API key the request to the job transport, which is the call
    [TriggerJob]; without one, or when the request fails, the job run in
    process, an [ImportError] of which is swallowed and anything else
    raised again. *)
Definition trigger_analyze_thread_job_paths (user_id thread_id : string) : M unit :=
  let trigger_api_key := TRIGGER_API_KEY env in
  let direct :=
    try_
      (run_analyze_thread_job
         {| payload_thread_id := Some thread_id; payload_user_id := Some user_id |} ;;;
       ret tt)
      (fun e =>
         match exn_class e with
         | ImportError => ret tt
         | _ => raise e
         end) in
  if Py.truthy_opt trigger_api_key
  then try_ (trigger_analyze_thread_job user_id thread_id) (fun e => direct)
  else direct.

End Job.

(** ** Frames and results *)

(** A part of the tables is as it was. *)
Definition unchanged {X} (f : Tables -> X) : relation Tables :=
  fun t t' => f t' = f t.

(** The tables are as they were. *)
Definition same_tables : relation Tables := fun t t' => t' = t.

(** What [m] returns, when it returns, satisfies [Q]. *)
Definition yields {A} (Q : A -> Prop) (m : M A) : Prop :=
  forall w a, (m w).1 = inr a -> Q a.

(** The world after [n] calls that raised or returned and changed no
    table: the plan is shorter by [n]. *)
Definition after_calls (new : list Call) (w : World) : World :=
  {| tables := tables w; trace := new ++ trace w;
     faults := drop (length new) (faults w); clock := clock w |}.

(** The companies linked to a thread, as [update_health_scores] reads
    them. *)
Definition linked_companies (thread_id : string) (t : Tables) : list ID :=
  map li_company_id
    (filter (fun r => Is_true (String.eqb (li_thread_id r) thread_id)) (t_links t)).

(** The report of a failed analysis. *)
Definition analysis_failed (thread_id : string) (e : PyExn) : AnalyzerReport :=
  {| ar_success := false; ar_thread_id := thread_id;
     ar_errors := ["Error analyzing thread " +:+ thread_id +:+ ": " +:+ exn_str e];
     ar_analysis := None |}.

(** The world after a failed analysis that made the calls [new] and then
    wrote the stage [failed]. *)
Definition failed_after (new : list Call) (user_id thread_id : string) (w : World)
    : World :=
  {| tables := set_stages (map (stage_set "failed" [thread_id] user_id)
                             (t_stages (tables w))) (tables w);
     trace := StageUpdate "failed" [thread_id] user_id :: new ++ trace w;
     faults := []; clock := clock w |}.

(** The world after the stage write [analyzing] that opens the job. *)
Definition after_analyzing_write (user_id thread_id : string) (w : World) : World :=
  {| tables := set_stages (map (stage_set "analyzing" [thread_id] user_id)
                             (t_stages (tables w))) (tables w);
     trace := StageUpdate "analyzing" [thread_id] user_id :: trace w;
     faults := drop 1 (faults w); clock := clock w |}.

(** What a trigger that runs the job in process, from the world [w0], comes
    to, [analysis] being [analyze_thread]: when the first write of the job
    fails the failure is raised, unless it is an [ImportError]; otherwise
    the trigger returns when the analysis has run. *)
Definition in_process (analysis : string -> string -> M AnalyzerReport)
    (user_id thread_id : string) (w0 : World) (run : (PyExn + unit) * World)
    : Prop :=
  match faults w0 with
  | Some e :: _ =>
      run.1 = match exn_class e with ImportError => inr tt | _ => inl e end
  | _ =>
      run = (inr tt,
             (analysis user_id thread_id
                (after_analyzing_write user_id thread_id w0)).2)
  end.

(** ** What a run of the analyzer writes *)

(** The distinct customers among the participants of a thread of the user,
    as step 5 reads them. *)
Definition thread_customers (user_id thread_id : string) (t : Tables) : list ID :=
  elements
    (list_to_set
       (map pa_customer_id
          (filter (fun r => Is_true
                     (String.eqb (pa_thread_id r) thread_id
                      && String.eqb (pa_user_id r) user_id))
             (t_participants t))) : gset ID).

(** One assignment for each step and each customer. *)
Definition assignments_of (customer_ids : list ID) (inserted_steps : list NextStepRow)
    : list AssignmentRow :=
  flat_map (fun step =>
              map (fun customer_id =>
                     {| as_next_step_id := ns_step_id step;
                        as_customer_id := customer_id |})
                customer_ids)
    inserted_steps.

(** The tables after the insert of the next steps [ds] and of their
    assignments. *)
Definition next_steps_written (user_id thread_id : string) (ds : list NextStepData)
    (t : Tables) : Tables :=
  let rows := next_steps_new (t_next_id t) ds in
  set_assignments
    (t_assignments t ++ assignments_of (thread_customers user_id thread_id t) rows)
    (set_next_id (t_next_id t + N.of_nat (length ds))%N
       (set_next_steps (t_next_steps t ++ rows) t)).

(** The titles the feature requests table holds for a thread, as
    [check_feature_request_exists] reads them. *)
Definition stored_titles (thread_id : string) (stored : list FeatureRequestRow)
    : list (option string) :=
  map fr_title
    (filter (fun r => Is_true (String.eqb (fr_thread_id r) thread_id)) stored).

(** What [check_feature_request_exists] answers on a table. *)
Definition is_duplicate_title (thread_id : string) (stored : list FeatureRequestRow)
    (title : string) : bool :=
  existsb (same_text (Py.strip (Py.lower title))) (stored_titles thread_id stored).

(** The rows the loop over [feature_requests_data] collects on a table. *)
Definition requests_to_insert (user_id thread_id : string)
    (stored : list FeatureRequestRow) (feature_requests_data : list FeatureRequestJson)
    : list FeatureRequestRow :=
  flat_map
    (fun fr =>
       match frj_title fr with
       | Some title =>
           if Py.truthy title && negb (is_duplicate_title thread_id stored title)
           then [feature_request_data user_id thread_id fr title]
           else []
       | None => []
       end)
    feature_requests_data.

(** The tables after steps 2 to 5 on an analysis, read at the time
    [now]: the thread row patched, the new next steps and their assignments
    and the new feature requests inserted, the stage written. *)
Definition analysis_written (strptime_ymd : string -> option string)
    (user_id thread_id : string) (analysis : Analysis) (now : string)
    (t : Tables) : Tables :=
  let t1 := set_threads
              (map (thread_patch (thread_patch_of analysis now) thread_id user_id)
                 (t_threads t)) t in
  let t2 := next_steps_written user_id thread_id
              (steps_to_insert strptime_ymd user_id thread_id (t_next_steps t1)
                 (an_next_steps analysis)) t1 in
  let t3 := set_feature_requests
              (t_feature_requests t2
               ++ requests_to_insert user_id thread_id (t_feature_requests t2)
                    (an_feature_requests analysis)) t2 in
  set_stages (map (stage_set "completed" [thread_id] user_id) (t_stages t3)) t3.

(** The messages the mode selection hands to steps 2 to 5, and the mode. *)
Definition selected_messages (fromisoformat : string -> option DateTime)
    (thread_data : ThreadRow) (messages : list MessageRow) : list MessageRow :=
  match th_last_analyzed_at thread_data with
  | None => messages
  | Some last_analyzed_at =>
      List.filter (keep_message fromisoformat last_analyzed_at) messages
  end.

Definition mode_of (thread_data : ThreadRow) : string :=
  match th_last_analyzed_at thread_data with
  | None => "full"
  | Some _ => "incremental"
  end.

(** A thread that [analyze_thread] can analyze in the world [w]: the store
    does not fail, the thread has its one row, and the messages selected
    are there and have text bodies. *)
Definition analysable (fromisoformat : string -> option DateTime)
    (user_id thread_id : string) (thread_data : ThreadRow) (w : World) : Prop :=
  faults w = []
  /\ filter (fun r => Is_true (thread_matches thread_id user_id r))
       (t_threads (tables w)) = [thread_data]
  /\ selected_messages fromisoformat thread_data (messages_read user_id thread_id w)
     <> []
  /\ readable (selected_messages fromisoformat thread_data
                 (messages_read user_id thread_id w)).

(** The report of an analysis that was done. *)
Definition analysis_done (thread_id analysis_mode : string) (analysis : Analysis)
    (now : string) : AnalyzerReport :=
  {| ar_success := true; ar_thread_id := thread_id; ar_errors := [];
     ar_analysis :=
       Some (AnalysisDone analysis_mode (an_problem_statement analysis)
               (an_timeline_summary analysis) (an_customer_sentiment analysis)
               (an_sentiment_score analysis) (an_resolution_status analysis)
               (Z.of_nat (length (an_next_steps analysis)))
               (Z.of_nat (length (an_feature_requests analysis))) now) |}.

(** The rows no step of the analyzer is to touch: profiles, messages,
    companies, customers, participants and links are as they were. *)
Definition entities_same (t t' : Tables) : Prop :=
  t_profiles t' = t_profiles t
  /\ t_messages t' = t_messages t
  /\ t_companies t' = t_companies t
  /\ t_customers t' = t_customers t
  /\ t_participants t' = t_participants t
  /\ t_links t' = t_links t.

(** ** Reports of the two resolution services *)

(** A report of the processor: a success, or the failure the outermost
    handler reports, with its message last and every count at zero. *)
Definition processor_report_ok (report : ProcessorReport) : Prop :=
  pr_success report = true
  \/ exists errors e,
      report
      = processor_report_early false
          (errors ++ ["Fatal error in process_thread_entities: " +:+ exn_str e]).

(** A report of the resolver: a success, or a failure with its message
    last, no thread counted as processed and no job as triggered. *)
Definition resolver_report_ok (report : ResolverReport) : Prop :=
  rr_success report = true
  \/ (rr_success report = false
      /\ rr_processed_threads report = 0
      /\ rr_jobs_triggered report = 0
      /\ exists errors e,
          rr_errors report
          = errors ++ ["Fatal error in resolve_thread_entities: " +:+ exn_str e]
          \/ rr_errors report
             = errors ++ ["Error updating final stage and triggering jobs: "
                          +:+ exn_str e]).

(** ** Normal emails *)

(** An address as the extraction hands it on: not empty, in lower case,
    with no whitespace at either end. *)
Definition normal_email (e : string) : Prop :=
  Py.truthy e = true /\ Py.lower e = e /\ Py.strip e = e.

(** Every address of a set is normal. *)
Definition all_normal (emails : gset string) : Prop :=
  forall e, e ∈ emails -> normal_email e.

(** ** Example data for a whole analysis *)

(** Thread [t1] with its two messages, never analyzed, two customers of
    user [u1] linked to it as participants, and one feature request
    stored. *)
Definition staffed_world : World :=
  {| tables :=
       {| t_stages := [stage_of_t1 "analyzing"]; t_profiles := [];
          t_messages := [january_message; august_message];
          t_companies := []; t_customers := [];
          t_participants :=
            [{| pa_thread_id := "t1"; pa_customer_id := 1%N; pa_user_id := "u1" |};
             {| pa_thread_id := "t1"; pa_customer_id := 2%N; pa_user_id := "u1" |}];
          t_links := [];
          t_threads := [thread_t1 None];
          t_next_steps := []; t_assignments := [];
          t_feature_requests :=
            [{| fr_thread_id := "t1"; fr_user_id := "u1";
                fr_title := Some "Dark mode"; fr_customer_description := None;
                fr_use_case := None; fr_urgency := Some "Low";
                fr_urgency_signals := None; fr_customer_impact := None;
                fr_status := "new" |}];
          t_next_id := 100%N |};
     trace := []; faults := []; clock := "2024-07-01T09:00:00" |}.

Definition request_titled (title urgency : string) : FeatureRequestJson :=
  {| frj_title := Some title; frj_customer_description := None;
     frj_use_case := None; frj_urgency := Some urgency;
     frj_urgency_signals := None; frj_customer_impact := None |}.

(** An analysis with one next step and two feature requests, the first a
    variant of the stored one. *)
Definition analysis_with_requests : Analysis :=
  {| an_timeline_summary := Some "Timeline"; an_problem_statement := None;
     an_customer_sentiment := Some "Neutral"; an_sentiment_score := Some 0;
     an_resolution_status := None;
     an_next_steps :=
       [{| nsj_text := Some "Send the contract"; nsj_owner := None;
           nsj_due_date := None |}];
     an_feature_requests :=
       [request_titled "dark mode " "High"; request_titled "Export to CSV" "Urgent"] |}.

(** A message of thread [t1] with an empty [body_text] and a null
    [body_html]. *)
Definition silent_message : MessageRow :=
  {| m_message_id := "m3"; m_thread_id := "t1"; m_user_id := "u1";
     m_from_address := Some "alice@acme.io"; m_to_addresses := AddrNull;
     m_cc_addresses := AddrNull; m_body_text := Some "";
     m_body_html := None; m_sent_date := Some "2024-02-01T00:00:00+00:00";
     m_customer_id := None |}.

(** Thread [t1], never analyzed, with a message that can be read and one
    without body. *)
Definition silent_world : World :=
  analysis_world None [january_message; silent_message] [].

(** Two rows to link, the first of them linked already, and a store whose
    next call fails. *)
Definition linking_rows : list ParticipantRow :=
  [{| pa_thread_id := "t1"; pa_customer_id := 1%N; pa_user_id := "u1" |};
   {| pa_thread_id := "t1"; pa_customer_id := 3%N; pa_user_id := "u1" |}].

Definition failing_upsert_world : World :=
  {| tables := tables staffed_world; trace := [];
     faults := [Some (api_error "upstream timeout")];
     clock := "2024-07-01T09:00:00" |}.

(** A short message next to [long_smart_message]. *)
Definition short_smart_message : SmartMessage :=
  {| sm_text := Some "Hello"; sm_sender := Some "bob@acme.io";
     sm_timestamp := None |}.

(** An environment with every setting, and no API key for the job
    transport. *)
Definition full_env : Env :=
  {| SUPABASE_URL := Some "https://store.example";
     NEXT_PUBLIC_SUPABASE_URL := None;
     SUPABASE_SERVICE_ROLE_KEY := Some "service-role-key";
     GEMINI_API_KEY := Some "model-key";
     TRIGGER_API_KEY := None |}.

(** The same without the key of the model. *)
Definition env_without_model : Env :=
  {| SUPABASE_URL := Some "https://store.example";
     NEXT_PUBLIC_SUPABASE_URL := None;
     SUPABASE_SERVICE_ROLE_KEY := Some "service-role-key";
     GEMINI_API_KEY := None;
     TRIGGER_API_KEY := None |}.

(** [analyze_thread] from its first line in [full_env], with the library
    functions and the model of [analyze_with]. *)
Definition analyze_in_full_env (analysis : Analysis)
    : string -> string -> M AnalyzerReport :=
  analyze_thread_in full_env fromisoformat_model (fun _ => None) (fun _ => "{...}")
    (fun _ => Some analysis) "Analyze." (fun old_summary transcript => "Update.").

(** The rows no step of the entity processor is to touch: profiles,
    messages, participants, thread rows, next steps, assignments and
    feature requests are as they were. *)
Definition processor_leaves (t t' : Tables) : Prop :=
  t_profiles t' = t_profiles t
  /\ t_messages t' = t_messages t
  /\ t_participants t' = t_participants t
  /\ t_threads t' = t_threads t
  /\ t_next_steps t' = t_next_steps t
  /\ t_assignments t' = t_assignments t
  /\ t_feature_requests t' = t_feature_requests t.

(** The rows neither the batch resolver nor an analysis it starts is to
    touch: profiles, messages and thread-company links. *)
Definition resolver_leaves (t t' : Tables) : Prop :=
  t_profiles t' = t_profiles t
  /\ t_messages t' = t_messages t
  /\ t_links t' = t_links t.

(** * Properties *)

(** ** Python strings *)

Lemma app_nil_l_str s : "" +:+ s = s.
Proof. reflexivity. Qed.

Lemma app_cons_str c a b : String c a +:+ b = String c (a +:+ b).
Proof. reflexivity. Qed.

Lemma len_nonneg s : 0 <= Py.len s.
Proof. unfold Py.len. lia. Qed.

Lemma len_cons c s : Py.len (String c s) = Py.len s + 1.
Proof. unfold Py.len. cbn [String.length]. lia. Qed.

Lemma len_app a b : Py.len (a +:+ b) = Py.len a + Py.len b.
Proof.
  induction a as [|c a IH].
  - rewrite app_nil_l_str. change (Py.len "") with 0. lia.
  - rewrite app_cons_str, !len_cons, IH. lia.
Qed.

Lemma contains_app c a b :
  Py.contains c (a +:+ b) = Py.contains c a || Py.contains c b.
Proof.
  induction a as [|x a IH]; [done|].
  rewrite app_cons_str. cbn [Py.contains].
  destruct (Ascii.eqb x c); [done | exact IH].
Qed.

Lemma contains_cons_same c s : Py.contains c (String c s) = true.
Proof. cbn. by rewrite Ascii.eqb_refl. Qed.

Lemma find_absent c s : Py.contains c s = false -> Py.find c s = -1.
Proof.
  induction s as [|x s IH]; cbn [Py.contains Py.find]; [done|].
  destruct (Ascii.eqb x c); [done|]. intros H. cbv zeta. rewrite (IH H). done.
Qed.

Lemma find_present_nonneg c s : Py.contains c s = true -> 0 <= Py.find c s.
Proof.
  induction s as [|x s IH]; cbn [Py.contains Py.find]; [done|].
  destruct (Ascii.eqb x c); [lia|]. intros H. specialize (IH H).
  cbv zeta. destruct (Z.ltb_spec (Py.find c s) 0); lia.
Qed.

(** The first [c] of [a ++ c :: b] is right after [a] when [a] has none. *)
Lemma find_after_prefix c a b :
  Py.contains c a = false -> Py.find c (a +:+ String c b) = Py.len a.
Proof.
  induction a as [|x a IH].
  - intros _. rewrite app_nil_l_str. cbn [Py.find]. by rewrite Ascii.eqb_refl.
  - rewrite app_cons_str. cbn [Py.contains Py.find].
    destruct (Ascii.eqb x c); [done|]. intros H. cbv zeta.
    rewrite (IH H), len_cons.
    pose proof (len_nonneg a). destruct (Z.ltb_spec (Py.len a) 0); lia.
Qed.

Lemma clamp_in_range n i : 0 <= i <= n -> Py.clamp n i = i.
Proof.
  intros [H1 H2]. unfold Py.clamp.
  destruct (Z.ltb_spec i 0); lia.
Qed.

Lemma substring_prefix m b :
  String.substring 0 (String.length m) (m +:+ b) = m.
Proof.
  induction m as [|x m IH].
  - rewrite app_nil_l_str. by destruct b.
  - rewrite app_cons_str. cbn [String.length String.substring]. by rewrite IH.
Qed.

Lemma substring_skip a s n :
  String.substring (String.length a) n (a +:+ s) = String.substring 0 n s.
Proof.
  induction a as [|x a IH]; [done|].
  rewrite app_cons_str. cbn [String.length String.substring]. exact IH.
Qed.

(** [(a + m + b)[len a : len a + len m]] is [m]. *)
Lemma slice_middle a m b :
  Py.slice (a +:+ m +:+ b) (Py.len a) (Py.len a + Py.len m) = m.
Proof.
  unfold Py.slice. rewrite !len_app.
  pose proof (len_nonneg a). pose proof (len_nonneg m). pose proof (len_nonneg b).
  rewrite !clamp_in_range by lia.
  replace (Py.len a + Py.len m - Py.len a) with (Py.len m) by lia.
  unfold Py.len. rewrite !Nat2Z.id.
  rewrite substring_skip. apply substring_prefix.
Qed.

Lemma substring_zero n s : String.substring n 0 s = "".
Proof.
  revert n. induction s as [|x s IH]; intros [|n]; cbn [String.substring]; done.
Qed.

(** A slice whose stop is not after its start is empty. *)
Lemma slice_empty s start stop :
  0 <= stop <= start -> start <= Py.len s -> Py.slice s start stop = "".
Proof.
  intros H1 H2. unfold Py.slice.
  rewrite !clamp_in_range by lia.
  replace (Z.to_nat (stop - start)) with O by lia.
  apply substring_zero.
Qed.

Lemma truthy_nonempty s : Py.truthy s = true <-> s <> "".
Proof. destruct s; cbn; split; congruence. Qed.

Lemma app_assoc_str a b c : (a +:+ b) +:+ c = a +:+ (b +:+ c).
Proof.
  induction a as [|x a IH]; [done|].
  by rewrite !app_cons_str, IH.
Qed.

Lemma strip_empty : Py.strip "" = "".
Proof. reflexivity. Qed.

(** ** Splitting at a separator *)

Lemma split_go_unfold c cur s :
  Py.split_go c cur s
  = String.rev_app cur (before_first c s)
    :: (if Py.contains c s then Py.split c (after_first c s) else []).
Proof.
  revert cur. induction s as [|a s IH]; intros cur; [done|].
  cbn [Py.split_go before_first Py.contains after_first].
  destruct (Ascii.eqb a c); [done|].
  rewrite IH. done.
Qed.

Lemma split_unfold c s :
  Py.split c s
  = before_first c s
    :: (if Py.contains c s then Py.split c (after_first c s) else []).
Proof. unfold Py.split at 1. by rewrite split_go_unfold. Qed.

(** [s.split(c)[1]] is in range as soon as [c] is in [s]. *)
Lemma split_index_1_in_range c s :
  Py.contains c s = true -> (1 < length (Py.split c s))%nat.
Proof.
  intros H. rewrite split_unfold, H.
  rewrite (split_unfold c (after_first c s)). cbn. lia.
Qed.

Lemma split_nth_0 c s : nth 0 (Py.split c s) "" = before_first c s.
Proof. by rewrite split_unfold. Qed.

Lemma split_nth_1 c s :
  Py.contains c s = true ->
  nth 1 (Py.split c s) "" = before_first c (after_first c s).
Proof.
  intros H. rewrite split_unfold, H. cbn [nth]. apply split_nth_0.
Qed.

Lemma after_first_app c a b :
  Py.contains c a = false -> after_first c (a +:+ String c b) = b.
Proof.
  induction a as [|x a IH].
  - intros _. rewrite app_nil_l_str. cbn. by rewrite Ascii.eqb_refl.
  - rewrite app_cons_str. cbn [Py.contains after_first].
    destruct (Ascii.eqb x c); [done | exact IH].
Qed.

Lemma before_first_absent c s : Py.contains c s = false -> before_first c s = s.
Proof.
  induction s as [|x s IH]; [done|]. cbn [Py.contains before_first].
  destruct (Ascii.eqb x c); [done|]. intros H. by rewrite IH.
Qed.

(** ** Identity extraction *)

Lemma extract_email_bracketed pre mid post :
  Py.contains "<" pre = false -> Py.contains ">" pre = false ->
  Py.contains ">" mid = false ->
  extract_email_from_address (Some (pre +:+ "<" +:+ mid +:+ ">" +:+ post))
  = Some (Py.strip mid).
Proof.
  intros Hl Hg Hm. unfold extract_email_from_address.
  set (address := pre +:+ "<" +:+ mid +:+ ">" +:+ post).
  assert (Hc1 : Py.contains "<" address = true).
  { unfold address. rewrite contains_app. change ("<" +:+ ?x) with (String "<" x).
    by rewrite contains_cons_same, orb_true_r. }
  assert (Hc2 : Py.contains ">" address = true).
  { unfold address. rewrite !contains_app. change (">" +:+ ?x) with (String ">" x).
    by rewrite contains_cons_same, !orb_true_r. }
  assert (Ht : Py.truthy address = true).
  { destruct address; [discriminate Hc1 | done]. }
  rewrite Ht, Hc1, Hc2. cbn [negb andb]. f_equal. f_equal.
  assert (Hf1 : Py.find "<" address = Py.len pre).
  { unfold address. change ("<" +:+ ?x) with (String "<" x).
    by apply find_after_prefix. }
  assert (Hf2 : Py.find ">" address = Py.len pre + 1 + Py.len mid).
  { unfold address.
    replace (pre +:+ "<" +:+ mid +:+ ">" +:+ post)
      with ((pre +:+ "<" +:+ mid) +:+ String ">" post)
      by (by rewrite !app_assoc_str).
    rewrite find_after_prefix.
    - rewrite !len_app. change (Py.len "<") with 1. lia.
    - rewrite !contains_app, Hg, Hm. done. }
  rewrite Hf1, Hf2. unfold address.
  replace (pre +:+ "<" +:+ mid +:+ ">" +:+ post)
    with ((pre +:+ "<") +:+ mid +:+ (">" +:+ post))
    by (by rewrite !app_assoc_str).
  replace (Py.len pre + 1) with (Py.len (pre +:+ "<"))
    by (rewrite len_app; done).
  apply slice_middle.
Qed.

Lemma extract_email_reversed pre mid post :
  Py.contains "<" pre = false -> Py.contains ">" pre = false ->
  Py.contains "<" mid = false ->
  extract_email_from_address (Some (pre +:+ ">" +:+ mid +:+ "<" +:+ post))
  = Some "".
Proof.
  intros Hl Hg Hm. unfold extract_email_from_address.
  set (address := pre +:+ ">" +:+ mid +:+ "<" +:+ post).
  assert (Hc1 : Py.contains ">" address = true).
  { unfold address. rewrite contains_app. change (">" +:+ ?x) with (String ">" x).
    by rewrite contains_cons_same, orb_true_r. }
  assert (Hc2 : Py.contains "<" address = true).
  { unfold address. rewrite !contains_app. change ("<" +:+ ?x) with (String "<" x).
    by rewrite contains_cons_same, !orb_true_r. }
  assert (Ht : Py.truthy address = true).
  { destruct address; [discriminate Hc1 | done]. }
  rewrite Ht, Hc1, Hc2. cbn [negb andb]. f_equal.
  assert (Hf1 : Py.find ">" address = Py.len pre).
  { unfold address. change (">" +:+ ?x) with (String ">" x).
    by apply find_after_prefix. }
  assert (Hf2 : Py.find "<" address = Py.len pre + 1 + Py.len mid).
  { unfold address.
    replace (pre +:+ ">" +:+ mid +:+ "<" +:+ post)
      with ((pre +:+ ">" +:+ mid) +:+ String "<" post)
      by (by rewrite !app_assoc_str).
    rewrite find_after_prefix.
    - rewrite !len_app. change (Py.len ">") with 1. lia.
    - rewrite !contains_app, Hl, Hm. done. }
  rewrite Hf1, Hf2.
  pose proof (len_nonneg pre). pose proof (len_nonneg mid). pose proof (len_nonneg post).
  rewrite slice_empty; [done | lia |].
  unfold address. rewrite !len_app.
  change (Py.len ">") with 1. change (Py.len "<") with 1. lia.
Qed.

(** C7, as amended: [None] and the empty string give no result; between the
    first [<] and a later first [>] the result is the text between them
    with surrounding white space removed; when the first [>] comes before
    the first [<] the result is the empty string; a non-empty string
    without both brackets is returned trimmed.  The function is total: no
    input raises. *)
Theorem C7_extract_email_trims_between_brackets :
  extract_email_from_address None = None
  /\ extract_email_from_address (Some "") = None
  /\ (forall pre mid post,
        Py.contains "<" pre = false -> Py.contains ">" pre = false ->
        Py.contains ">" mid = false ->
        extract_email_from_address (Some (pre +:+ "<" +:+ mid +:+ ">" +:+ post))
        = Some (Py.strip mid))
  /\ (forall pre mid post,
        Py.contains "<" pre = false -> Py.contains ">" pre = false ->
        Py.contains "<" mid = false ->
        extract_email_from_address (Some (pre +:+ ">" +:+ mid +:+ "<" +:+ post))
        = Some "")
  /\ (forall address, address <> "" ->
        Py.contains "<" address && Py.contains ">" address = false ->
        extract_email_from_address (Some address) = Some (Py.strip address))
  /\ extract_email_from_address (Some "Name <a@b.com>") = Some "a@b.com"
  /\ extract_email_from_address (Some "a@b.com") = Some "a@b.com".
Proof.
  split; [reflexivity|]. split; [reflexivity|].
  split; [exact extract_email_bracketed|].
  split; [exact extract_email_reversed|].
  split; [|split; reflexivity].
  intros address Hne Hb. unfold extract_email_from_address.
  apply truthy_nonempty in Hne. by rewrite Hne, Hb.
Qed.

(** C7, as stated, fails: with blanks inside the brackets the result is not
    the text strictly between [<] and [>] but that text trimmed. *)
Lemma C7_counterexample_blanks_inside_brackets :
  before_first ">" (after_first "<" "Bob < bob@x.io >") = " bob@x.io "
  /\ extract_email_from_address (Some "Bob < bob@x.io >") = Some "bob@x.io"
  /\ extract_email_from_address (Some "Bob < bob@x.io >")
     <> Some (before_first ">" (after_first "<" "Bob < bob@x.io >")).
Proof. split; [reflexivity|]. split; [reflexivity|]. vm_compute. congruence. Qed.

(** ** Domain extraction *)

Lemma extract_domain_after_at local rest :
  Py.contains "@" local = false ->
  extract_domain_from_email (local +:+ "@" +:+ rest)
  = Py.lower (before_first "@" rest).
Proof.
  intros H. unfold extract_domain_from_email.
  change ("@" +:+ rest) with (String "@" rest).
  assert (Hc : Py.contains "@" (local +:+ String "@" rest) = true).
  { by rewrite contains_app, contains_cons_same, orb_true_r. }
  rewrite Hc. cbn [negb]. rewrite split_nth_1 by done.
  by rewrite after_first_app.
Qed.

Lemma extract_domain_absent email :
  Py.contains "@" email = false -> extract_domain_from_email email = "".
Proof. intros H. unfold extract_domain_from_email. by rewrite H. Qed.


(** ** Step 4 of the processor: which emails and domains pass *)

Lemma add_business_domains_lookup l acc e :
  (fold_left add_business_domain l acc).2 !! e
  = if bool_decide (e ∈ l)
       && (Py.truthy (extract_domain_from_email e)
           && is_business_domain (extract_domain_from_email e))
    then Some (extract_domain_from_email e) else acc.2 !! e.
Proof.
  revert acc. induction l as [|x l IH]; intros acc; [done|].
  cbn [fold_left]. rewrite IH. unfold add_business_domain.
  destruct (decide (e = x)) as [->|Hne].
  - rewrite (bool_decide_eq_true_2 (x ∈ x :: l)) by set_solver.
    destruct (Py.truthy _ && is_business_domain _) eqn:Hp.
    + rewrite andb_true_r. cbn [snd andb]. rewrite lookup_insert_eq.
      by destruct (bool_decide _).
    + rewrite andb_false_r. done.
  - assert (Hiff : bool_decide (e ∈ x :: l) = bool_decide (e ∈ l)).
    { apply bool_decide_ext. set_solver. }
    rewrite Hiff.
    destruct (bool_decide (e ∈ l) && _) eqn:Hb; [done|].
    destruct (Py.truthy (extract_domain_from_email x) && _); [|done].
    cbn [snd]. by rewrite lookup_insert_ne.
Qed.


(** [email_to_domain] holds exactly the emails whose domain is non-empty and
    no webmail domain, each with its domain. *)
Lemma email_to_domain_lookup emails e :
  (filter_business_domains emails).2 !! e
  = if bool_decide (e ∈ emails)
       && (Py.truthy (extract_domain_from_email e)
           && is_business_domain (extract_domain_from_email e))
    then Some (extract_domain_from_email e) else None.
Proof.
  unfold filter_business_domains. rewrite add_business_domains_lookup.
  cbn [snd]. rewrite lookup_empty.
  assert (Hiff : bool_decide (e ∈ elements emails) = bool_decide (e ∈ emails)).
  { apply bool_decide_ext. apply elem_of_elements. }
  by rewrite Hiff.
Qed.



(** C8, as amended: with an [@] in the email the domain is the text after
    the first [@] up to the next [@], lower-cased (all of the text after the
    first [@] when there is no second one); without [@] it is empty, and
    such an email gets no entry in [email_to_domain], the empty domain is no
    business domain, and the resolver looks up no company for it. *)
Theorem C8_domain_is_text_between_first_two_ats :
  (forall local rest,
      Py.contains "@" local = false ->
      extract_domain_from_email (local +:+ "@" +:+ rest)
      = Py.lower (before_first "@" rest))
  /\ (forall local rest,
        Py.contains "@" local = false -> Py.contains "@" rest = false ->
        extract_domain_from_email (local +:+ "@" +:+ rest) = Py.lower rest)
  /\ (forall email,
        Py.contains "@" email = false -> extract_domain_from_email email = "")
  /\ is_business_domain "" = false
  /\ (forall emails email,
        Py.contains "@" email = false ->
        (filter_business_domains emails).2 !! email = None)
  /\ (forall user_id w, find_or_create_company user_id "" w = (inr None, w)).
Proof.
  split; [exact extract_domain_after_at|].
  split.
  { intros local rest Hl Hr. rewrite extract_domain_after_at by done.
    by rewrite before_first_absent. }
  split; [exact extract_domain_absent|].
  split; [reflexivity|].
  split; [|reflexivity].
  intros emails email H. rewrite email_to_domain_lookup.
  rewrite (extract_domain_absent _ H). cbn. by rewrite andb_false_r.
Qed.

(** C8, as stated, fails: with a second [@] the result stops before it and
    is not all of the text after the first [@]. *)
Lemma C8_counterexample_second_at :
  extract_domain_from_email "a@b@c.com" = "b"
  /\ Py.lower (after_first "@" "a@b@c.com") = "b@c.com"
  /\ extract_domain_from_email "a@b@c.com"
     <> Py.lower (after_first "@" "a@b@c.com").
Proof. split; [reflexivity|]. split; [reflexivity|]. vm_compute. congruence. Qed.

(** ** Slices of lists *)

Lemma slice_to_take {A} (xs : list A) k :
  0 <= k <= Z.of_nat (length xs) -> Py.slice_to xs k = take (Z.to_nat k) xs.
Proof. intros H. unfold Py.slice_to. by rewrite clamp_in_range. Qed.

(** [xs[-k:]] for [0 < k <= len(xs)]: the last [k] items. *)
Lemma slice_from_last {A} (xs : list A) k :
  0 < k <= Z.of_nat (length xs) ->
  Py.slice_from xs (- k) = drop (length xs - Z.to_nat k) xs.
Proof.
  intros H. unfold Py.slice_from, Py.clamp.
  destruct (Z.ltb_spec (- k) 0); [|lia].
  f_equal. lia.
Qed.

(** [xs[-0:]] is all of [xs]. *)
Lemma slice_from_minus_zero {A} (xs : list A) : Py.slice_from xs (- 0) = xs.
Proof.
  unfold Py.slice_from, Py.clamp.
  change (- 0 <? 0) with false. change (- 0) with 0. cbv iota.
  assert (Z.to_nat (Z.min 0 (Z.of_nat (length xs))) = O) as -> by lia.
  apply drop_0.
Qed.

Lemma slice_to_zero {A} (xs : list A) : Py.slice_to xs 0 = [].
Proof.
  unfold Py.slice_to, Py.clamp.
  change (0 <? 0) with false. cbv iota.
  assert (Z.to_nat (Z.min 0 (Z.of_nat (length xs))) = O) as -> by lia.
  apply take_0.
Qed.

(** ** The transcript and its truncation *)

Lemma int_of_20_percent_small n : 0 <= n < 5 -> int_of_20_percent n = 0.
Proof. intros H. unfold int_of_20_percent. apply Z.div_small. lia. Qed.

Lemma int_of_20_percent_bounds n :
  5 <= n -> 0 < int_of_20_percent n <= n.
Proof.
  intros H. unfold int_of_20_percent. split.
  - apply Z.div_str_pos. lia.
  - apply Z.div_le_upper_bound; lia.
Qed.

(** At or below the limit nothing is truncated. *)
Lemma build_transcript_within_limit messages participants total_text :
  join_opt " " (map message_body messages) = inr total_text ->
  estimate_tokens total_text <= 100000 ->
  build_transcript messages participants
  = inr (construct_transcript messages participants).
Proof.
  intros Hj Hle. unfold build_transcript. rewrite Hj.
  destruct (Z.ltb_spec 100000 (estimate_tokens total_text)); [lia|done].
Qed.

(** Above the limit with five messages or more: the first fifth, the
    marker, the last fifth, each message whole. *)
Lemma build_transcript_over_limit messages participants total_text :
  join_opt " " (map message_body messages) = inr total_text ->
  100000 < estimate_tokens total_text ->
  (5 <= length messages)%nat ->
  build_transcript messages participants
  = inr (Py.join blank_line
           (flat_map (transcript_line participants)
              (take (length messages / 5) messages)
            ++ [TRUNCATION_MARKER]
            ++ flat_map (transcript_line participants)
                 (drop (length messages - length messages / 5) messages))).
Proof.
  intros Hj Hgt Hn. unfold build_transcript. rewrite Hj.
  destruct (Z.ltb_spec 100000 (estimate_tokens total_text)); [|lia].
  pose proof (int_of_20_percent_bounds (Z.of_nat (length messages))) as Hb.
  assert (Hk : Z.to_nat (int_of_20_percent (Z.of_nat (length messages)))
               = (length messages / 5)%nat).
  { unfold int_of_20_percent. rewrite <- (Nat2Z.id (length messages / 5)).
    f_equal. rewrite Nat2Z.inj_div. done. }
  rewrite slice_to_take by lia. rewrite slice_from_last by lia.
  by rewrite Hk.
Qed.

(** Above the limit with fewer than five messages: a fifth of the count is
    0, [messages[:0]] is empty and [messages[-0:]] is every message, so the
    marker is followed by the whole thread. *)
Lemma build_transcript_over_limit_short messages participants total_text :
  join_opt " " (map message_body messages) = inr total_text ->
  100000 < estimate_tokens total_text ->
  (length messages < 5)%nat ->
  build_transcript messages participants
  = inr (Py.join blank_line
           (TRUNCATION_MARKER :: flat_map (transcript_line participants) messages)).
Proof.
  intros Hj Hgt Hn. unfold build_transcript. rewrite Hj.
  destruct (Z.ltb_spec 100000 (estimate_tokens total_text)); [|lia].
  rewrite int_of_20_percent_small by lia.
  by rewrite slice_to_zero, slice_from_minus_zero.
Qed.

Lemma len_iter_char n c : Py.len (N.iter n (String c) "") = Z.of_N n.
Proof.
  induction n as [|n IH] using N.peano_ind; [done|].
  rewrite N.iter_succ, len_cons, IH. lia.
Qed.

Lemma long_body_head :
  long_body = String "a" (N.iter 400003 (String "a") "").
Proof.
  unfold long_body. change 400004%N with (N.succ 400003).
  by rewrite N.iter_succ.
Qed.

Lemma long_body_tokens : estimate_tokens long_body = 100001.
Proof. unfold estimate_tokens, long_body. by rewrite len_iter_char. Qed.

Lemma long_body_truthy : Py.truthy long_body = true.
Proof. rewrite long_body_head. reflexivity. Qed.

Lemma message_body_of_text m b :
  m_body_text m = Some b -> Py.truthy b = true -> message_body m = Some b.
Proof.
  intros Hb Ht. unfold message_body, Py.or_, Py.truthy_opt. by rewrite Hb, Ht.
Qed.

(** The line of a message that no customer was resolved for. *)
Lemma transcript_line_unresolved participants m b :
  message_body m = Some b -> Py.truthy b = true -> m_customer_id m = None ->
  transcript_line participants m = ["Unknown (Unknown Company): " +:+ b].
Proof.
  intros Hb Ht Hc. unfold transcript_line. by rewrite Hb, Ht, Hc.
Qed.

Lemma long_message_body : message_body long_message = Some long_body.
Proof. apply message_body_of_text; [reflexivity | exact long_body_truthy]. Qed.

Lemma long_message_line participants :
  transcript_line participants long_message
  = ["Unknown (Unknown Company): " +:+ long_body].
Proof.
  apply transcript_line_unresolved;
    [exact long_message_body | exact long_body_truthy | reflexivity].
Qed.

Lemma join_pair sep a b : Py.join sep [a; b] = a +:+ sep +:+ b.
Proof. reflexivity. Qed.

(** [truncate_messages_smart] within the limit. *)
Lemma truncate_messages_smart_within_limit messages total_text :
  join_opt " " (map sm_text messages) = inr total_text ->
  estimate_tokens total_text <= 100000 ->
  truncate_messages_smart messages = inr messages.
Proof.
  intros Hj Hle. unfold truncate_messages_smart.
  destruct messages as [|m messages]; [done|]. rewrite Hj.
  destruct (Z.leb_spec (estimate_tokens total_text) 100000); [done|lia].
Qed.

(** [truncate_messages_smart] above the limit, five messages or more. *)
Lemma truncate_messages_smart_over_limit messages total_text :
  join_opt " " (map sm_text messages) = inr total_text ->
  100000 < estimate_tokens total_text ->
  (5 <= length messages)%nat ->
  truncate_messages_smart messages
  = inr (take (length messages / 5) messages
         ++ [marker_message]
         ++ drop (length messages - length messages / 5) messages).
Proof.
  intros Hj Hgt Hn. unfold truncate_messages_smart.
  destruct messages as [|m messages]; [cbn in Hn; lia|]. rewrite Hj.
  destruct (Z.leb_spec (estimate_tokens total_text) 100000); [lia|].
  set (ms := m :: messages) in *.
  pose proof (int_of_20_percent_bounds (Z.of_nat (length ms))) as Hb.
  assert (Hk : Z.to_nat (int_of_20_percent (Z.of_nat (length ms)))
               = (length ms / 5)%nat).
  { unfold int_of_20_percent. rewrite <- (Nat2Z.id (length ms / 5)).
    f_equal. rewrite Nat2Z.inj_div. done. }
  rewrite slice_to_take by lia. rewrite slice_from_last by lia.
  by rewrite Hk.
Qed.

(** [truncate_messages_smart] above the limit, fewer than five messages. *)
Lemma truncate_messages_smart_over_limit_short messages total_text :
  join_opt " " (map sm_text messages) = inr total_text ->
  100000 < estimate_tokens total_text ->
  (length messages < 5)%nat ->
  truncate_messages_smart messages = inr (marker_message :: messages).
Proof.
  intros Hj Hgt Hn. unfold truncate_messages_smart.
  destruct messages as [|m messages].
  - cbn in Hj. injection Hj as <-. vm_compute in Hgt. discriminate.
  - rewrite Hj.
    destruct (Z.leb_spec (estimate_tokens total_text) 100000); [lia|].
    rewrite int_of_20_percent_small by lia.
    by rewrite slice_to_zero, slice_from_minus_zero.
Qed.

(** C1, where the code leaves it: a thread of one message of 400004
    characters is over the limit (100001 estimated tokens), a fifth of its
    message count is 0, and the transcript is the marker followed by the
    whole message; [truncate_messages_smart] does the same to its list.
    The claim has such a thread reduced to the marker alone. *)
Theorem C1_one_long_message_is_kept_after_the_marker :
  join_opt " " (map message_body [long_message]) = inr long_body
  /\ estimate_tokens long_body = 100001
  /\ int_of_20_percent (Z.of_nat (length [long_message])) = 0
  /\ build_transcript [long_message] ∅
     = inr (TRUNCATION_MARKER +:+ blank_line
            +:+ "Unknown (Unknown Company): " +:+ long_body)
  /\ truncate_messages_smart [long_smart_message]
     = inr [marker_message; long_smart_message].
Proof.
  assert (Hj : join_opt " " (map message_body [long_message]) = inr long_body).
  { cbn [map]. rewrite long_message_body. reflexivity. }
  assert (Hgt : 100000 < estimate_tokens long_body).
  { rewrite long_body_tokens. lia. }
  split; [exact Hj|]. split; [exact long_body_tokens|]. split; [reflexivity|].
  split.
  - rewrite (build_transcript_over_limit_short _ _ long_body Hj Hgt)
      by (cbn [length]; lia).
    cbn [flat_map]. rewrite long_message_line. cbn [app].
    rewrite join_pair. reflexivity.
  - apply (truncate_messages_smart_over_limit_short _ long_body);
      [reflexivity | exact Hgt | cbn [length]; lia].
Qed.

(** ** Runs: rules for [steps] *)

Section StepsRules.

Context (R : relation World) `{!PreOrder R}.

Lemma steps_ret {A} (a : A) : steps R (ret a).
Proof. intros w. cbn. reflexivity. Qed.

Lemma steps_raise {A} e : steps R (@raise A e).
Proof. intros w. cbn. reflexivity. Qed.

Lemma steps_bind {A B} (m : M A) (k : A -> M B) :
  steps R m -> (forall a, steps R (k a)) -> steps R (bind m k).
Proof.
  intros Hm Hk w. unfold bind. specialize (Hm w).
  destruct (m w) as [[e|a] w']; cbn in *; [done|].
  etrans; [exact Hm | apply Hk].
Qed.

Lemma steps_try {A} (m : M A) h :
  steps R m -> (forall e, steps R (h e)) -> steps R (try_ m h).
Proof.
  intros Hm Hh w. unfold try_. specialize (Hm w).
  destruct (m w) as [[e|a] w']; cbn in *; [|done].
  etrans; [exact Hm | apply Hh].
Qed.

Lemma steps_for_each_in {A S} (xs : list A) (body : A -> S -> M S) st :
  (forall x s, x ∈ xs -> steps R (body x s)) -> steps R (for_each xs body st).
Proof.
  revert st. induction xs as [|x xs IH]; intros st H; cbn [for_each].
  - apply steps_ret.
  - apply steps_bind; [apply H; set_solver|].
    intros st'. apply IH. intros y s Hy. apply H. set_solver.
Qed.

Lemma steps_for_each {A S} (xs : list A) (body : A -> S -> M S) st :
  (forall x s, steps R (body x s)) -> steps R (for_each xs body st).
Proof. intros H. apply steps_for_each_in. auto. Qed.

Lemma steps_attempt {A} (m : M A) : steps R m -> steps R (attempt m).
Proof.
  intros H. unfold attempt. apply steps_try.
  - apply steps_bind; [done|]. intros a. apply steps_ret.
  - intros e. apply steps_ret.
Qed.

Lemma steps_lift {A} (r : PyExn + A) : steps R (lift r).
Proof. destruct r; [apply steps_raise | apply steps_ret]. Qed.

Lemma steps_now : steps R now_isoformat.
Proof. intros w. cbn. reflexivity. Qed.

End StepsRules.

#[global] Instance emitting_preorder P : PreOrder (emitting P).
Proof.
  split.
  - intros w. exists []. done.
  - intros w1 w2 w3 (n1 & H1 & F1) (n2 & H2 & F2).
    exists (n2 ++ n1). split.
    + by rewrite H2, H1, app_assoc.
    + by apply Forall_app.
Qed.

#[global] Instance evolving_preorder Rt `{!PreOrder Rt} : PreOrder (evolving Rt).
Proof.
  split.
  - intros w. unfold evolving. reflexivity.
  - intros w1 w2 w3 H1 H2. unfold evolving in *. by etrans.
Qed.

(** A call adds itself to the trace and nothing else. *)
Lemma call_trace {A} c (effect : Tables -> (PyExn + A) * Tables) w :
  trace (call c effect w).2 = c :: trace w.
Proof.
  unfold call. destruct (faults w) as [|[e|] plan]; cbn; try done;
    by destruct (effect (tables w)).
Qed.

Lemma emitting_call P {A} c (effect : Tables -> (PyExn + A) * Tables) :
  P c -> steps (emitting P) (call c effect).
Proof.
  intros H w. exists [c]. split; [apply call_trace|]. by apply Forall_singleton.
Qed.

(** A call changes the tables by its effect or not at all. *)
Lemma call_tables {A} c (effect : Tables -> (PyExn + A) * Tables) w :
  tables (call c effect w).2 = tables w
  \/ tables (call c effect w).2 = (effect (tables w)).2.
Proof.
  unfold call. destruct (faults w) as [|[e|] plan]; cbn;
    try (by left); right; by destruct (effect (tables w)).
Qed.

Lemma evolving_call Rt `{!PreOrder Rt} {A} c
    (effect : Tables -> (PyExn + A) * Tables) :
  (forall t, Rt t (effect t).2) -> steps (evolving Rt) (call c effect).
Proof.
  intros H w. unfold evolving.
  destruct (call_tables c effect w) as [-> | ->]; [reflexivity | apply H].
Qed.

(** The new calls of a run are what the trace grew by. *)
Lemma new_calls_spec {A} (m : M A) w new :
  trace (m w).2 = new ++ trace w -> new_calls m w = new.
Proof.
  intros H. unfold new_calls. rewrite H, length_app.
  replace (length new + length (trace w) - length (trace w))%nat
    with (length new) by lia.
  by rewrite take_app_length.
Qed.


(** The head constant of a term, and the walk of a program along its
    binds, handlers, loops and case distinctions down to its calls. *)
Ltac head_of t := lazymatch t with ?f _ => head_of f | _ => t end.

Ltac steps_structure :=
  idtac; lazymatch goal with
  | |- steps ?R (ret _) => refine (steps_ret R _)
  | |- steps ?R (raise _) => refine (steps_raise R _)
  | |- steps ?R (lift _) => refine (steps_lift R _)
  | |- steps ?R now_isoformat => refine (steps_now R)
  | |- steps ?R (bind _ _) => refine (steps_bind R _ _ _ _); [|intros ?]
  | |- steps ?R (try_ _ _) => refine (steps_try R _ _ _ _); [|intros ?]
  | |- steps ?R (attempt _) => refine (steps_attempt R _ _)
  | |- steps ?R (for_each _ _ _) => refine (steps_for_each R _ _ _ _); intros ? ?
  | |- steps _ (match ?x with _ => _ end) => destruct x eqn:?
  end.

Ltac steps_unfold :=
  idtac; lazymatch goal with
  | |- steps _ ?m => let h := head_of m in progress unfold h
  end.

Tactic Notation "steps_walk" tactic3(leaf) :=
  repeat first [ steps_structure | leaf | steps_unfold ].

Ltac emitting_leaf :=
  idtac; lazymatch goal with
  | |- steps (emitting ?P) (call ?c ?e) => refine (emitting_call P c e _)
  end.


#[global] Instance faultless_preorder : PreOrder faultless.
Proof.
  split.
  - intros w. unfold faultless. done.
  - intros w1 w2 w3 H1 H2. unfold faultless in *. auto.
Qed.

#[global] Instance both_preorder R1 R2 `{!PreOrder R1} `{!PreOrder R2} :
  PreOrder (both R1 R2).
Proof.
  split.
  - intros w. split; reflexivity.
  - intros w1 w2 w3 [H1 H2] [H3 H4]. split; by etrans.
Qed.


(** ** The processor asks for companies of business domains only *)





(** ** Runs without faults *)

(** With no fault planned, a call is its effect. *)
Lemma call_ok {A} c (effect : Tables -> (PyExn + A) * Tables) w :
  faults w = [] ->
  call c effect w
  = ((effect (tables w)).1,
     {| tables := (effect (tables w)).2; trace := c :: trace w;
        faults := []; clock := clock w |}).
Proof.
  intros H. unfold call. rewrite H. by destruct (effect (tables w)).
Qed.

Lemma bind_ok {A B} (m : M A) (k : A -> M B) w a w1 :
  m w = (inr a, w1) -> bind m k w = k a w1.
Proof. intros H. unfold bind. by rewrite H. Qed.

Lemma try_bind_ok {A B} (m : M A) (k : A -> M B) h w a w1 :
  m w = (inr a, w1) -> try_ (bind m k) h w = try_ (k a) h w1.
Proof. intros H. unfold try_, bind. by rewrite H. Qed.

Lemma try_ok {A} (m : M A) h w a w1 :
  m w = (inr a, w1) -> try_ m h w = (inr a, w1).
Proof. intros H. unfold try_. by rewrite H. Qed.

Lemma faultless_call {A} c (effect : Tables -> (PyExn + A) * Tables) :
  steps faultless (call c effect).
Proof.
  intros w Hf. rewrite call_ok by done. done.
Qed.

Ltac faultless_leaf :=
  idtac; lazymatch goal with
  | |- steps faultless (call ?c ?e) => refine (faultless_call c e)
  end.


(** Whatever a program does after a call, the call stays in the trace. *)
Lemma emitting_any {A} (m : M A) w :
  steps (emitting (fun _ => True)) m ->
  exists new, trace (m w).2 = new ++ trace w.
Proof. intros H. destruct (H w) as (new & Ht & _). by exists new. Qed.

Lemma resolve_customer_any_calls user_id email st :
  steps (emitting (fun _ => True)) (resolve_customer user_id email st).
Proof. steps_walk emitting_leaf. all: exact I. Qed.







(** ** Resolution improves customers and never erases a company *)

#[global] Instance row_improves_preorder : PreOrder row_improves.
Proof.
  split.
  - intros r. unfold row_improves. repeat split; try done. by left.
  - intros r1 r2 r3 (Hi & Hu & He & Hn & Hs & Hc) (Hi' & Hu' & He' & Hn' & Hs' & Hc').
    unfold row_improves. repeat split; try congruence.
    destruct Hc' as [[Hc1 Hc2]|Hc']; [|by right].
    destruct Hc as [[Hc3 Hc4]|[Hc3 Hc4]]; [left; split; congruence|].
    right. by rewrite Hc1, Hc2.
Qed.

#[global] Instance customers_improve_preorder : PreOrder customers_improve.
Proof.
  split.
  - intros t. exists (t_customers t), []. split; [by rewrite app_nil_r|].
    apply Forall2_same_length_lookup. split; [done|].
    intros i x y Hx Hy. assert (x = y) as -> by congruence. reflexivity.
  - intros t1 t2 t3 (k1 & a1 & E1 & F1) (k2 & a2 & E2 & F2).
    rewrite E1 in F2. apply Forall2_app_inv_l in F2 as (k2a & k2b & Fa & Fb & ->).
    exists k2a, (k2b ++ a2). split; [by rewrite E2, app_assoc|].
    clear E1 E2 Fb. revert k2a Fa.
    induction F1 as [|x y l l' Hxy F1 IH]; intros k2a Fa.
    + by apply Forall2_nil_inv_l in Fa as ->.
    + apply Forall2_cons_inv_l in Fa as (z & k' & Hyz & Fa & ->).
      constructor; [by etrans | by apply IH].
Qed.










#[global] Instance customers_grow_preorder : PreOrder customers_grow.
Proof.
  split.
  - intros t. exists []. by rewrite app_nil_r.
  - intros t1 t2 t3 [a1 E1] [a2 E2]. exists (a1 ++ a2).
    by rewrite E2, E1, app_assoc.
Qed.






(** ** Programs that return *)

Lemma returns_ret {A} (a : A) : returns (ret a).
Proof. intros w. by exists a. Qed.

Lemma returns_bind {A B} (m : M A) (k : A -> M B) :
  returns m -> (forall a, returns (k a)) -> returns (bind m k).
Proof.
  intros Hm Hk w. unfold bind. destruct (Hm w) as [a Ha].
  destruct (m w) as [[e|a'] w1]; cbn in Ha; [done|].
  apply Hk.
Qed.

(** A handler that returns makes the whole [try] return. *)
Lemma returns_try {A} (m : M A) h :
  (forall e, returns (h e)) -> returns (try_ m h).
Proof.
  intros Hh w. unfold try_. destruct (m w) as [[e|a] w1]; [apply Hh|by exists a].
Qed.

Lemma returns_for_each {A S} (xs : list A) (body : A -> S -> M S) st :
  (forall x s, returns (body x s)) -> returns (for_each xs body st).
Proof.
  intros H. revert st. induction xs as [|x xs IH]; intros st; cbn [for_each].
  - apply returns_ret.
  - apply returns_bind; [apply H | intros st'; apply IH].
Qed.






(** ** Frames *)

#[global] Instance customers_same_preorder : PreOrder customers_same.
Proof.
  split; [by intros t|].
  intros t1 t2 t3 H1 H2. unfold customers_same in *. congruence.
Qed.

#[global] Instance messages_same_preorder : PreOrder messages_same.
Proof.
  split; [by intros t|].
  intros t1 t2 t3 H1 H2. unfold messages_same in *. congruence.
Qed.

#[global] Instance no_row_kept_preorder email user_id :
  PreOrder (no_row_kept email user_id).
Proof.
  split; [intros t H; exact H|].
  intros t1 t2 t3 H1 H2. unfold no_row_kept in *. auto.
Qed.


Ltac messages_same_leaf :=
  idtac; lazymatch goal with
  | |- steps (evolving messages_same) (call ?c ?e) =>
      refine (evolving_call messages_same c e _);
      let t := fresh "t" in
      intros t; unfold messages_same, company_insert_effect; cbn;
      repeat (case_match; cbn); reflexivity
  end.




Lemma upsert_customer_faultless user_id etd dtc email st :
  steps faultless (upsert_customer user_id etd dtc email st).
Proof. steps_walk faultless_leaf. Qed.

















Lemma upsert_customers_loop_faultless user_id etd dtc xs st :
  steps faultless (for_each xs (upsert_customer user_id etd dtc) st).
Proof. apply steps_for_each; [apply _|]. intros. apply upsert_customer_faultless. Qed.


Lemma extract_participant_emails_nil json_loads :
  extract_participant_emails json_loads [] = ∅.
Proof. reflexivity. Qed.





(** ** The resolver creates a customer only with a company *)






(** ** The idempotency gate *)






Lemma skip_reason_none stage : eligible stage = true -> skip_reason stage = None.
Proof.
  unfold eligible, skip_reason. destruct (classify_stage stage); eauto; discriminate.
Qed.

Lemma attempt_ok {A} (m : M A) w a w1 :
  m w = (inr a, w1) -> attempt m w = (inr (inr a), w1).
Proof. intros H. unfold attempt. apply try_ok. by rewrite (bind_ok _ _ _ _ _ H). Qed.





(** ** Mode selection *)

Section ModeSelection.

Variable fromisoformat : string -> option DateTime.
Variable strptime_ymd : string -> option string.
Variable generate_content : string -> string.
Variable json_loads_analysis : string -> option Analysis.
Variable full_system_prompt : string.
Variable incremental_system_prompt : string -> string -> string.

Lemma keep_message_spec last_analyzed_at msg :
  keep_message fromisoformat last_analyzed_at msg = true
  <-> kept_when fromisoformat last_analyzed_at msg.
Proof.
  unfold kept_when, keep_message, Py.or_.
  destruct (m_sent_date msg) as [d|] eqn:Hd; cbn [Py.truthy_opt];
    [|split; [by left|done]].
  destruct (Py.truthy d) eqn:Ht; cbv beta iota; rewrite ?Ht;
    [|split; [by left|done]].
  destruct (fromisoformat (Py.replace "Z" "+00:00" d)) as [md|] eqn:Hmd.
  2:{ split; [|done]. intros _. right. exists d. split; [done|]. by left. }
  destruct (fromisoformat (Py.replace "Z" "+00:00" last_analyzed_at))
    as [lad|] eqn:Hlad.
  2:{ split; [|done]. intros _. right. exists d. split; [done|]. right. by left. }
  destruct (datetime_gt md lad) as [e|after] eqn:Hgt.
  - split; [|done]. intros _. right. exists d. split; [done|].
    right. right. exists md, lad. split; [done|]. split; [done|]. left. by exists e.
  - split.
    + intros ->. right. exists d. split; [done|].
      right. right. exists md, lad. split; [done|]. split; [done|]. by right.
    + intros [H|(d' & Hd' & [H|[H|(md' & lad' & H1 & H2 & [[e He]|H3])]])];
        try discriminate.
      all: simplify_eq; congruence.
Qed.

Lemma analyze_selected_reads {B} user_id thread_id w thread_data
    (k : ThreadRow -> list MessageRow -> M B) :
  faults w = [] ->
  filter (fun r => Is_true (thread_matches thread_id user_id r))
    (t_threads (tables w)) = [thread_data] ->
  bind (thread_select thread_id user_id)
    (fun thread_response =>
       match thread_response with
       | None => @raise B (value_error ("Thread " +:+ thread_id
                                        +:+ " not found for user " +:+ user_id))
       | Some thread_data =>
           bind (message_select_ordered thread_id user_id) (k thread_data)
       end) w
  = k thread_data (messages_read user_id thread_id w)
      (after_reads user_id thread_id w).
Proof.
  intros Hf Ht.
  erewrite bind_ok; last first.
  { unfold thread_select. rewrite call_ok by done. rewrite Ht. reflexivity. }
  cbv beta iota.
  erewrite bind_ok; last first.
  { unfold message_select_ordered. rewrite call_ok by done. reflexivity. }
  reflexivity.
Qed.

(** C5, as amended: with no fault of the store, one thread row and at least
    one message, the analysis runs [analyze_messages] in mode full on all
    messages when [last_analyzed_at] is null, and otherwise in mode
    incremental on the messages [keep_message] keeps, unless it keeps none:
    then [analyze_thread] writes the stage completed, reports the analysis
    as skipped and successful, and makes no call but the two reads and the
    stage write, so none to the model.  [keep_message] keeps a message
    exactly when its date is missing, when one of the two dates cannot be
    read, when the comparison raises because only one of them has an
    offset, or when it is strictly after [last_analyzed_at]. *)
Theorem C5_mode_selection_and_short_circuit user_id thread_id w thread_data :
  faults w = [] ->
  filter (fun r => Is_true (thread_matches thread_id user_id r))
    (t_threads (tables w)) = [thread_data] ->
  messages_read user_id thread_id w <> [] ->
  match th_last_analyzed_at thread_data with
  | None =>
      analyze_selected fromisoformat strptime_ymd generate_content
        json_loads_analysis full_system_prompt incremental_system_prompt
        user_id thread_id w
      = analyze_messages strptime_ymd generate_content json_loads_analysis
          full_system_prompt incremental_system_prompt
          user_id thread_id "full" (th_summary thread_data)
          (messages_read user_id thread_id w) (after_reads user_id thread_id w)
  | Some last_analyzed_at =>
      (forall msg,
          msg ∈ List.filter (keep_message fromisoformat last_analyzed_at)
                  (messages_read user_id thread_id w)
          <-> msg ∈ messages_read user_id thread_id w
              /\ kept_when fromisoformat last_analyzed_at msg)
      /\ match List.filter (keep_message fromisoformat last_analyzed_at)
                 (messages_read user_id thread_id w) with
         | [] =>
             (analyze_thread fromisoformat strptime_ymd generate_content
                json_loads_analysis full_system_prompt incremental_system_prompt
                user_id thread_id w).1
             = inr {| ar_success := true; ar_thread_id := thread_id;
                      ar_errors := [];
                      ar_analysis :=
                        Some (AnalysisSkipped "incremental" "No new messages") |}
             /\ new_calls
                  (analyze_thread fromisoformat strptime_ymd generate_content
                     json_loads_analysis full_system_prompt
                     incremental_system_prompt user_id thread_id) w
                = [StageUpdate "completed" [thread_id] user_id;
                   MessageSelect [thread_id] user_id;
                   ThreadSelect thread_id user_id]
             /\ t_stages
                  (tables
                     (analyze_thread fromisoformat strptime_ymd generate_content
                        json_loads_analysis full_system_prompt
                        incremental_system_prompt user_id thread_id w).2)
                = map (stage_set "completed" [thread_id] user_id)
                    (t_stages (tables w))
         | kept =>
             analyze_selected fromisoformat strptime_ymd generate_content
               json_loads_analysis full_system_prompt incremental_system_prompt
               user_id thread_id w
             = analyze_messages strptime_ymd generate_content json_loads_analysis
                 full_system_prompt incremental_system_prompt
                 user_id thread_id "incremental" (th_summary thread_data)
                 kept (after_reads user_id thread_id w)
         end
  end.
Proof.
  intros Hf Ht Hm.
  unfold analyze_thread, analyze_selected.
  destruct (th_last_analyzed_at thread_data) as [la|] eqn:Hla.
  - split.
    { intros msg. rewrite <- keep_message_spec, !list_elem_of_In. apply filter_In. }
    destruct (List.filter (keep_message fromisoformat la)
                (messages_read user_id thread_id w)) as [|m0 kept] eqn:Hkept.
    + assert (Hrun : analyze_selected fromisoformat strptime_ymd generate_content
               json_loads_analysis full_system_prompt incremental_system_prompt
               user_id thread_id w
             = (inr (AnalysisSkipped "incremental" "No new messages"),
                {| tables := set_stages
                               (map (stage_set "completed" [thread_id] user_id)
                                  (t_stages (tables w))) (tables w);
                   trace := StageUpdate "completed" [thread_id] user_id
                            :: trace (after_reads user_id thread_id w);
                   faults := []; clock := clock w |})).
      { unfold analyze_selected.
        rewrite (analyze_selected_reads user_id thread_id w thread_data
                   (fun thread_data messages => _) Hf Ht).
        cbv beta. rewrite Hla.
        destruct (messages_read user_id thread_id w) as [|m1 ms] eqn:Hmr; [done|].
        rewrite Hkept.
        erewrite bind_ok; last first.
        { unfold stage_update. rewrite call_ok by done. reflexivity. }
        reflexivity. }
      unfold analyze_selected in Hrun.
      rewrite (try_bind_ok _ _ _ _ _ _ Hrun). cbn [try_ ret fst snd].
      split; [reflexivity|].
      split; [|reflexivity].
      apply new_calls_spec. rewrite (try_bind_ok _ _ _ _ _ _ Hrun). reflexivity.
    + rewrite (analyze_selected_reads user_id thread_id w thread_data
                 (fun thread_data messages => _) Hf Ht).
      cbv beta. rewrite Hla.
      destruct (messages_read user_id thread_id w) as [|m1 ms] eqn:Hmr; [done|].
      by rewrite Hkept.
  - rewrite (analyze_selected_reads user_id thread_id w thread_data
               (fun thread_data messages => _) Hf Ht).
    cbv beta. rewrite Hla.
    by destruct (messages_read user_id thread_id w) as [|m1 ms] eqn:Hmr.
Qed.

End ModeSelection.

(** C5 at work: the thread was analyzed on 1 June and its one message is of
    1 January, both dates with offset: nothing is kept, the stage is set to
    completed, the report says skipped, and the model is not called. *)
Lemma C5_witness_no_new_messages :
  (faults (analysis_world (Some "2024-06-01T12:00:00+00:00") [january_message] [])
   = []
   /\ filter (fun r => Is_true (thread_matches "t1" "u1" r))
        (t_threads (tables (analysis_world (Some "2024-06-01T12:00:00+00:00")
                              [january_message] [])))
      = [thread_t1 (Some "2024-06-01T12:00:00+00:00")]
   /\ messages_read "u1" "t1"
        (analysis_world (Some "2024-06-01T12:00:00+00:00") [january_message] [])
      <> [])
  /\ (analyze_with (analysis_with []) "u1" "t1"
        (analysis_world (Some "2024-06-01T12:00:00+00:00") [january_message] [])).1
     = inr {| ar_success := true; ar_thread_id := "t1"; ar_errors := [];
              ar_analysis := Some (AnalysisSkipped "incremental" "No new messages") |}
  /\ new_calls (analyze_with (analysis_with []) "u1" "t1")
       (analysis_world (Some "2024-06-01T12:00:00+00:00") [january_message] [])
     = [StageUpdate "completed" ["t1"] "u1"; MessageSelect ["t1"] "u1";
        ThreadSelect "t1" "u1"].
Proof.
  assert (Hm : messages_read "u1" "t1"
                 (analysis_world (Some "2024-06-01T12:00:00+00:00")
                    [january_message] []) <> []) by (by vm_compute).
  split; [split; [reflexivity|split; [reflexivity|exact Hm]]|].
  destruct (C5_mode_selection_and_short_circuit fromisoformat_model
              (fun _ => None) (fun _ => "{...}")
              (fun _ => Some (analysis_with [])) "Analyze."
              (fun old_summary transcript => "Update.") "u1" "t1"
              (analysis_world (Some "2024-06-01T12:00:00+00:00")
                 [january_message] [])
              (thread_t1 (Some "2024-06-01T12:00:00+00:00"))
              eq_refl eq_refl Hm) as [_ (Hrun & Hcalls & _)].
  split; [exact Hrun | exact Hcalls].
Defined.

(** C5, as stated, fails: the thread was analyzed on 1 June, its time stored
    without offset, and its one message is of 1 January, with offset.  Both
    dates can be read and the message is not after the analysis, yet the
    comparison raises, the message is kept, and the model is called. *)
Lemma C5_counterexample_old_message_kept :
  fromisoformat_model "2024-01-01T00:00:00+00:00"
  = Some {| dt_wall := 1704067200000000; dt_utcoffset := Some 0 |}
  /\ fromisoformat_model "2024-06-01T12:00:00.000000"
     = Some {| dt_wall := 1717243200000000; dt_utcoffset := None |}
  /\ kept_as_specified fromisoformat_model "2024-06-01T12:00:00.000000"
       january_message = false
  /\ keep_message fromisoformat_model "2024-06-01T12:00:00.000000"
       january_message = true
  /\ (analyze_with (analysis_with []) "u1" "t1"
        (analysis_world (Some "2024-06-01T12:00:00.000000") [january_message] [])).1
     = inr {| ar_success := true; ar_thread_id := "t1"; ar_errors := [];
              ar_analysis :=
                Some (AnalysisDone "incremental" None (Some "Timeline")
                        (Some "Neutral") (Some 0) None 0 0 "2024-07-01T09:00:00") |}
  /\ existsb is_llm_call
       (new_calls (analyze_with (analysis_with []) "u1" "t1")
          (analysis_world (Some "2024-06-01T12:00:00.000000") [january_message] []))
     = true.
Proof. repeat split; by vm_compute. Qed.

(** ** Programs that succeed when the store does *)

Section SucceedsRules.

Context (Rt : relation Tables) `{!PreOrder Rt}.

Lemma succeeds_ret {A} (a : A) : succeeds Rt (ret a).
Proof. intros w Hf. exists a, w. by split. Qed.

Lemma succeeds_bind {A B} (m : M A) (k : A -> M B) :
  succeeds Rt m -> (forall a, succeeds Rt (k a)) -> succeeds Rt (bind m k).
Proof.
  intros Hm Hk w Hf. destruct (Hm w Hf) as (a & w1 & E1 & Hf1 & H1).
  destruct (Hk a w1 Hf1) as (b & w2 & E2 & Hf2 & H2).
  exists b, w2. rewrite (bind_ok _ _ _ _ _ E1). split; [done|].
  split; [done|]. by etrans.
Qed.

Lemma succeeds_try {A} (m : M A) h : succeeds Rt m -> succeeds Rt (try_ m h).
Proof.
  intros Hm w Hf. destruct (Hm w Hf) as (a & w1 & E1 & Hf1 & H1).
  exists a, w1. by rewrite (try_ok _ _ _ _ _ E1).
Qed.

Lemma succeeds_for_each {A S} (xs : list A) (body : A -> S -> M S) st :
  (forall x s, succeeds Rt (body x s)) -> succeeds Rt (for_each xs body st).
Proof.
  intros H. revert st. induction xs as [|x xs IH]; intros st; cbn [for_each].
  - apply succeeds_ret.
  - apply succeeds_bind; [apply H | intros st'; apply IH].
Qed.

Lemma succeeds_call {A} c (effect : Tables -> (PyExn + A) * Tables) :
  (forall t, exists a, (effect t).1 = inr a /\ Rt t (effect t).2) ->
  succeeds Rt (call c effect).
Proof.
  intros H w Hf. destruct (H (tables w)) as (a & Ea & Ht).
  exists a. eexists. rewrite (call_ok _ _ _ Hf), Ea. split; [reflexivity|].
  split; [reflexivity | exact Ht].
Qed.

Lemma succeeds_now : succeeds Rt now_isoformat.
Proof. intros w Hf. exists (clock w), w. by split. Qed.

End SucceedsRules.

#[global] Instance next_steps_same_preorder : PreOrder next_steps_same.
Proof.
  split; [by intros t|].
  intros t1 t2 t3 [H1 H2] [H3 H4]. unfold next_steps_same. split; congruence.
Qed.

Ltac succeeds_structure :=
  idtac; lazymatch goal with
  | |- succeeds ?R (ret _) => refine (succeeds_ret R _)
  | |- succeeds ?R now_isoformat => refine (succeeds_now R)
  | |- succeeds ?R (bind _ _) => refine (succeeds_bind R _ _ _ _); [|intros ?]
  | |- succeeds ?R (try_ _ _) => refine (succeeds_try R _ _ _)
  | |- succeeds ?R (for_each _ _ _) => refine (succeeds_for_each R _ _ _ _); intros ? ?
  | |- succeeds _ (match ?x with _ => _ end) => destruct x eqn:?
  | |- succeeds ?R (call ?c ?e) =>
      refine (succeeds_call R c e _);
      let t := fresh "t" in
      intros t; eexists; split; [reflexivity | split; reflexivity]
  end.

Ltac succeeds_unfold :=
  idtac; lazymatch goal with
  | |- succeeds _ ?m => let h := head_of m in progress unfold h
  end.

Ltac succeeds_walk := repeat first [ succeeds_structure | succeeds_unfold ].

Lemma load_participants_succeeds user_id thread_id :
  succeeds next_steps_same (load_participants user_id thread_id).
Proof. succeeds_walk. Qed.

Lemma thread_update_succeeds p thread_id user_id :
  succeeds next_steps_same (thread_update p thread_id user_id).
Proof. succeeds_walk. Qed.

Lemma create_assignments_succeeds user_id thread_id inserted_steps :
  succeeds next_steps_same (create_assignments user_id thread_id inserted_steps).
Proof. succeeds_walk. Qed.

Lemma persist_feature_requests_succeeds user_id thread_id feature_requests_data :
  succeeds next_steps_same
    (persist_feature_requests user_id thread_id feature_requests_data).
Proof. succeeds_walk. Qed.

Lemma stage_update_succeeds stage thread_ids user_id :
  succeeds next_steps_same (stage_update stage thread_ids user_id).
Proof. succeeds_walk. Qed.

Lemma update_health_scores_succeeds thread_id :
  succeeds next_steps_same (update_health_scores thread_id).
Proof. succeeds_walk. Qed.

(** ** The duplicate check and the rows a run stores *)

Lemma check_next_step_exists_ok thread_id description w :
  faults w = [] ->
  Py.truthy description = true ->
  check_next_step_exists thread_id description w
  = (inr (is_duplicate thread_id (t_next_steps (tables w)) description),
     {| tables := tables w; trace := NextStepSelect thread_id :: trace w;
        faults := []; clock := clock w |}).
Proof.
  intros Hf Ht. unfold check_next_step_exists. rewrite Ht. cbn [negb].
  erewrite try_bind_ok; last first.
  { unfold next_step_select. rewrite call_ok by done. reflexivity. }
  unfold is_duplicate, stored_descriptions. cbn [fst snd].
  by destruct (map ns_description _).
Qed.

(** When the lookup itself raises, the check answers no: the step is taken
    as new. *)
Lemma check_next_step_exists_lookup_fails thread_id description w e plan :
  faults w = Some e :: plan ->
  Py.truthy description = true ->
  check_next_step_exists thread_id description w
  = (inr false,
     {| tables := tables w; trace := NextStepSelect thread_id :: trace w;
        faults := plan; clock := clock w |}).
Proof.
  intros Hf Ht. unfold check_next_step_exists. rewrite Ht. cbn [negb].
  unfold try_, bind, next_step_select, call. by rewrite Hf.
Qed.

Lemma next_steps_new_app id ds1 ds2 :
  next_steps_new id (ds1 ++ ds2)
  = next_steps_new id ds1 ++ next_steps_new (id + N.of_nat (length ds1))%N ds2.
Proof.
  revert id. induction ds1 as [|d ds1 IH]; intros id; cbn [next_steps_new app length].
  - by rewrite N.add_0_r.
  - rewrite IH. do 3 f_equal. lia.
Qed.

Section NextSteps.

Variable strptime_ymd : string -> option string.

(** The loop over [next_steps_data] reads the table and leaves it as it is. *)
Lemma collect_next_steps_ok user_id thread_id next_steps_data st w :
  faults w = [] ->
  exists skipped_count w',
    for_each next_steps_data (collect_next_step strptime_ymd user_id thread_id) st w
    = (inr (st.1 ++ steps_to_insert strptime_ymd user_id thread_id
                      (t_next_steps (tables w)) next_steps_data,
            skipped_count), w')
    /\ faults w' = [] /\ tables w' = tables w.
Proof.
  revert st w. induction next_steps_data as [|step rest IH]; intros st w Hf.
  - exists st.2, w. cbn. rewrite app_nil_r. by destruct st.
  - cbn [for_each steps_to_insert flat_map].
    fold (steps_to_insert strptime_ymd user_id thread_id
            (t_next_steps (tables w)) rest).
    unfold collect_next_step at 1.
    destruct (nsj_text step) as [description|]; cycle 1.
    { destruct (IH st w Hf) as (n & w' & E & Hf' & Ht). exists n, w'.
      erewrite bind_ok by reflexivity. by rewrite E. }
    destruct (Py.truthy description) eqn:Htr; cycle 1.
    { destruct (IH st w Hf) as (n & w' & E & Hf' & Ht). exists n, w'.
      erewrite bind_ok by reflexivity. by rewrite E. }
    cbn [andb].
    set (w1 := {| tables := tables w; trace := NextStepSelect thread_id :: trace w;
                  faults := []; clock := clock w |}).
    pose proof (check_next_step_exists_ok thread_id description w Hf Htr) as Hc.
    fold w1 in Hc.
    destruct (is_duplicate thread_id (t_next_steps (tables w)) description) eqn:Hd.
    + destruct (IH (st.1, st.2 + 1) w1 eq_refl) as (n & w' & E & Hf' & Ht).
      exists n, w'.
      erewrite bind_ok by (rewrite (bind_ok _ _ _ _ _ Hc); reflexivity).
      by rewrite E.
    + destruct (IH (st.1 ++ [next_step_data strptime_ymd user_id thread_id step
                               description], st.2) w1 eq_refl)
        as (n & w' & E & Hf' & Ht).
      exists n, w'.
      erewrite bind_ok by (rewrite (bind_ok _ _ _ _ _ Hc); reflexivity).
      rewrite E. cbn [fst snd negb tables w1]. by rewrite <- app_assoc.
Qed.

(** Step 5 on the next steps: the table gains the rows of the steps with a
    text that is not empty and not a duplicate, keys counted up from the
    counter, and nothing else of it changes. *)
Lemma persist_next_steps_ok user_id thread_id next_steps_data w :
  faults w = [] ->
  exists w',
    persist_next_steps strptime_ymd user_id thread_id next_steps_data w
    = (inr tt, w')
    /\ faults w' = []
    /\ t_next_steps (tables w')
       = t_next_steps (tables w)
         ++ next_steps_new (t_next_id (tables w))
              (steps_to_insert strptime_ymd user_id thread_id
                 (t_next_steps (tables w)) next_steps_data).
Proof.
  intros Hf. unfold persist_next_steps.
  destruct (collect_next_steps_ok user_id thread_id next_steps_data ([], 0) w Hf)
    as (n & w1 & E1 & Hf1 & Ht1).
  rewrite (bind_ok _ _ _ _ _ E1). cbn [fst app].
  destruct (steps_to_insert _ _ _ _ _) as [|d ds] eqn:Hds.
  - exists w1. cbn [next_steps_new]. by rewrite app_nil_r, Ht1.
  - destruct (create_assignments_succeeds user_id thread_id
                (next_steps_new (t_next_id (tables w1)) (d :: ds))
                {| tables := set_next_id
                               (t_next_id (tables w1) + N.of_nat (length (d :: ds)))%N
                               (set_next_steps
                                  (t_next_steps (tables w1)
                                   ++ next_steps_new (t_next_id (tables w1)) (d :: ds))
                                  (tables w1));
                   trace := NextStepInsert (map nsd_description (d :: ds)) :: trace w1;
                   faults := []; clock := clock w1 |} eq_refl)
      as ([] & w2 & E2 & Hf2 & [Hns Hid]).
    exists w2. erewrite bind_ok; last first.
    { unfold next_step_insert. rewrite call_ok by done. reflexivity. }
    cbn [fst snd]. rewrite E2. split; [done|]. split; [done|].
    rewrite Hns. cbn [tables]. by rewrite Ht1.
Qed.

End NextSteps.

Lemma build_transcript_readable messages participants :
  readable messages ->
  exists transcript, build_transcript messages participants = inr transcript.
Proof.
  intros [total_text Hr]. unfold build_transcript. rewrite Hr. cbv zeta.
  destruct (100000 <? estimate_tokens total_text); by eexists.
Qed.

Section AnalysisRuns.

Variable strptime_ymd : string -> option string.
Variable generate_content : string -> string.
Variable json_loads_analysis : string -> option Analysis.
Variable full_system_prompt : string.
Variable incremental_system_prompt : string -> string -> string.

(** Steps 2 to 5 with a store that does not fail, messages that can be
    read and a model that answers: the run returns, and the next steps
    table gains the rows of step 5 and nothing else. *)
Lemma analyze_messages_next_steps user_id thread_id analysis_mode old_summary
    messages analysis w :
  faults w = [] ->
  readable messages ->
  answers generate_content json_loads_analysis analysis ->
  exists result w',
    analyze_messages strptime_ymd generate_content json_loads_analysis
      full_system_prompt incremental_system_prompt
      user_id thread_id analysis_mode old_summary messages w
    = (inr result, w')
    /\ faults w' = []
    /\ t_next_steps (tables w')
       = t_next_steps (tables w)
         ++ next_steps_new (t_next_id (tables w))
              (steps_to_insert strptime_ymd user_id thread_id
                 (t_next_steps (tables w)) (an_next_steps analysis)).
Proof.
  intros Hf Hr Ha. unfold analyze_messages.
  destruct (load_participants_succeeds user_id thread_id w Hf)
    as (participants & w1 & E1 & Hf1 & [Hns1 Hid1]).
  rewrite (bind_ok _ _ _ _ _ E1).
  destruct (build_transcript_readable messages participants Hr) as [transcript Hb].
  rewrite Hb. cbn [lift]. erewrite bind_ok by reflexivity.
  destruct (Ha (full_prompt full_system_prompt incremental_system_prompt
                  analysis_mode old_summary transcript)) as [Hg Hj].
  erewrite bind_ok; last first.
  { unfold call_model. erewrite bind_ok; last first.
    { rewrite call_ok by done. reflexivity. }
    cbn [fst snd]. rewrite Hg. cbn [negb]. rewrite Hj. reflexivity. }
  erewrite bind_ok by reflexivity.
  lazymatch goal with
  | |- context [bind (thread_update ?p ?t ?u) _ ?W] =>
      destruct (thread_update_succeeds p t u W eq_refl)
        as ([] & w4 & E4 & Hf4 & [Hns4 Hid4])
  end.
  rewrite (bind_ok _ _ _ _ _ E4).
  destruct (persist_next_steps_ok strptime_ymd user_id thread_id
              (an_next_steps analysis) w4 Hf4) as (w5 & E5 & Hf5 & Hns5).
  rewrite (bind_ok _ _ _ _ _ E5).
  lazymatch goal with
  | |- context [bind (persist_feature_requests ?u ?t ?f) ?k ?W] =>
      assert (Htail : succeeds next_steps_same
                        (bind (persist_feature_requests u t f) k))
        by succeeds_walk;
      destruct (Htail W Hf5) as (result & w6 & E6 & Hf6 & [Hns6 Hid6])
  end.
  exists result, w6. split; [exact E6|]. split; [exact Hf6|].
  rewrite Hns6, Hns5, Hns4, Hid4. cbn [tables]. by rewrite Hns1, Hid1.
Qed.

End AnalysisRuns.

(** ** What counts as a duplicate *)


Lemma same_text_true text_lower existing :
  same_text text_lower existing = true
  <-> exists e, existing = Some e /\ Py.truthy e = true
                /\ Py.strip (Py.lower e) = text_lower.
Proof.
  unfold same_text. destruct existing as [e|].
  - rewrite andb_true_iff, String.eqb_eq. split.
    + intros [H1 H2]. by exists e.
    + intros (e' & [= <-] & H1 & H2). done.
  - split; [done|]. by intros (e & H & _).
Qed.

(** [check_next_step_exists] answers yes exactly when the table holds, for
    the thread, a description that is not empty and equal to the new one up
    to case and surrounding whitespace. *)
Lemma is_duplicate_spec thread_id stored description :
  is_duplicate thread_id stored description = true
  <-> exists e, Some e ∈ stored_descriptions thread_id stored
                /\ Py.truthy e = true /\ same_description e description.
Proof.
  unfold is_duplicate. rewrite existsb_exists. split.
  - intros (x & Hx & Hs). apply same_text_true in Hs as (e & -> & Ht & He).
    exists e. split; [by apply list_elem_of_In|]. done.
  - intros (e & He & Ht & Hs). exists (Some e). split; [by apply list_elem_of_In|].
    apply same_text_true. by exists e.
Qed.

Lemma is_duplicate_same thread_id stored d1 d2 :
  same_description d1 d2 ->
  is_duplicate thread_id stored d1 = is_duplicate thread_id stored d2.
Proof. unfold is_duplicate, same_description. by intros ->. Qed.





(** ** Next steps across runs and within a run *)


(** C10, as amended: with a store that does not fail, when the analysis
    holds two next steps whose texts are not empty and are equal up to
    case and surrounding whitespace, and no description stored for the
    thread equals them so, the run returns and the next steps table gains a
    row for each of the two, under two keys. *)
Theorem C10_both_steps_of_one_batch_are_inserted
    strptime_ymd generate_content json_loads_analysis
    full_system_prompt incremental_system_prompt user_id thread_id
    analysis_mode old_summary messages analysis w
    before step1 between step2 after d1 d2 :
  faults w = [] ->
  readable messages ->
  answers generate_content json_loads_analysis analysis ->
  an_next_steps analysis = before ++ step1 :: between ++ step2 :: after ->
  nsj_text step1 = Some d1 ->
  nsj_text step2 = Some d2 ->
  Py.truthy d1 = true ->
  Py.truthy d2 = true ->
  same_description d1 d2 ->
  (forall existing,
      Some existing ∈ stored_descriptions thread_id (t_next_steps (tables w)) ->
      ~ same_description existing d1) ->
  let run :=
    analyze_messages strptime_ymd generate_content json_loads_analysis
      full_system_prompt incremental_system_prompt user_id thread_id
      analysis_mode old_summary messages in
  (exists result, (run w).1 = inr result)
  /\ exists rows1 rows2 rows3 id1 id2,
       next_steps_after run w
       = t_next_steps (tables w)
         ++ rows1
         ++ next_step_new id1 (next_step_data strptime_ymd user_id thread_id step1 d1)
            :: rows2
         ++ next_step_new id2 (next_step_data strptime_ymd user_id thread_id step2 d2)
            :: rows3
       /\ (id1 < id2)%N.
Proof.
  intros Hf Hr Ha Hsteps Ht1 Ht2 Htr1 Htr2 Hsame Hnone. cbv zeta.
  unfold next_steps_after.
  destruct (analyze_messages_next_steps strptime_ymd generate_content
              json_loads_analysis full_system_prompt incremental_system_prompt
              user_id thread_id analysis_mode old_summary messages analysis w
              Hf Hr Ha) as (r & w1 & E & Hf1 & Hns).
  rewrite E. cbn [fst snd]. split; [by exists r|].
  assert (is_duplicate thread_id (t_next_steps (tables w)) d1 = false) as Hd1.
  { destruct (is_duplicate _ _ d1) eqn:Hdup; [|done].
    apply is_duplicate_spec in Hdup as (e & He & _ & Hs). by destruct (Hnone e He). }
  assert (is_duplicate thread_id (t_next_steps (tables w)) d2 = false) as Hd2
    by (by rewrite <- (is_duplicate_same _ _ _ _ Hsame)).
  rewrite Hns, Hsteps. unfold steps_to_insert.
  rewrite flat_map_app. cbn [flat_map]. rewrite flat_map_app. cbn [flat_map].
  rewrite Ht1, Ht2, Htr1, Htr2, Hd1, Hd2. cbn [andb negb app].
  rewrite next_steps_new_app. cbn [next_steps_new].
  rewrite next_steps_new_app. cbn [next_steps_new].
  eexists _, _, _, _, _. split; [reflexivity|]. lia.
Qed.

Lemma two_messages_readable : readable [january_message; august_message].
Proof. eexists. by vm_compute. Qed.


Lemma answers_constant analysis :
  answers (fun _ => "{...}") (fun _ => Some analysis) analysis.
Proof. intros prompt. by split. Qed.



(** C10 at work: one analysis with the steps "Follow up with legal" and
    "follow up with legal  " and an empty table: both are inserted, under
    the keys 100 and 101.  The same through [analyze_thread]. *)
Lemma C10_witness_two_variants_in_one_batch :
  (faults (legal_world []) = []
   /\ readable [january_message; august_message]
   /\ answers (fun _ => "{...}")
        (fun _ => Some (analysis_with ["Follow up with legal";
                                       "follow up with legal  "]))
        (analysis_with ["Follow up with legal"; "follow up with legal  "])
   /\ same_description "Follow up with legal" "follow up with legal  "
   /\ (forall existing,
          Some existing ∈ stored_descriptions "t1"
                            (t_next_steps (tables (legal_world []))) ->
          ~ same_description existing "Follow up with legal"))
  /\ (exists id1 id2,
         next_steps_after
           (run_with (analysis_with ["Follow up with legal";
                                     "follow up with legal  "]) "full" None
              [january_message; august_message])
           (legal_world [])
         = [stored_step id1 "Follow up with legal";
            stored_step id2 "follow up with legal  "]
         /\ (id1 < id2)%N)
  /\ next_steps_after
       (analyze_with (analysis_with ["Follow up with legal";
                                     "follow up with legal  "]) "u1" "t1")
       (legal_world [])
     = [stored_step 100%N "Follow up with legal";
        stored_step 101%N "follow up with legal  "].
Proof.
  assert (Hsame : same_description "Follow up with legal" "follow up with legal  ")
    by (by vm_compute).
  assert (Hnone : forall existing,
             Some existing ∈ stored_descriptions "t1"
                               (t_next_steps (tables (legal_world []))) ->
             ~ same_description existing "Follow up with legal").
  { intros existing H. by apply elem_of_nil in H. }
  split.
  { split; [reflexivity|]. split; [exact two_messages_readable|].
    split; [apply answers_constant|]. by split. }
  split; [|by vm_compute].
  destruct (C10_both_steps_of_one_batch_are_inserted
              (fun _ => None) (fun _ => "{...}")
              (fun _ => Some (analysis_with ["Follow up with legal";
                                             "follow up with legal  "]))
              "Analyze." (fun old_summary transcript => "Update.") "u1" "t1"
              "full" None [january_message; august_message]
              (analysis_with ["Follow up with legal"; "follow up with legal  "])
              (legal_world [])
              []
              {| nsj_text := Some "Follow up with legal"; nsj_owner := None;
                 nsj_due_date := None |}
              []
              {| nsj_text := Some "follow up with legal  "; nsj_owner := None;
                 nsj_due_date := None |}
              []
              "Follow up with legal" "follow up with legal  "
              eq_refl two_messages_readable (answers_constant _)
              eq_refl eq_refl eq_refl eq_refl eq_refl Hsame Hnone)
    as (_ & rows1 & rows2 & rows3 & id1 & id2 & Hrows & Hlt).
  exists id1, id2. split; [|exact Hlt].
  unfold run_with. rewrite Hrows.
  assert (Hlen : length (rows1 ++ next_step_new id1
                    (next_step_data (fun _ => None) "u1" "t1"
                       {| nsj_text := Some "Follow up with legal";
                          nsj_owner := None; nsj_due_date := None |}
                       "Follow up with legal")
                    :: rows2 ++ next_step_new id2
                    (next_step_data (fun _ => None) "u1" "t1"
                       {| nsj_text := Some "follow up with legal  ";
                          nsj_owner := None; nsj_due_date := None |}
                       "follow up with legal  ")
                    :: rows3) = 2%nat).
  { cbn [legal_world analysis_world tables t_next_steps app] in Hrows.
    rewrite <- Hrows. by vm_compute. }
  rewrite length_app in Hlen. cbn [length] in Hlen.
  rewrite length_app in Hlen. cbn [length] in Hlen.
  destruct rows1; [|cbn [length] in Hlen; lia].
  destruct rows2; [|cbn [length] in Hlen; lia].
  destruct rows3; [|cbn [length] in Hlen; lia].
  reflexivity.
Defined.

(** C10, as stated, fails: the analysis holds two steps whose text is
    empty, the table holds nothing for the thread, and the run stores no
    row. *)
Lemma C10_counterexample_empty_texts :
  same_description "" ""
  /\ stored_descriptions "t1" (t_next_steps (tables (legal_world []))) = []
  /\ (analyze_with (analysis_with [""; ""]) "u1" "t1" (legal_world [])).1
     = inr {| ar_success := true; ar_thread_id := "t1"; ar_errors := [];
              ar_analysis :=
                Some (AnalysisDone "full" None (Some "Timeline") (Some "Neutral")
                        (Some 0) None 2 0 "2024-07-01T09:00:00") |}
  /\ next_steps_after (analyze_with (analysis_with [""; ""]) "u1" "t1")
       (legal_world [])
     = [].
Proof. repeat split; by vm_compute. Qed.
(** ** Runs that raise *)

Lemma bind_raise {A B} (m : M A) (k : A -> M B) w e w1 :
  m w = (inl e, w1) -> bind m k w = (inl e, w1).
Proof. intros H. unfold bind. by rewrite H. Qed.

Lemma try_raise {A} (m : M A) h w e w1 :
  m w = (inl e, w1) -> try_ m h w = h e w1.
Proof. intros H. unfold try_. by rewrite H. Qed.

Lemma try_bind_raise {A B} (m : M A) (k : A -> M B) h w e w1 :
  m w = (inl e, w1) -> try_ (bind m k) h w = h e w1.
Proof. intros H. unfold try_, bind. by rewrite H. Qed.

(** A call that the plan lets fail: it raises what the plan holds and
    leaves the tables alone. *)
Lemma call_fails {A} c (effect : Tables -> (PyExn + A) * Tables) w e plan :
  faults w = Some e :: plan ->
  call c effect w
  = (inl e, {| tables := tables w; trace := c :: trace w; faults := plan;
               clock := clock w |}).
Proof. intros H. unfold call. by rewrite H. Qed.

(** A call that the plan lets through. *)
Lemma call_passes {A} c (effect : Tables -> (PyExn + A) * Tables) w :
  match faults w with Some _ :: _ => False | _ => True end ->
  call c effect w
  = ((effect (tables w)).1,
     {| tables := (effect (tables w)).2; trace := c :: trace w;
        faults := drop 1 (faults w); clock := clock w |}).
Proof.
  intros H. unfold call.
  destruct (faults w) as [|[e|] plan]; [|done|]; by destruct (effect (tables w)).
Qed.

(** ** The clients

    A client is there or the service raises [ValueError] before any call. *)

Lemma ret_bind {A B} (a : A) (k : A -> M B) : bind (ret a) k = k a.
Proof. reflexivity. Qed.

Lemma get_supabase_client_cases env :
  get_supabase_client env = ret tt
  \/ exists e, get_supabase_client env = raise e /\ exn_class e = ValueError.
Proof.
  unfold get_supabase_client.
  destruct (negb (Py.truthy_opt (Py.or_ (SUPABASE_URL env)
                                   (NEXT_PUBLIC_SUPABASE_URL env)))).
  - right. by eexists.
  - destruct (negb (Py.truthy_opt (SUPABASE_SERVICE_ROLE_KEY env))).
    + right. by eexists.
    + by left.
Qed.

Lemma get_gemini_client_cases env :
  get_gemini_client env = ret tt
  \/ exists e, get_gemini_client env = raise e /\ exn_class e = ValueError.
Proof.
  unfold get_gemini_client.
  destruct (negb (Py.truthy_opt (GEMINI_API_KEY env))).
  - right. by eexists.
  - by left.
Qed.

Lemma process_thread_entities_in_configured env json_loads :
  get_supabase_client env = ret tt ->
  process_thread_entities_in env json_loads = process_thread_entities json_loads.
Proof. intros H. unfold process_thread_entities_in. by rewrite H. Qed.

Lemma resolve_thread_entities_in_configured env json_loads :
  get_supabase_client env = ret tt ->
  resolve_thread_entities_in env json_loads = resolve_thread_entities json_loads.
Proof. intros H. unfold resolve_thread_entities_in. by rewrite H. Qed.

Lemma analyze_thread_in_configured env fromisoformat strptime_ymd generate_content
    json_loads_analysis full_system_prompt incremental_system_prompt :
  get_supabase_client env = ret tt ->
  get_gemini_client env = ret tt ->
  analyze_thread_in env fromisoformat strptime_ymd generate_content
    json_loads_analysis full_system_prompt incremental_system_prompt
  = analyze_thread fromisoformat strptime_ymd generate_content
      json_loads_analysis full_system_prompt incremental_system_prompt.
Proof. intros H1 H2. unfold analyze_thread_in. by rewrite H1, H2. Qed.

(** Without a client the analyzer raises and calls nothing. *)
Lemma analyze_thread_in_unconfigured env fromisoformat strptime_ymd
    generate_content json_loads_analysis full_system_prompt
    incremental_system_prompt user_id thread_id e :
  get_supabase_client env = raise e
  \/ (get_supabase_client env = ret tt /\ get_gemini_client env = raise e) ->
  analyze_thread_in env fromisoformat strptime_ymd generate_content
    json_loads_analysis full_system_prompt incremental_system_prompt
    user_id thread_id
  = raise e.
Proof.
  intros [H|[H1 H2]]; unfold analyze_thread_in.
  - by rewrite H.
  - by rewrite H1, H2.
Qed.

(** ** The analyzer: what leaves [analyze_thread] *)

Section AnalyzerReports.

Variable env : Env.
Variable fromisoformat : string -> option DateTime.
Variable strptime_ymd : string -> option string.
Variable generate_content : string -> string.
Variable json_loads_analysis : string -> option Analysis.
Variable full_system_prompt : string.
Variable incremental_system_prompt : string -> string -> string.

(** The handler of [analyze_thread]: the stage write is tried, the report
    is returned whatever becomes of the write. *)
Lemma analyze_thread_handler user_id thread_id (e : PyExn) w :
  exists w',
    (try_ (stage_update "failed" [thread_id] user_id ;;; ret tt) (fun _ => ret tt) ;;;
     ret (analysis_failed thread_id e)) w
    = (inr (analysis_failed thread_id e), w')
    /\ trace w' = StageUpdate "failed" [thread_id] user_id :: trace w.
Proof.
  unfold bind, try_, stage_update, call, ret.
  destruct (faults w) as [|[e'|] plan]; cbn; eexists; split; reflexivity.
Qed.

(** A run of [analyze_thread]: the report of the failure after the handler,
    or the report of the success. *)
Lemma analyze_thread_run user_id thread_id w :
  (exists e w1 w',
      analyze_thread fromisoformat strptime_ymd generate_content
        json_loads_analysis full_system_prompt incremental_system_prompt
        user_id thread_id w
      = (inr (analysis_failed thread_id e), w')
      /\ trace w' = StageUpdate "failed" [thread_id] user_id :: trace w1)
  \/ (exists a w1,
        analyze_thread fromisoformat strptime_ymd generate_content
          json_loads_analysis full_system_prompt incremental_system_prompt
          user_id thread_id w
        = (inr {| ar_success := true; ar_thread_id := thread_id; ar_errors := [];
                  ar_analysis := Some a |}, w1)).
Proof.
  unfold analyze_thread.
  destruct (analyze_selected fromisoformat strptime_ymd generate_content
              json_loads_analysis full_system_prompt incremental_system_prompt
              user_id thread_id w) as [[e|a] w1] eqn:Hrun.
  - left. destruct (analyze_thread_handler user_id thread_id e w1) as (w' & E & Ht).
    exists e, w1, w'. rewrite (try_bind_raise _ _ _ _ _ _ Hrun).
    split; [exact E | exact Ht].
  - right. exists a, w1. rewrite (try_bind_ok _ _ _ _ _ _ Hrun). reflexivity.
Qed.

(** X1: with its two clients configured, [analyze_thread] raises nothing,
    whatever the store and the model do: it returns a report for the
    thread, either a success with an analysis and no error, or a failure
    with no analysis and the one message "Error analyzing thread <id>:
    <str(e)>", and then the last call it made was the stage write [failed].
    When a setting of a client is missing it raises the [ValueError] of
    [get_supabase_client] or [get_gemini_client] instead: nothing is
    called, no report is returned and the stage stays as it is. *)
Theorem X1_analyze_thread_always_reports user_id thread_id w :
  (get_supabase_client env = ret tt ->
   get_gemini_client env = ret tt ->
   exists report,
     (analyze_thread_in env fromisoformat strptime_ymd generate_content
        json_loads_analysis full_system_prompt incremental_system_prompt
        user_id thread_id w).1 = inr report
     /\ ar_thread_id report = thread_id
     /\ ((ar_success report = true /\ ar_errors report = []
          /\ is_Some (ar_analysis report))
         \/ exists e earlier,
             report = analysis_failed thread_id e
             /\ trace (analyze_thread_in env fromisoformat strptime_ymd
                         generate_content json_loads_analysis full_system_prompt
                         incremental_system_prompt user_id thread_id w).2
                = StageUpdate "failed" [thread_id] user_id :: earlier))
  /\ (forall e,
        get_supabase_client env = raise e
        \/ (get_supabase_client env = ret tt /\ get_gemini_client env = raise e) ->
        analyze_thread_in env fromisoformat strptime_ymd generate_content
          json_loads_analysis full_system_prompt incremental_system_prompt
          user_id thread_id w
        = (inl e, w)).
Proof.
  split.
  - intros Hs Hm. rewrite (analyze_thread_in_configured _ _ _ _ _ _ _ Hs Hm).
    destruct (analyze_thread_run user_id thread_id w)
      as [(e & w1 & w' & E & Ht)|(a & w1 & E)]; rewrite E; cbn [fst snd].
    + exists (analysis_failed thread_id e). split; [done|]. split; [done|].
      right. by exists e, (trace w1).
    + eexists. split; [reflexivity|]. split; [reflexivity|]. left. by eauto.
  - intros e H. by rewrite (analyze_thread_in_unconfigured _ _ _ _ _ _ _ _ _ _ H).
Qed.

(** What the handler does when the store does not fail. *)
Lemma analyze_thread_handler_ok user_id thread_id (e : PyExn) w :
  faults w = [] ->
  (try_ (stage_update "failed" [thread_id] user_id ;;; ret tt) (fun _ => ret tt) ;;;
   ret (analysis_failed thread_id e)) w
  = (inr (analysis_failed thread_id e), failed_after [] user_id thread_id w).
Proof.
  intros Hf. erewrite bind_ok; last first.
  { apply try_ok. erewrite bind_ok; last first.
    { unfold stage_update. rewrite call_ok by done. reflexivity. }
    reflexivity. }
  reflexivity.
Qed.

(** X2: with the clients configured and a store that does not fail, a
    thread that has no row, or a row and no message, is not analyzed:
    [analyze_thread] reads the thread (and the messages), writes the stage
    [failed] and reports the failure "Thread <id> not found for user
    <user>" or "No messages found for thread <id>".  The model is not
    called and no other table changes. *)
Theorem X2_analyze_thread_without_thread_or_messages user_id thread_id w :
  get_supabase_client env = ret tt ->
  get_gemini_client env = ret tt ->
  faults w = [] ->
  (filter (fun r => Is_true (thread_matches thread_id user_id r))
     (t_threads (tables w)) = [] ->
   analyze_thread_in env fromisoformat strptime_ymd generate_content
     json_loads_analysis full_system_prompt incremental_system_prompt
     user_id thread_id w
   = (inr (analysis_failed thread_id
             (value_error ("Thread " +:+ thread_id +:+ " not found for user "
                           +:+ user_id))),
      failed_after [ThreadSelect thread_id user_id] user_id thread_id w))
  /\ (forall thread_data,
        filter (fun r => Is_true (thread_matches thread_id user_id r))
          (t_threads (tables w)) = [thread_data] ->
        messages_read user_id thread_id w = [] ->
        analyze_thread_in env fromisoformat strptime_ymd generate_content
          json_loads_analysis full_system_prompt incremental_system_prompt
          user_id thread_id w
        = (inr (analysis_failed thread_id
                  (value_error ("No messages found for thread " +:+ thread_id))),
           failed_after [MessageSelect [thread_id] user_id;
                         ThreadSelect thread_id user_id] user_id thread_id w)).
Proof.
  intros Hs Hm Hf. rewrite (analyze_thread_in_configured _ _ _ _ _ _ _ Hs Hm).
  split.
  - intros Hnone. unfold analyze_thread, analyze_selected.
    erewrite try_bind_raise; last first.
    { erewrite bind_ok; last first.
      { unfold thread_select. rewrite call_ok by done. rewrite Hnone. reflexivity. }
      reflexivity. }
    fold (analysis_failed thread_id
            (value_error ("Thread " +:+ thread_id +:+ " not found for user "
                          +:+ user_id))).
    by rewrite analyze_thread_handler_ok.
  - intros thread_data Hone Hmsgs. unfold analyze_thread, analyze_selected.
    erewrite try_bind_raise; last first.
    { rewrite (analyze_selected_reads user_id thread_id w thread_data
                 (fun thread_data messages => _) Hf Hone).
      cbv beta. rewrite Hmsgs. reflexivity. }
    fold (analysis_failed thread_id
            (value_error ("No messages found for thread " +:+ thread_id))).
    by rewrite analyze_thread_handler_ok.
Qed.

End AnalyzerReports.

(** ** Health scores: best effort *)

(** A read that the plan lets through, and one that it lets fail. *)
Lemma read_passes {A} c (f : Tables -> A) w :
  match faults w with Some _ :: _ => False | _ => True end ->
  call c (fun t => (inr (f t), t)) w = (inr (f (tables w)), after_calls [c] w).
Proof. intros H. by rewrite call_passes. Qed.

Lemma read_fails {A} c (effect : Tables -> (PyExn + A) * Tables) w e plan :
  faults w = Some e :: plan ->
  call c effect w = (inl e, after_calls [c] w).
Proof.
  intros H. rewrite (call_fails _ _ _ _ _ H). unfold after_calls. cbn.
  by rewrite H.
Qed.

Lemma after_calls_nil w : after_calls [] w = w.
Proof. by destruct w. Qed.

Lemma after_calls_app new1 new2 w :
  after_calls new2 (after_calls new1 w) = after_calls (new2 ++ new1) w.
Proof.
  unfold after_calls. cbn [tables trace faults clock].
  f_equal; [by rewrite app_assoc|].
  rewrite drop_drop, length_app. f_equal. lia.
Qed.

(** A call that changes no table and whose failure is swallowed. *)
Lemma swallowed_call {A} c (a : A) w :
  try_ (call c (fun t => (inr a, t))) (fun e => ret a) w
  = (inr a, after_calls [c] w).
Proof.
  unfold try_, call, ret, after_calls.
  destruct (faults w) as [|[e|] plan]; reflexivity.
Qed.

Lemma health_scores_loop company_ids w :
  for_each company_ids
    (fun company_id _ => try_ (health_score_rpc company_id) (fun e => ret tt)) tt w
  = (inr tt, after_calls (rev (map HealthScoreRpc company_ids)) w).
Proof.
  revert w. induction company_ids as [|c company_ids IH]; intros w.
  - cbn. by rewrite after_calls_nil.
  - cbn [for_each map rev]. erewrite bind_ok; last first.
    { unfold health_score_rpc. apply swallowed_call. }
    by rewrite IH, after_calls_app.
Qed.

(** X3: the update of the health scores is best effort.  It raises
    nothing, whatever the store does, and writes to the store only through
    the procedure that recalculates a score.  When the read of the links
    fails it stops there; otherwise every company linked to the thread
    gets its call, in the order of the links, whether or not the calls
    before it failed. *)
Theorem X3_health_scores_are_best_effort thread_id w :
  update_health_scores thread_id w
  = (inr tt,
     after_calls
       match faults w with
       | Some _ :: _ => [LinkSelect thread_id]
       | _ => rev (map HealthScoreRpc (linked_companies thread_id (tables w)))
              ++ [LinkSelect thread_id]
       end w).
Proof.
  unfold update_health_scores, link_select.
  destruct (faults w) as [|[e|] plan] eqn:Hf.
  - erewrite try_bind_ok by (apply read_passes; by rewrite Hf).
    rewrite (try_ok _ _ _ _ _ (health_scores_loop _ _)).
    by rewrite after_calls_app.
  - erewrite try_bind_raise by (by eapply read_fails).
    reflexivity.
  - erewrite try_bind_ok by (apply read_passes; by rewrite Hf).
    rewrite (try_ok _ _ _ _ _ (health_scores_loop _ _)).
    by rewrite after_calls_app.
Qed.

(** ** The analysis job *)

Section JobRuns.

Variable env : Env.
Variable fromisoformat : string -> option DateTime.
Variable strptime_ymd : string -> option string.
Variable generate_content : string -> string.
Variable json_loads_analysis : string -> option Analysis.
Variable full_system_prompt : string.
Variable incremental_system_prompt : string -> string -> string.

(** The handler of the job: the stage write is tried, then the exception
    is raised again. *)
Lemma job_handler {A} user_id thread_id (e : PyExn) w :
  exists w',
    (try_ (stage_update "failed" [thread_id] user_id ;;; ret tt) (fun _ => ret tt) ;;;
     @raise A e) w
    = (inl e, w')
    /\ trace w' = StageUpdate "failed" [thread_id] user_id :: trace w.
Proof.
  unfold bind, try_, stage_update, call, ret, raise.
  destruct (faults w) as [|[e'|] plan]; cbn; eexists; split; reflexivity.
Qed.

(** The world after the stage write [analyzing] that opens the job. *)
Lemma analyzing_written thread_id user_id w :
  match faults w with Some _ :: _ => False | _ => True end ->
  stage_update "analyzing" [thread_id] user_id w
  = (inr (filter (fun r => Is_true (stage_matches [thread_id] user_id r))
            (map (stage_set "analyzing" [thread_id] user_id)
               (t_stages (tables w)))),
     {| tables := set_stages
                    (map (stage_set "analyzing" [thread_id] user_id)
                       (t_stages (tables w))) (tables w);
        trace := StageUpdate "analyzing" [thread_id] user_id :: trace w;
        faults := drop 1 (faults w); clock := clock w |}).
Proof. intros H. unfold stage_update. by rewrite call_passes. Qed.

(** The job with a payload that has both ids, from the client on. *)
Lemma job_opens thread_id user_id :
  Py.truthy thread_id = true ->
  Py.truthy user_id = true ->
  run_analyze_thread_job env fromisoformat strptime_ymd generate_content
    json_loads_analysis full_system_prompt incremental_system_prompt
    {| payload_thread_id := Some thread_id; payload_user_id := Some user_id |}
  = (get_supabase_client env ;;;
     try_
       (stage_update "analyzing" [thread_id] user_id ;;;
        analyze_thread_in env fromisoformat strptime_ymd generate_content
          json_loads_analysis full_system_prompt incremental_system_prompt
          user_id thread_id)
       (fun e =>
          try_ (stage_update "failed" [thread_id] user_id ;;; ret tt)
               (fun _ => ret tt) ;;;
          raise e)).
Proof.
  intros Ht Hu. unfold run_analyze_thread_job.
  cbn [Py.truthy_opt payload_thread_id payload_user_id]. by rewrite Ht, Hu.
Qed.

(** Without a client of the store the job raises and calls nothing. *)
Lemma job_without_store thread_id user_id w e :
  Py.truthy thread_id = true ->
  Py.truthy user_id = true ->
  get_supabase_client env = raise e ->
  run_analyze_thread_job env fromisoformat strptime_ymd generate_content
    json_loads_analysis full_system_prompt incremental_system_prompt
    {| payload_thread_id := Some thread_id; payload_user_id := Some user_id |} w
  = (inl e, w).
Proof. intros Ht Hu Hs. rewrite (job_opens _ _ Ht Hu), Hs. reflexivity. Qed.

(** The job when its first write goes through and both clients are there:
    it is the analysis. *)
Lemma job_passes thread_id user_id w :
  Py.truthy thread_id = true ->
  Py.truthy user_id = true ->
  get_supabase_client env = ret tt ->
  get_gemini_client env = ret tt ->
  match faults w with Some _ :: _ => False | _ => True end ->
  run_analyze_thread_job env fromisoformat strptime_ymd generate_content
    json_loads_analysis full_system_prompt incremental_system_prompt
    {| payload_thread_id := Some thread_id; payload_user_id := Some user_id |} w
  = analyze_thread fromisoformat strptime_ymd generate_content
      json_loads_analysis full_system_prompt incremental_system_prompt
      user_id thread_id
      {| tables := set_stages
                     (map (stage_set "analyzing" [thread_id] user_id)
                        (t_stages (tables w))) (tables w);
         trace := StageUpdate "analyzing" [thread_id] user_id :: trace w;
         faults := drop 1 (faults w); clock := clock w |}.
Proof.
  intros Ht Hu Hs Hm Hf. rewrite (job_opens _ _ Ht Hu), Hs, ret_bind.
  rewrite (analyze_thread_in_configured _ _ _ _ _ _ _ Hs Hm).
  rewrite (try_bind_ok _ _ _ _ _ _ (analyzing_written thread_id user_id w Hf)).
  set (w1 := {| tables := _; trace := _; faults := _; clock := _ |}).
  destruct (analyze_thread_run fromisoformat strptime_ymd generate_content
              json_loads_analysis full_system_prompt incremental_system_prompt
              user_id thread_id w1)
    as [(e & w2 & w' & E & _)|(a & w2 & E)].
  all: by rewrite (try_ok _ _ _ _ _ E), E.
Qed.

(** The job when its first write fails: the failure is raised again, after
    the attempt to write [failed]. *)
Lemma job_fails thread_id user_id w e plan :
  Py.truthy thread_id = true ->
  Py.truthy user_id = true ->
  get_supabase_client env = ret tt ->
  faults w = Some e :: plan ->
  exists w',
    run_analyze_thread_job env fromisoformat strptime_ymd generate_content
      json_loads_analysis full_system_prompt incremental_system_prompt
      {| payload_thread_id := Some thread_id; payload_user_id := Some user_id |} w
    = (inl e, w')
    /\ trace w' = [StageUpdate "failed" [thread_id] user_id;
                   StageUpdate "analyzing" [thread_id] user_id] ++ trace w.
Proof.
  intros Ht Hu Hs Hf. rewrite (job_opens _ _ Ht Hu), Hs, ret_bind.
  assert (Hw : stage_update "analyzing" [thread_id] user_id w
               = (inl e, after_calls [StageUpdate "analyzing" [thread_id] user_id] w)).
  { unfold stage_update. by eapply read_fails. }
  destruct (job_handler (A := AnalyzerReport) user_id thread_id e
              (after_calls [StageUpdate "analyzing" [thread_id] user_id] w))
    as (w' & E & Htr).
  exists w'. rewrite (try_bind_raise _ _ _ _ _ _ Hw). split; [exact E|].
  by rewrite Htr.
Qed.

(** The job when its first write goes through and the analyzer has no
    client of the model: the analyzer raises at once, and the job raises
    that again after the attempt to write [failed]. *)
Lemma job_without_model thread_id user_id w e :
  Py.truthy thread_id = true ->
  Py.truthy user_id = true ->
  get_supabase_client env = ret tt ->
  get_gemini_client env = raise e ->
  match faults w with Some _ :: _ => False | _ => True end ->
  exists w',
    run_analyze_thread_job env fromisoformat strptime_ymd generate_content
      json_loads_analysis full_system_prompt incremental_system_prompt
      {| payload_thread_id := Some thread_id; payload_user_id := Some user_id |} w
    = (inl e, w')
    /\ trace w' = [StageUpdate "failed" [thread_id] user_id;
                   StageUpdate "analyzing" [thread_id] user_id] ++ trace w.
Proof.
  intros Ht Hu Hs Hm Hf. rewrite (job_opens _ _ Ht Hu), Hs, ret_bind.
  rewrite (analyze_thread_in_unconfigured env _ _ _ _ _ _ user_id thread_id e)
    by (right; by split).
  rewrite (try_bind_ok _ _ _ _ _ _ (analyzing_written thread_id user_id w Hf)).
  set (w1 := {| tables := _; trace := _; faults := _; clock := _ |}).
  destruct (job_handler (A := AnalyzerReport) user_id thread_id e w1)
    as (w' & E & Htr).
  exists w'. split; [exact E|]. by rewrite Htr.
Qed.

(** X4: the job raises only before the analysis starts.  Without a thread
    id, or without a user id, in the payload it raises [ValueError] and
    calls nothing; likewise when the store has no client.  Otherwise it
    writes the stage [analyzing].  When that write fails, or when the
    analyzer finds no client of the model, the job tries to write [failed]
    and raises the failure again.  When the write goes through and the
    clients are there, the job is [analyze_thread] on the world the write
    leaves, and returns its report whatever happens then. *)
Theorem X4_job_raises_only_before_the_analysis payload w :
  (Py.truthy_opt (payload_thread_id payload) = false ->
   run_analyze_thread_job env fromisoformat strptime_ymd generate_content
     json_loads_analysis full_system_prompt incremental_system_prompt payload w
   = (inl (value_error "thread_id is required in payload"), w))
  /\ (Py.truthy_opt (payload_thread_id payload) = true ->
      Py.truthy_opt (payload_user_id payload) = false ->
      run_analyze_thread_job env fromisoformat strptime_ymd generate_content
        json_loads_analysis full_system_prompt incremental_system_prompt payload w
      = (inl (value_error "user_id is required in payload"), w))
  /\ (forall thread_id user_id,
        payload_thread_id payload = Some thread_id ->
        payload_user_id payload = Some user_id ->
        Py.truthy thread_id = true ->
        Py.truthy user_id = true ->
        (forall e,
           get_supabase_client env = raise e ->
           run_analyze_thread_job env fromisoformat strptime_ymd generate_content
             json_loads_analysis full_system_prompt incremental_system_prompt
             payload w
           = (inl e, w))
        /\ (get_supabase_client env = ret tt ->
            match faults w with
            | Some e :: plan =>
                (run_analyze_thread_job env fromisoformat strptime_ymd
                   generate_content json_loads_analysis full_system_prompt
                   incremental_system_prompt payload w).1 = inl e
                /\ new_calls
                     (run_analyze_thread_job env fromisoformat strptime_ymd
                        generate_content json_loads_analysis full_system_prompt
                        incremental_system_prompt payload) w
                   = [StageUpdate "failed" [thread_id] user_id;
                      StageUpdate "analyzing" [thread_id] user_id]
            | _ =>
                (forall e,
                   get_gemini_client env = raise e ->
                   (run_analyze_thread_job env fromisoformat strptime_ymd
                      generate_content json_loads_analysis full_system_prompt
                      incremental_system_prompt payload w).1 = inl e
                   /\ new_calls
                        (run_analyze_thread_job env fromisoformat strptime_ymd
                           generate_content json_loads_analysis
                           full_system_prompt incremental_system_prompt payload) w
                      = [StageUpdate "failed" [thread_id] user_id;
                         StageUpdate "analyzing" [thread_id] user_id])
                /\ (get_gemini_client env = ret tt ->
                    run_analyze_thread_job env fromisoformat strptime_ymd
                      generate_content json_loads_analysis full_system_prompt
                      incremental_system_prompt payload w
                    = analyze_thread fromisoformat strptime_ymd generate_content
                        json_loads_analysis full_system_prompt
                        incremental_system_prompt user_id thread_id
                        {| tables := set_stages
                                       (map (stage_set "analyzing" [thread_id] user_id)
                                          (t_stages (tables w))) (tables w);
                           trace := StageUpdate "analyzing" [thread_id] user_id
                                    :: trace w;
                           faults := drop 1 (faults w); clock := clock w |}
                    /\ exists report,
                        (run_analyze_thread_job env fromisoformat strptime_ymd
                           generate_content json_loads_analysis
                           full_system_prompt incremental_system_prompt
                           payload w).1 = inr report)
            end)).
Proof.
  split; [|split].
  - intros H. unfold run_analyze_thread_job. by rewrite H.
  - intros H1 H2. unfold run_analyze_thread_job. by rewrite H1, H2.
  - intros thread_id user_id Hthread Huser Ht Hu.
    destruct payload as [pt pu]. cbn in Hthread, Huser. subst pt pu.
    split; [intros e Hs; by apply job_without_store|]. intros Hs.
    assert (Hpass : match faults w with Some _ :: _ => False | _ => True end ->
              (forall e,
                 get_gemini_client env = raise e ->
                 (run_analyze_thread_job env fromisoformat strptime_ymd
                    generate_content json_loads_analysis full_system_prompt
                    incremental_system_prompt
                    {| payload_thread_id := Some thread_id;
                       payload_user_id := Some user_id |} w).1 = inl e
                 /\ new_calls
                      (run_analyze_thread_job env fromisoformat strptime_ymd
                         generate_content json_loads_analysis
                         full_system_prompt incremental_system_prompt
                         {| payload_thread_id := Some thread_id;
                            payload_user_id := Some user_id |}) w
                    = [StageUpdate "failed" [thread_id] user_id;
                       StageUpdate "analyzing" [thread_id] user_id])
              /\ (get_gemini_client env = ret tt ->
                  run_analyze_thread_job env fromisoformat strptime_ymd
                    generate_content json_loads_analysis full_system_prompt
                    incremental_system_prompt
                    {| payload_thread_id := Some thread_id;
                       payload_user_id := Some user_id |} w
                  = analyze_thread fromisoformat strptime_ymd generate_content
                      json_loads_analysis full_system_prompt
                      incremental_system_prompt user_id thread_id
                      {| tables := set_stages
                                     (map (stage_set "analyzing" [thread_id] user_id)
                                        (t_stages (tables w))) (tables w);
                         trace := StageUpdate "analyzing" [thread_id] user_id
                                  :: trace w;
                         faults := drop 1 (faults w); clock := clock w |}
                  /\ exists report,
                      (run_analyze_thread_job env fromisoformat strptime_ymd
                         generate_content json_loads_analysis
                         full_system_prompt incremental_system_prompt
                         {| payload_thread_id := Some thread_id;
                            payload_user_id := Some user_id |} w).1 = inr report)).
    { intros Hf. split.
      - intros e Hm.
        destruct (job_without_model thread_id user_id w e Ht Hu Hs Hm Hf)
          as (w' & E & Htr).
        split; [by rewrite E|]. apply new_calls_spec. by rewrite E.
      - intros Hm. rewrite (job_passes _ _ _ Ht Hu Hs Hm Hf).
        split; [reflexivity|].
        match goal with |- context [analyze_thread _ _ _ _ _ _ _ _ ?w1] =>
          destruct (analyze_thread_run fromisoformat strptime_ymd
                      generate_content json_loads_analysis full_system_prompt
                      incremental_system_prompt user_id thread_id w1)
            as [(e & w2 & w' & E & _)|(a & w2 & E)] end;
          rewrite E; by eexists. }
    destruct (faults w) as [|[e|] plan] eqn:Hf.
    + by apply Hpass.
    + destruct (job_fails thread_id user_id w e plan Ht Hu Hs Hf) as (w' & E & Htr).
      split; [by rewrite E|]. apply new_calls_spec. by rewrite E.
    + by apply Hpass.
Qed.

(** The job run in process by the trigger. *)
Lemma trigger_direct user_id thread_id w0 :
  Py.truthy thread_id = true ->
  Py.truthy user_id = true ->
  get_supabase_client env = ret tt ->
  get_gemini_client env = ret tt ->
  in_process
    (analyze_thread_in env fromisoformat strptime_ymd generate_content
       json_loads_analysis full_system_prompt incremental_system_prompt)
    user_id thread_id w0
    (try_
       (run_analyze_thread_job env fromisoformat strptime_ymd generate_content
          json_loads_analysis full_system_prompt incremental_system_prompt
          {| payload_thread_id := Some thread_id;
             payload_user_id := Some user_id |} ;;;
        ret tt)
       (fun e =>
          match exn_class e with
          | ImportError => ret tt
          | _ => raise e
          end) w0).
Proof.
  intros Ht Hu Hs Hm. unfold in_process.
  rewrite (analyze_thread_in_configured _ _ _ _ _ _ _ Hs Hm).
  destruct (faults w0) as [|[e|] plan] eqn:Hf.
  - destruct (analyze_thread_run fromisoformat strptime_ymd generate_content
                json_loads_analysis full_system_prompt incremental_system_prompt
                user_id thread_id (after_analyzing_write user_id thread_id w0))
      as [(e & w2 & w' & E & _)|(a & w2 & E)].
    all: erewrite try_bind_ok
      by (rewrite job_passes by (done || by rewrite Hf); exact E).
    all: by rewrite E.
  - destruct (job_fails thread_id user_id w0 e plan Ht Hu Hs Hf) as (w' & E & _).
    rewrite (try_bind_raise _ _ _ _ _ _ E). by destruct (exn_class e).
  - destruct (analyze_thread_run fromisoformat strptime_ymd generate_content
                json_loads_analysis full_system_prompt incremental_system_prompt
                user_id thread_id (after_analyzing_write user_id thread_id w0))
      as [(e & w2 & w' & E & _)|(a & w2 & E)].
    all: erewrite try_bind_ok
      by (rewrite job_passes by (done || by rewrite Hf); exact E).
    all: by rewrite E.
Qed.

(** X5: what triggering the job comes to when both ids are there and the
    clients are configured.  With an API key and a request that goes
    through, it is that one request.  Without a key, or when the request
    fails, the job runs in process: the trigger returns only when
    [analyze_thread] has run, on the world the stage write [analyzing]
    left; it raises only what the first write of the job raises, and not
    even that when it is an [ImportError]. *)
Theorem X5_trigger_without_transport_runs_the_analysis user_id thread_id w :
  Py.truthy thread_id = true ->
  Py.truthy user_id = true ->
  get_supabase_client env = ret tt ->
  get_gemini_client env = ret tt ->
  if Py.truthy_opt (TRIGGER_API_KEY env) then
    match faults w with
    | Some _ :: _ =>
        in_process
          (analyze_thread_in env fromisoformat strptime_ymd generate_content
             json_loads_analysis full_system_prompt incremental_system_prompt)
          user_id thread_id (after_calls [TriggerJob user_id thread_id] w)
          (trigger_analyze_thread_job_paths env fromisoformat strptime_ymd
             generate_content json_loads_analysis full_system_prompt
             incremental_system_prompt user_id thread_id w)
    | _ =>
        trigger_analyze_thread_job_paths env fromisoformat strptime_ymd
          generate_content json_loads_analysis full_system_prompt
          incremental_system_prompt user_id thread_id w
        = (inr tt, after_calls [TriggerJob user_id thread_id] w)
    end
  else
    in_process
      (analyze_thread_in env fromisoformat strptime_ymd generate_content
         json_loads_analysis full_system_prompt incremental_system_prompt)
      user_id thread_id w
      (trigger_analyze_thread_job_paths env fromisoformat strptime_ymd
         generate_content json_loads_analysis full_system_prompt
         incremental_system_prompt user_id thread_id w).
Proof.
  intros Ht Hu Hs Hm. unfold trigger_analyze_thread_job_paths.
  destruct (Py.truthy_opt (TRIGGER_API_KEY env)); [|by apply trigger_direct].
  unfold trigger_analyze_thread_job.
  destruct (faults w) as [|[e|] plan] eqn:Hf.
  - apply try_ok. apply (read_passes _ (fun _ => tt)). by rewrite Hf.
  - erewrite try_raise by (by eapply read_fails). by apply trigger_direct.
  - apply try_ok. apply (read_passes _ (fun _ => tt)). by rewrite Hf.
Qed.

End JobRuns.

(** ** Feature requests: the duplicate check *)

Lemma check_feature_request_exists_run thread_id title w :
  check_feature_request_exists thread_id title w
  = if negb (Py.truthy title) then (inr false, w)
    else (inr match faults w with
              | Some _ :: _ => false
              | _ => is_duplicate_title thread_id
                       (t_feature_requests (tables w)) title
              end,
          after_calls [FeatureRequestSelect thread_id] w).
Proof.
  unfold check_feature_request_exists.
  destruct (Py.truthy title); cbn [negb]; [|reflexivity].
  unfold feature_request_select, is_duplicate_title, stored_titles.
  destruct (faults w) as [|[e|] plan] eqn:Hf.
  - erewrite try_bind_ok by (apply read_passes; by rewrite Hf).
    by destruct (map fr_title _).
  - by erewrite try_bind_raise by (by eapply read_fails).
  - erewrite try_bind_ok by (apply read_passes; by rewrite Hf).
    by destruct (map fr_title _).
Qed.

Lemma stored_titles_elem thread_id stored x :
  x ∈ stored_titles thread_id stored
  <-> exists r, r ∈ stored /\ fr_thread_id r = thread_id /\ fr_title r = x.
Proof.
  unfold stored_titles. rewrite list_elem_of_In, in_map_iff. split.
  - intros (r & Hx & Hr). apply list_elem_of_In, list_elem_of_filter in Hr.
    destruct Hr as [Ht Hr]. exists r. split; [done|]. split; [|done].
    by apply String.eqb_eq, Is_true_true.
  - intros (r & Hr & Ht & Hx). exists r. split; [done|].
    apply list_elem_of_In, list_elem_of_filter. split; [|done].
    by apply Is_true_true, String.eqb_eq.
Qed.

Lemma is_duplicate_title_spec thread_id stored title :
  is_duplicate_title thread_id stored title = true
  <-> exists e, Some e ∈ stored_titles thread_id stored
                /\ Py.truthy e = true /\ same_description e title.
Proof.
  unfold is_duplicate_title. rewrite existsb_exists. split.
  - intros (x & Hx & Hs). apply same_text_true in Hs as (e & -> & Ht & He).
    exists e. split; [by apply list_elem_of_In|]. done.
  - intros (e & He & Ht & Hs). exists (Some e). split; [by apply list_elem_of_In|].
    apply same_text_true. by exists e.
Qed.

(** X6: [check_feature_request_exists] raises nothing and changes no
    table.  For an empty title it answers no without a call.  Otherwise
    it reads the titles of the thread once; when the read fails it answers
    no, and when it goes through it answers yes exactly when a stored title
    of the thread that is not empty equals the new one up to letter case
    and surrounding whitespace. *)
Theorem X6_feature_request_check thread_id title w :
  check_feature_request_exists thread_id title w
  = (if negb (Py.truthy title) then (inr false, w)
     else (inr match faults w with
               | Some _ :: _ => false
               | _ => is_duplicate_title thread_id
                        (t_feature_requests (tables w)) title
               end,
           after_calls [FeatureRequestSelect thread_id] w))
  /\ (is_duplicate_title thread_id (t_feature_requests (tables w)) title = true
      <-> exists existing r,
            r ∈ t_feature_requests (tables w)
            /\ fr_thread_id r = thread_id
            /\ fr_title r = Some existing
            /\ Py.truthy existing = true
            /\ same_description existing title).
Proof.
  split; [apply check_feature_request_exists_run|].
  rewrite is_duplicate_title_spec. split.
  - intros (e & He & Ht & Hs). apply stored_titles_elem in He as (r & Hr & H1 & H2).
    by exists e, r.
  - intros (e & r & Hr & H1 & H2 & Ht & Hs). exists e. split; [|done].
    apply stored_titles_elem. by exists r.
Qed.

(** ** What steps 2 to 5 write *)

Lemma world_eta w :
  {| tables := tables w; trace := trace w; faults := faults w; clock := clock w |} = w.
Proof. by destruct w. Qed.

Lemma set_next_steps_same t : set_next_steps (t_next_steps t) t = t.
Proof. by destruct t. Qed.

Lemma next_steps_written_nil user_id thread_id t :
  next_steps_written user_id thread_id [] t = t.
Proof.
  unfold next_steps_written. cbn [next_steps_new assignments_of flat_map length].
  destruct t. cbn. by rewrite !app_nil_r, N.add_0_r.
Qed.

Lemma set_feature_requests_nil t :
  set_feature_requests (t_feature_requests t ++ []) t = t.
Proof. destruct t. cbn. by rewrite app_nil_r. Qed.

(** The assignments of the inserted steps, with a store that does not
    fail. *)
Lemma create_assignments_ok user_id thread_id inserted_steps w :
  faults w = [] ->
  exists w',
    create_assignments user_id thread_id inserted_steps w = (inr tt, w')
    /\ faults w' = [] /\ clock w' = clock w
    /\ tables w'
       = set_assignments
           (t_assignments (tables w)
            ++ assignments_of (thread_customers user_id thread_id (tables w))
                 inserted_steps) (tables w).
Proof.
  intros Hf. unfold create_assignments.
  destruct inserted_steps as [|step rest].
  - exists w. cbn [assignments_of flat_map]. split; [done|]. split; [done|].
    split; [done|]. destruct (tables w). cbn. by rewrite app_nil_r.
  - erewrite bind_ok; last first.
    { unfold participant_select. rewrite call_ok by done. reflexivity. }
    cbn [fst snd].
    fold (thread_customers user_id thread_id (tables w)).
    fold (assignments_of (thread_customers user_id thread_id (tables w))
            (step :: rest)).
    destruct (assignments_of _ (step :: rest)) as [|a assignments] eqn:Ha.
    + eexists. split; [reflexivity|]. split; [done|]. split; [done|].
      cbn [tables]. destruct (tables w). cbn. by rewrite app_nil_r.
    + eexists. split.
      { apply try_ok. unfold assignment_insert. rewrite call_ok by done.
        reflexivity. }
      by cbn.
Qed.

Section Persisting.

Variable strptime_ymd : string -> option string.

(** Step 5 on the next steps, with a store that does not fail: the tables
    it leaves. *)
Lemma persist_next_steps_tables user_id thread_id next_steps_data w :
  faults w = [] ->
  exists w',
    persist_next_steps strptime_ymd user_id thread_id next_steps_data w
    = (inr tt, w')
    /\ faults w' = []
    /\ tables w'
       = next_steps_written user_id thread_id
           (steps_to_insert strptime_ymd user_id thread_id
              (t_next_steps (tables w)) next_steps_data) (tables w).
Proof.
  intros Hf. unfold persist_next_steps.
  destruct (collect_next_steps_ok strptime_ymd user_id thread_id next_steps_data
              ([], 0) w Hf) as (n & w1 & E1 & Hf1 & Ht1).
  rewrite (bind_ok _ _ _ _ _ E1). cbn [fst app].
  destruct (steps_to_insert _ _ _ _ _) as [|d ds] eqn:Hds.
  - exists w1. rewrite next_steps_written_nil. by split.
  - set (w2 := {| tables := set_next_id
                              (t_next_id (tables w1) + N.of_nat (length (d :: ds)))%N
                              (set_next_steps
                                 (t_next_steps (tables w1)
                                  ++ next_steps_new (t_next_id (tables w1)) (d :: ds))
                                 (tables w1));
                  trace := NextStepInsert (map nsd_description (d :: ds)) :: trace w1;
                  faults := []; clock := clock w1 |}).
    destruct (create_assignments_ok user_id thread_id
                (next_steps_new (t_next_id (tables w1)) (d :: ds)) w2 eq_refl)
      as (w3 & E3 & Hf3 & _ & Ht3).
    exists w3. erewrite bind_ok; last first.
    { unfold next_step_insert. rewrite call_ok by done. reflexivity. }
    cbn [fst snd]. fold w2. rewrite E3. split; [done|]. split; [done|].
    rewrite Ht3. unfold w2. cbn [tables]. rewrite Ht1. reflexivity.
Qed.

End Persisting.

Lemma collect_feature_requests_ok user_id thread_id feature_requests_data st w :
  faults w = [] ->
  exists skipped_count w',
    for_each feature_requests_data (collect_feature_request user_id thread_id) st w
    = (inr (st.1 ++ requests_to_insert user_id thread_id
                      (t_feature_requests (tables w)) feature_requests_data,
            skipped_count), w')
    /\ faults w' = [] /\ tables w' = tables w.
Proof.
  revert st w. induction feature_requests_data as [|fr rest IH]; intros st w Hf.
  - exists st.2, w. cbn. rewrite app_nil_r. by destruct st.
  - cbn [for_each requests_to_insert flat_map].
    fold (requests_to_insert user_id thread_id (t_feature_requests (tables w)) rest).
    unfold collect_feature_request at 1.
    destruct (frj_title fr) as [title|]; cycle 1.
    { destruct (IH st w Hf) as (n & w' & E & Hf' & Ht). exists n, w'.
      erewrite bind_ok by reflexivity. by rewrite E. }
    destruct (Py.truthy title) eqn:Htr; cycle 1.
    { destruct (IH st w Hf) as (n & w' & E & Hf' & Ht). exists n, w'.
      erewrite bind_ok by reflexivity. by rewrite E. }
    cbn [andb].
    pose proof (check_feature_request_exists_run thread_id title w) as Hc.
    rewrite Htr, Hf in Hc. cbn [negb] in Hc.
    destruct (is_duplicate_title thread_id (t_feature_requests (tables w)) title)
      eqn:Hd.
    + destruct (IH (st.1, st.2 + 1)
                  (after_calls [FeatureRequestSelect thread_id] w))
        as (n & w' & E & Hf' & Ht); [by cbn; rewrite Hf|].
      exists n, w'.
      erewrite bind_ok by (rewrite (bind_ok _ _ _ _ _ Hc); reflexivity).
      by rewrite E.
    + destruct (IH (st.1 ++ [feature_request_data user_id thread_id fr title], st.2)
                  (after_calls [FeatureRequestSelect thread_id] w))
        as (n & w' & E & Hf' & Ht); [by cbn; rewrite Hf|].
      exists n, w'.
      erewrite bind_ok by (rewrite (bind_ok _ _ _ _ _ Hc); reflexivity).
      rewrite E. cbn [fst snd negb tables after_calls]. by rewrite <- app_assoc.
Qed.

(** Step 5 on the feature requests, with a store that does not fail. *)
Lemma persist_feature_requests_tables user_id thread_id feature_requests_data w :
  faults w = [] ->
  exists w',
    persist_feature_requests user_id thread_id feature_requests_data w = (inr tt, w')
    /\ faults w' = []
    /\ tables w'
       = set_feature_requests
           (t_feature_requests (tables w)
            ++ requests_to_insert user_id thread_id
                 (t_feature_requests (tables w)) feature_requests_data)
           (tables w).
Proof.
  intros Hf. unfold persist_feature_requests.
  destruct (collect_feature_requests_ok user_id thread_id feature_requests_data
              ([], 0) w Hf) as (n & w1 & E1 & Hf1 & Ht1).
  rewrite (bind_ok _ _ _ _ _ E1). cbn [fst app].
  destruct (requests_to_insert _ _ _ _) as [|r rows] eqn:Hrows.
  - exists w1. rewrite set_feature_requests_nil. by split.
  - eexists. split.
    { unfold feature_request_insert. rewrite call_ok by done. reflexivity. }
    cbn [tables faults]. by rewrite Ht1.
Qed.

Lemma update_health_scores_ok thread_id w :
  faults w = [] ->
  exists w',
    update_health_scores thread_id w = (inr tt, w')
    /\ faults w' = [] /\ tables w' = tables w.
Proof.
  intros Hf. unfold update_health_scores, link_select.
  erewrite try_bind_ok by (apply read_passes; by rewrite Hf).
  rewrite (try_ok _ _ _ _ _ (health_scores_loop _ _)).
  eexists. split; [reflexivity|]. split; [|done].
  unfold after_calls. cbn [faults]. rewrite Hf. by rewrite !drop_nil.
Qed.

Lemma load_participants_ok user_id thread_id w :
  faults w = [] ->
  exists participants w',
    load_participants user_id thread_id w = (inr participants, w')
    /\ faults w' = [] /\ tables w' = tables w /\ clock w' = clock w.
Proof.
  intros Hf. unfold load_participants.
  erewrite bind_ok; last first.
  { unfold participant_select. rewrite call_ok by done. reflexivity. }
  cbn [fst snd]. destruct (map pa_customer_id _).
  - eexists _, _. split; [reflexivity|done].
  - erewrite bind_ok; last first.
    { unfold customer_select_in. rewrite call_ok by done. reflexivity. }
    eexists _, _. split; [reflexivity|done].
Qed.

Section AnalysisWrites.

Variable strptime_ymd : string -> option string.
Variable generate_content : string -> string.
Variable json_loads_analysis : string -> option Analysis.
Variable full_system_prompt : string.
Variable incremental_system_prompt : string -> string -> string.

(** Steps 2 to 5 with a store that does not fail, messages that can be
    read and a model that answers: the report and the tables, in full. *)
Lemma analyze_messages_written user_id thread_id analysis_mode old_summary
    messages analysis w :
  faults w = [] ->
  readable messages ->
  answers generate_content json_loads_analysis analysis ->
  exists w',
    analyze_messages strptime_ymd generate_content json_loads_analysis
      full_system_prompt incremental_system_prompt
      user_id thread_id analysis_mode old_summary messages w
    = (inr (AnalysisDone analysis_mode (an_problem_statement analysis)
              (an_timeline_summary analysis) (an_customer_sentiment analysis)
              (an_sentiment_score analysis) (an_resolution_status analysis)
              (Z.of_nat (length (an_next_steps analysis)))
              (Z.of_nat (length (an_feature_requests analysis)))
              (clock w)), w')
    /\ faults w' = []
    /\ tables w'
       = analysis_written strptime_ymd user_id thread_id analysis (clock w)
           (tables w).
Proof.
  intros Hf Hr Ha. unfold analyze_messages.
  destruct (load_participants_ok user_id thread_id w Hf)
    as (participants & w1 & E1 & Hf1 & Ht1 & Hc1).
  rewrite (bind_ok _ _ _ _ _ E1).
  destruct (build_transcript_readable messages participants Hr) as [transcript Hb].
  rewrite Hb. cbn [lift]. erewrite bind_ok by reflexivity.
  destruct (Ha (full_prompt full_system_prompt incremental_system_prompt
                  analysis_mode old_summary transcript)) as [Hg Hj].
  erewrite bind_ok; last first.
  { unfold call_model. erewrite bind_ok; last first.
    { rewrite call_ok by done. reflexivity. }
    cbn [fst snd]. rewrite Hg. cbn [negb]. rewrite Hj. reflexivity. }
  erewrite bind_ok by reflexivity.
  erewrite bind_ok; last first.
  { unfold thread_update. rewrite call_ok by done. reflexivity. }
  cbn [fst snd tables trace faults clock].
  lazymatch goal with
  | |- context [bind (persist_next_steps ?s ?u ?t ?l) _ ?W] =>
      destruct (persist_next_steps_tables s u t l W eq_refl)
        as (w5 & E5 & Hf5 & Ht5)
  end.
  rewrite (bind_ok _ _ _ _ _ E5).
  destruct (persist_feature_requests_tables user_id thread_id
              (an_feature_requests analysis) w5 Hf5) as (w6 & E6 & Hf6 & Ht6).
  rewrite (bind_ok _ _ _ _ _ E6).
  erewrite bind_ok; last first.
  { unfold stage_update. rewrite call_ok by done. reflexivity. }
  cbn [fst snd].
  lazymatch goal with
  | |- context [bind (update_health_scores ?t) _ ?W] =>
      destruct (update_health_scores_ok t W eq_refl) as (w8 & E8 & Hf8 & Ht8)
  end.
  rewrite (bind_ok _ _ _ _ _ E8).
  exists w8. rewrite Hc1. split; [reflexivity|]. split; [exact Hf8|].
  rewrite Ht8. cbn [tables]. rewrite Ht6, Ht5. cbn [tables].
  rewrite Ht1, Hc1. reflexivity.
Qed.

End AnalysisWrites.

(** ** A whole analysis *)

Section WholeAnalysis.

Variable env : Env.
Variable fromisoformat : string -> option DateTime.
Variable strptime_ymd : string -> option string.
Variable generate_content : string -> string.
Variable json_loads_analysis : string -> option Analysis.
Variable full_system_prompt : string.
Variable incremental_system_prompt : string -> string -> string.

(** [analyze_thread] on a thread it can analyze, with a model that answers:
    the report and the tables, in full. *)
Lemma analyze_thread_written user_id thread_id thread_data analysis w :
  analysable fromisoformat user_id thread_id thread_data w ->
  answers generate_content json_loads_analysis analysis ->
  exists w',
    analyze_thread fromisoformat strptime_ymd generate_content
      json_loads_analysis full_system_prompt incremental_system_prompt
      user_id thread_id w
    = (inr (analysis_done thread_id (mode_of thread_data) analysis (clock w)), w')
    /\ faults w' = []
    /\ tables w'
       = analysis_written strptime_ymd user_id thread_id analysis (clock w)
           (tables w).
Proof.
  intros (Hf & Hone & Hsel & Hr) Ha.
  unfold selected_messages in Hsel, Hr.
  assert (Hrun : exists messages,
             analyze_selected fromisoformat strptime_ymd generate_content
               json_loads_analysis full_system_prompt incremental_system_prompt
               user_id thread_id w
             = analyze_messages strptime_ymd generate_content json_loads_analysis
                 full_system_prompt incremental_system_prompt user_id thread_id
                 (mode_of thread_data) (th_summary thread_data) messages
                 (after_reads user_id thread_id w)
             /\ readable messages).
  { unfold analyze_selected.
    rewrite (analyze_selected_reads user_id thread_id w thread_data
               (fun thread_data messages => _) Hf Hone).
    cbv beta. unfold mode_of.
    destruct (th_last_analyzed_at thread_data) as [la|].
    - destruct (messages_read user_id thread_id w) as [|m ms] eqn:Hm; [done|].
      destruct (List.filter (keep_message fromisoformat la) (m :: ms))
        as [|k kept] eqn:Hk; [done|].
      by exists (k :: kept).
    - destruct (messages_read user_id thread_id w) as [|m ms] eqn:Hm; [done|].
      by exists (m :: ms). }
  destruct Hrun as (messages & Hrun & Hread).
  destruct (analyze_messages_written strptime_ymd generate_content
              json_loads_analysis full_system_prompt incremental_system_prompt
              user_id thread_id (mode_of thread_data) (th_summary thread_data)
              messages analysis (after_reads user_id thread_id w)
              eq_refl Hread Ha) as (w' & E & Hf' & Ht').
  exists w'. unfold analyze_thread. rewrite <- Hrun in E.
  rewrite (try_bind_ok _ _ _ _ _ _ E). split; [reflexivity|]. by split.
Qed.

Lemma lookup_map {A B} (f : A -> B) (l : list A) i :
  map f l !! i = f <$> l !! i.
Proof. change (map f l) with (f <$> l). apply list_lookup_fmap. Qed.

(** X7: an analysis that is done patches the row of the thread and no
    other thread row.  It always writes the time of the run to
    [last_analyzed_at]; the summary becomes the timeline summary when the
    model gave one that is not empty, else the problem statement when that
    is not empty, else stays; the sentiment, its score and the resolution
    status take the value of the model and keep their own where the model
    gave none; the problem statement and the timeline summary take the
    text the model gave. *)
Theorem X7_analysis_patches_the_thread_row
    user_id thread_id thread_data analysis w i r :
  get_supabase_client env = ret tt ->
  get_gemini_client env = ret tt ->
  analysable fromisoformat user_id thread_id thread_data w ->
  answers generate_content json_loads_analysis analysis ->
  t_threads (tables w) !! i = Some r ->
  exists r',
    t_threads
      (tables (analyze_thread_in env fromisoformat strptime_ymd generate_content
                 json_loads_analysis full_system_prompt
                 incremental_system_prompt user_id thread_id w).2) !! i
    = Some r'
    /\ if thread_matches thread_id user_id r then
         th_thread_id r' = th_thread_id r
         /\ th_user_id r' = th_user_id r
         /\ th_last_analyzed_at r' = Some (clock w)
         /\ th_summary r'
            = (if Py.truthy_opt (an_timeline_summary analysis)
               then an_timeline_summary analysis
               else if Py.truthy_opt (an_problem_statement analysis)
                    then an_problem_statement analysis
                    else th_summary r)
         /\ th_sentiment r'
            = patched (an_customer_sentiment analysis) (th_sentiment r)
         /\ th_sentiment_score r'
            = patched (an_sentiment_score analysis) (th_sentiment_score r)
         /\ th_resolution_status r'
            = patched (an_resolution_status analysis) (th_resolution_status r)
         /\ (forall text, an_problem_statement analysis = Some text ->
             th_problem_statement r' = Some text)
         /\ (forall text, an_timeline_summary analysis = Some text ->
             th_timeline_summary r' = Some text)
       else r' = r.
Proof.
  intros Hstore Hmodel Han Ha Hr.
  rewrite !(analyze_thread_in_configured _ _ _ _ _ _ _ Hstore Hmodel).
  destruct (analyze_thread_written user_id thread_id thread_data analysis w Han Ha)
    as (w' & E & _ & Ht).
  rewrite E. cbn [snd]. rewrite Ht.
  unfold analysis_written, next_steps_written.
  cbn [t_threads set_stages set_feature_requests set_assignments set_next_id
       set_next_steps set_threads].
  rewrite lookup_map, Hr. cbn [fmap option_fmap option_map].
  eexists. split; [reflexivity|].
  unfold thread_patch. destruct (thread_matches thread_id user_id r); [|done].
  cbn. repeat (split; [done|]).
  split; [|repeat (split; [done|]); split; intros text Htext; by rewrite Htext].
  destruct (an_timeline_summary analysis) as [tl|]; cbn.
  - destruct (Py.truthy tl); [done|].
    by destruct (an_problem_statement analysis) as [ps|];
      cbn; [destruct (Py.truthy ps)|].
  - by destruct (an_problem_statement analysis) as [ps|];
      cbn; [destruct (Py.truthy ps)|].
Qed.

(** X8: an analysis that is done reports success with the mode, the
    sentiment, its score and the resolution status of the model, the
    problem statement and the timeline summary where the model gave them,
    the time of the run, and as counts the numbers of next steps and
    feature requests the model returned, inserted or not; and it leaves
    the stage of the thread at [completed]. *)
Theorem X8_analysis_done_reports_and_completes
    user_id thread_id thread_data analysis w :
  get_supabase_client env = ret tt ->
  get_gemini_client env = ret tt ->
  analysable fromisoformat user_id thread_id thread_data w ->
  answers generate_content json_loads_analysis analysis ->
  (exists problem_statement timeline_summary,
      (analyze_thread_in env fromisoformat strptime_ymd generate_content
         json_loads_analysis full_system_prompt incremental_system_prompt
         user_id thread_id w).1
      = inr {| ar_success := true; ar_thread_id := thread_id; ar_errors := [];
               ar_analysis :=
                 Some (AnalysisDone (mode_of thread_data)
                         problem_statement timeline_summary
                         (an_customer_sentiment analysis)
                         (an_sentiment_score analysis)
                         (an_resolution_status analysis)
                         (Z.of_nat (length (an_next_steps analysis)))
                         (Z.of_nat (length (an_feature_requests analysis)))
                         (clock w)) |}
      /\ (forall text, an_problem_statement analysis = Some text ->
          problem_statement = Some text)
      /\ (forall text, an_timeline_summary analysis = Some text ->
          timeline_summary = Some text))
  /\ t_stages
       (tables (analyze_thread_in env fromisoformat strptime_ymd generate_content
                  json_loads_analysis full_system_prompt
                  incremental_system_prompt user_id thread_id w).2)
     = map (stage_set "completed" [thread_id] user_id) (t_stages (tables w)).
Proof.
  intros Hstore Hmodel Han Ha.
  rewrite !(analyze_thread_in_configured _ _ _ _ _ _ _ Hstore Hmodel).
  destruct (analyze_thread_written user_id thread_id thread_data analysis w Han Ha)
    as (w' & E & _ & Ht).
  rewrite E. cbn [fst snd]. split; [|by rewrite Ht].
  exists (an_problem_statement analysis), (an_timeline_summary analysis).
  split; [reflexivity|]. by split.
Qed.




Lemma assignments_of_length customer_ids inserted_steps :
  length (assignments_of customer_ids inserted_steps)
  = (length inserted_steps * length customer_ids)%nat.
Proof.
  unfold assignments_of. induction inserted_steps as [|step rest IH]; [done|].
  cbn [flat_map length]. by rewrite length_app, length_map, IH.
Qed.

Lemma next_steps_new_length id ds : length (next_steps_new id ds) = length ds.
Proof.
  revert id. induction ds as [|d ds IH]; intros id; [done|].
  cbn [next_steps_new length]. by rewrite IH.
Qed.

(** X10: the assignments of an analysis that is done.  The table gains one
    row for each next step the run inserted and each distinct customer
    among the participants of the thread that are rows of the user, in
    number the product of the two, and nothing else of it changes; with no
    such participant, or no step inserted, it gains none. *)
Theorem X10_assignments_of_an_analysis
    user_id thread_id thread_data analysis w :
  get_supabase_client env = ret tt ->
  get_gemini_client env = ret tt ->
  analysable fromisoformat user_id thread_id thread_data w ->
  answers generate_content json_loads_analysis analysis ->
  exists inserted_steps added,
    t_next_steps
      (tables (analyze_thread_in env fromisoformat strptime_ymd generate_content
                 json_loads_analysis full_system_prompt
                 incremental_system_prompt user_id thread_id w).2)
    = t_next_steps (tables w) ++ inserted_steps
    /\ t_assignments
         (tables (analyze_thread_in env fromisoformat strptime_ymd generate_content
                    json_loads_analysis full_system_prompt
                    incremental_system_prompt user_id thread_id w).2)
       = t_assignments (tables w) ++ added
    /\ NoDup (thread_customers user_id thread_id (tables w))
    /\ length added
       = (length inserted_steps
          * length (thread_customers user_id thread_id (tables w)))%nat
    /\ forall a,
         a ∈ added
         <-> exists step,
               step ∈ inserted_steps
               /\ as_next_step_id a = ns_step_id step
               /\ as_customer_id a ∈ thread_customers user_id thread_id (tables w).
Proof.
  intros Hstore Hmodel Han Ha.
  rewrite !(analyze_thread_in_configured _ _ _ _ _ _ _ Hstore Hmodel).
  destruct (analyze_thread_written user_id thread_id thread_data analysis w Han Ha)
    as (w' & E & _ & Ht).
  rewrite E. cbn [snd]. rewrite Ht.
  unfold analysis_written, next_steps_written.
  cbn [t_next_steps t_assignments t_next_id t_participants set_stages
       set_feature_requests set_assignments set_next_id set_next_steps
       set_threads thread_customers].
  eexists _, _. split; [reflexivity|]. split; [reflexivity|].
  split; [apply NoDup_elements|]. split; [apply assignments_of_length|].
  intros a. unfold assignments_of. rewrite list_elem_of_In, in_flat_map. split.
  - intros (step & Hs & Hin). apply in_map_iff in Hin as (c & <- & Hc).
    exists step. split; [by apply list_elem_of_In|]. split; [done|].
    by apply list_elem_of_In.
  - intros (step & Hs & Hid & Hc). exists step. split; [by apply list_elem_of_In|].
    apply in_map_iff. exists (as_customer_id a). split.
    + destruct a. cbn in *. by rewrite Hid.
    + by apply list_elem_of_In.
Qed.

End WholeAnalysis.

(** ** What the analyzer never writes *)

#[global] Instance entities_same_preorder : PreOrder entities_same.
Proof.
  split.
  - intros t. by repeat split.
  - intros t1 t2 t3 (H1 & H2 & H3 & H4 & H5 & H6) (G1 & G2 & G3 & G4 & G5 & G6).
    unfold entities_same. repeat split; congruence.
Qed.

Ltac entities_same_leaf :=
  idtac; lazymatch goal with
  | |- steps (evolving entities_same) (call ?c ?e) =>
      refine (evolving_call entities_same c e _);
      let t := fresh "t" in
      intros t; unfold entities_same; cbn;
      repeat (case_match; cbn); repeat split; reflexivity
  end.

Section AnalyzerFrame.

Variable env : Env.
Variable fromisoformat : string -> option DateTime.
Variable strptime_ymd : string -> option string.
Variable generate_content : string -> string.
Variable json_loads_analysis : string -> option Analysis.
Variable full_system_prompt : string.
Variable incremental_system_prompt : string -> string -> string.

Lemma get_supabase_client_entities_same :
  steps (evolving entities_same) (get_supabase_client env).
Proof.
  destruct (get_supabase_client_cases env) as [->|(e & -> & _)].
  - apply steps_ret; apply _.
  - apply steps_raise; apply _.
Qed.

Lemma get_gemini_client_entities_same :
  steps (evolving entities_same) (get_gemini_client env).
Proof.
  destruct (get_gemini_client_cases env) as [->|(e & -> & _)].
  - apply steps_ret; apply _.
  - apply steps_raise; apply _.
Qed.

Lemma analyze_thread_entities_same user_id thread_id :
  steps (evolving entities_same)
    (analyze_thread fromisoformat strptime_ymd generate_content
       json_loads_analysis full_system_prompt incremental_system_prompt
       user_id thread_id).
Proof. steps_walk entities_same_leaf. Qed.

Lemma analyze_thread_in_entities_same user_id thread_id :
  steps (evolving entities_same)
    (analyze_thread_in env fromisoformat strptime_ymd generate_content
       json_loads_analysis full_system_prompt incremental_system_prompt
       user_id thread_id).
Proof.
  unfold analyze_thread_in.
  apply steps_bind; [apply _|apply get_supabase_client_entities_same|].
  intros _. apply steps_bind; [apply _|apply get_gemini_client_entities_same|].
  intros _. apply analyze_thread_entities_same.
Qed.

Lemma run_analyze_thread_job_entities_same payload :
  steps (evolving entities_same)
    (run_analyze_thread_job env fromisoformat strptime_ymd generate_content
       json_loads_analysis full_system_prompt incremental_system_prompt payload).
Proof.
  unfold run_analyze_thread_job.
  destruct (negb _); [apply steps_raise; apply _|].
  destruct (negb _); [apply steps_raise; apply _|].
  cbv zeta.
  apply steps_bind; [apply _|apply get_supabase_client_entities_same|].
  intros _. apply steps_try; [apply _| |].
  - apply steps_bind; [apply _| |].
    + steps_walk entities_same_leaf.
    + intros _. apply analyze_thread_in_entities_same.
  - intros e. steps_walk entities_same_leaf.
Qed.

(** X11: whatever the environment, the store and the model do,
    [analyze_thread] and the job that runs it write only to the stages,
    the thread rows, the next steps, their assignments and the feature
    requests: the profiles, the messages, the companies, the customers,
    the participants and the thread-company links are after the run what
    they were before.  (The health score that the store's procedure
    recalculates is no column of the company rows here.) *)
Theorem X11_analysis_leaves_the_entities_alone user_id thread_id payload w :
  entities_same (tables w)
    (tables (analyze_thread_in env fromisoformat strptime_ymd generate_content
               json_loads_analysis full_system_prompt
               incremental_system_prompt user_id thread_id w).2)
  /\ entities_same (tables w)
       (tables (run_analyze_thread_job env fromisoformat strptime_ymd
                  generate_content json_loads_analysis full_system_prompt
                  incremental_system_prompt payload w).2).
Proof.
  split.
  - apply (analyze_thread_in_entities_same user_id thread_id w).
  - apply (run_analyze_thread_job_entities_same payload w).
Qed.

End AnalyzerFrame.

(** ** What a program yields *)

Lemma yields_ret {A} (Q : A -> Prop) a : Q a -> yields Q (ret a).
Proof. intros H w a' [= <-]. exact H. Qed.

Lemma yields_raise {A} (Q : A -> Prop) e : yields Q (raise e).
Proof. intros w a H. discriminate H. Qed.

Lemma yields_bind {A B} (Q : B -> Prop) (m : M A) (k : A -> M B) :
  (forall a, yields Q (k a)) -> yields Q (bind m k).
Proof.
  intros Hk w b. unfold bind. destruct (m w) as [[e|a] w1]; [done|]. apply Hk.
Qed.

Lemma yields_try {A} (Q : A -> Prop) (m : M A) h :
  yields Q m -> (forall e, yields Q (h e)) -> yields Q (try_ m h).
Proof.
  intros Hm Hh w a. unfold try_. specialize (Hm w).
  destruct (m w) as [[e|a'] w1]; [apply Hh|]. apply Hm.
Qed.

(** A program that returns and yields [Q] returns something with [Q]. *)
Lemma returns_yields {A} (Q : A -> Prop) (m : M A) w :
  returns m -> yields Q m -> exists a, (m w).1 = inr a /\ Q a.
Proof. intros Hr Hy. destruct (Hr w) as [a Ha]. exists a. split; [done|]. by eapply Hy. Qed.

(** ** The processor and the resolver always report *)

Lemma processor_fatal_returns user_id thread_id errors e :
  returns (processor_fatal user_id thread_id errors e).
Proof.
  apply returns_bind; [|intros; apply returns_ret].
  apply returns_try. intros; apply returns_ret.
Qed.

Lemma processor_fatal_yields user_id thread_id errors e :
  yields processor_report_ok (processor_fatal user_id thread_id errors e).
Proof.
  apply yields_bind. intros _. apply yields_ret. right. by exists errors, e.
Qed.

Lemma resolver_fatal_returns user_id thread_ids created found linked skipped errors e :
  returns (resolver_fatal user_id thread_ids created found linked skipped errors e).
Proof.
  apply returns_bind; [|intros; apply returns_ret].
  apply returns_try. intros; apply returns_ret.
Qed.

Lemma resolver_fatal_yields user_id thread_ids created found linked skipped errors e :
  yields resolver_report_ok
    (resolver_fatal user_id thread_ids created found linked skipped errors e).
Proof.
  apply yields_bind. intros _. apply yields_ret. right.
  split; [done|]. split; [done|]. split; [done|]. exists errors, e. by left.
Qed.

Lemma attempt_returns {A} (m : M A) : returns (attempt m).
Proof. apply returns_try. intros; apply returns_ret. Qed.

Section AlwaysReports.

Variable env : Env.
Variable json_loads : string -> JsonLoad.

Lemma process_thread_entities_returns user_id thread_id :
  returns (process_thread_entities json_loads user_id thread_id).
Proof.
  unfold process_thread_entities.
  apply returns_bind; [apply returns_try; intros; apply returns_ret|].
  intros errors1. apply returns_bind; [apply returns_try; intros; apply returns_ret|].
  intros [e|[|m messages]].
  - apply processor_fatal_returns.
  - apply returns_ret.
  - apply returns_try. intros; apply processor_fatal_returns.
Qed.

Lemma process_thread_entities_yields user_id thread_id :
  yields processor_report_ok (process_thread_entities json_loads user_id thread_id).
Proof.
  unfold process_thread_entities.
  apply yields_bind. intros errors1. apply yields_bind.
  intros [e|[|m messages]].
  - apply processor_fatal_yields.
  - apply yields_ret. by left.
  - apply yields_try; [|intros; apply processor_fatal_yields].
    unfold process_messages. destruct (filter_business_domains _) as [bd etd].
    repeat (apply yields_bind; intros ?). apply yields_ret. by left.
Qed.

Lemma queue_for_analysis_returns user_id thread_ids created found linked errors :
  returns (queue_for_analysis user_id thread_ids created found linked errors).
Proof.
  unfold queue_for_analysis. apply returns_bind; [apply attempt_returns|].
  intros [e|rows]; [apply resolver_fatal_returns|].
  destruct (threads_to_process _); [apply returns_ret|].
  apply returns_bind; [apply attempt_returns|].
  intros [e|rows']; [apply returns_ret|].
  apply returns_bind; [|intros; apply returns_ret].
  apply returns_for_each. intros. apply returns_try. intros; apply returns_ret.
Qed.

Lemma queue_for_analysis_yields user_id thread_ids created found linked errors :
  yields resolver_report_ok
    (queue_for_analysis user_id thread_ids created found linked errors).
Proof.
  unfold queue_for_analysis. apply yields_bind.
  intros [e|rows]; [apply resolver_fatal_yields|].
  destruct (threads_to_process _); [apply yields_ret; by left|].
  apply yields_bind. intros [e|rows'].
  - apply yields_ret. right. split; [done|]. split; [done|]. split; [done|].
    exists errors, e. by right.
  - apply yields_bind. intros jobs. apply yields_ret. by left.
Qed.

Lemma link_participants_returns rows : returns (link_participants rows).
Proof.
  unfold link_participants. destruct rows; [apply returns_ret|].
  apply returns_try. intros e. apply returns_for_each.
  intros. apply returns_try. intros; apply returns_ret.
Qed.

Lemma resolve_customer_returns user_id email st :
  returns (resolve_customer user_id email st).
Proof. apply returns_try. intros; apply returns_ret. Qed.

Lemma resolve_thread_entities_returns user_id thread_ids :
  returns (resolve_thread_entities json_loads user_id thread_ids).
Proof.
  unfold resolve_thread_entities. destruct thread_ids as [|t ts]; [apply returns_ret|].
  apply returns_bind; [apply attempt_returns|].
  intros [e|rows]; [apply resolver_fatal_returns|].
  apply returns_bind; [apply returns_try; intros; apply returns_ret|].
  intros user_email. apply returns_bind; [apply attempt_returns|].
  intros [e|[|m messages]].
  - apply resolver_fatal_returns.
  - apply returns_bind; [apply attempt_returns|].
    intros [e|rows']; [apply resolver_fatal_returns|apply returns_ret].
  - apply returns_bind.
    { apply returns_for_each. intros. apply resolve_customer_returns. }
    intros customers. apply returns_bind; [apply link_participants_returns|].
    intros linked. apply queue_for_analysis_returns.
Qed.

Lemma resolve_thread_entities_yields user_id thread_ids :
  yields resolver_report_ok (resolve_thread_entities json_loads user_id thread_ids).
Proof.
  unfold resolve_thread_entities.
  destruct thread_ids as [|t ts]; [apply yields_ret; by left|].
  apply yields_bind. intros [e|rows]; [apply resolver_fatal_yields|].
  apply yields_bind. intros user_email. apply yields_bind.
  intros [e|[|m messages]].
  - apply resolver_fatal_yields.
  - apply yields_bind. intros [e|rows']; [apply resolver_fatal_yields|].
    apply yields_ret. by left.
  - apply yields_bind. intros customers. apply yields_bind. intros linked.
    apply queue_for_analysis_yields.
Qed.

(** X12: with the client of the store configured,
    [process_thread_entities] and [resolve_thread_entities] raise nothing,
    whatever the store does: each returns a report.  A report of the
    processor that is no success is the one of its outermost handler:
    every count zero and, last among the errors, "Fatal error in
    process_thread_entities: <str(e)>".  A report of the resolver that is
    no success counts no thread as processed and no job as triggered, and
    its last error is "Fatal error in resolve_thread_entities: <str(e)>" or
    "Error updating final stage and triggering jobs: <str(e)>".  When a
    setting of the client is missing, both raise the [ValueError] of
    [get_supabase_client] and call nothing. *)
Theorem X12_resolution_always_reports user_id thread_id thread_ids w :
  (get_supabase_client env = ret tt ->
   (exists report,
       (process_thread_entities_in env json_loads user_id thread_id w).1
       = inr report
       /\ processor_report_ok report)
   /\ (exists report,
         (resolve_thread_entities_in env json_loads user_id thread_ids w).1
         = inr report
         /\ resolver_report_ok report))
  /\ (forall e,
        get_supabase_client env = raise e ->
        process_thread_entities_in env json_loads user_id thread_id w = (inl e, w)
        /\ resolve_thread_entities_in env json_loads user_id thread_ids w
           = (inl e, w)).
Proof.
  split.
  - intros Hs. rewrite (process_thread_entities_in_configured _ _ Hs).
    rewrite (resolve_thread_entities_in_configured _ _ Hs). split.
    + apply returns_yields;
        [apply process_thread_entities_returns
        | apply process_thread_entities_yields].
    + apply returns_yields;
        [apply resolve_thread_entities_returns
        | apply resolve_thread_entities_yields].
  - intros e Hs. unfold process_thread_entities_in, resolve_thread_entities_in.
    by rewrite Hs.
Qed.

End AlwaysReports.

(** ** Threads without messages *)

Lemma stage_set_twice stage1 stage2 thread_ids user_id r :
  stage_set stage2 thread_ids user_id (stage_set stage1 thread_ids user_id r)
  = stage_set stage2 thread_ids user_id r.
Proof.
  unfold stage_set.
  destruct (stage_matches thread_ids user_id r) eqn:Hm; [|by rewrite Hm].
  unfold stage_matches in *. cbn. by rewrite Hm.
Qed.

Lemma stage_set_map_twice stage1 stage2 thread_ids user_id rows :
  map (stage_set stage2 thread_ids user_id)
    (map (stage_set stage1 thread_ids user_id) rows)
  = map (stage_set stage2 thread_ids user_id) rows.
Proof.
  rewrite map_map. apply map_ext. intros r. apply stage_set_twice.
Qed.

(** The user's own address, with a store that does not fail: one read,
    whose failure on a profile that is there twice is swallowed. *)
Lemma fetch_user_email_ok user_id w :
  faults w = [] ->
  exists user_email,
    fetch_user_email user_id w
    = (inr user_email,
       {| tables := tables w; trace := ProfileSelect user_id :: trace w;
          faults := []; clock := clock w |}).
Proof.
  intros Hf. unfold fetch_user_email, profile_select.
  destruct (maybe_single
              (filter (fun r => Is_true (String.eqb (pf_id r) user_id))
                 (t_profiles (tables w)))) as [e|[row|]] eqn:Hm.
  - exists None. erewrite try_bind_raise; last first.
    { rewrite call_ok by done. cbn [fst snd]. rewrite Hm. reflexivity. }
    reflexivity.
  - erewrite try_bind_ok; last first.
    { rewrite call_ok by done. cbn [fst snd]. rewrite Hm. reflexivity. }
    exists (if Py.truthy_opt (pf_email row) then Py.lower <$> pf_email row
            else None).
    unfold try_. by destruct (Py.truthy_opt (pf_email row)).
  - exists None. erewrite try_bind_ok; last first.
    { rewrite call_ok by done. cbn [fst snd]. rewrite Hm. reflexivity. }
    reflexivity.
Qed.

Section WithoutMessages.

Variable env : Env.
Variable json_loads : string -> JsonLoad.

(** X13: a thread without messages in the processor.  With its client
    configured and a store that does not fail, [process_thread_entities]
    writes the stage
    [resolving_entities], reads the messages, writes the stage [queued]
    and returns a success with every count at zero and no error; it makes
    no other call. *)
Theorem X13_processor_queues_a_thread_without_messages user_id thread_id w :
  get_supabase_client env = ret tt ->
  faults w = [] ->
  filter (fun r => Is_true (message_matches [thread_id] user_id r))
    (t_messages (tables w)) = [] ->
  process_thread_entities_in env json_loads user_id thread_id w
  = (inr (processor_report_early true []),
     {| tables := set_stages (map (stage_set "queued" [thread_id] user_id)
                                (t_stages (tables w))) (tables w);
        trace := [StageUpdate "queued" [thread_id] user_id;
                  MessageSelect [thread_id] user_id;
                  StageUpdate "resolving_entities" [thread_id] user_id]
                 ++ trace w;
        faults := []; clock := clock w |}).
Proof.
  intros Hstore Hf Hnone.
  rewrite (process_thread_entities_in_configured _ _ Hstore). unfold process_thread_entities.
  erewrite bind_ok; last first.
  { apply try_ok. erewrite bind_ok; last first.
    { unfold stage_update. rewrite call_ok by done. reflexivity. }
    reflexivity. }
  erewrite bind_ok; last first.
  { unfold fetch_messages. apply try_ok. erewrite bind_ok; last first.
    { unfold message_select. rewrite call_ok by done. reflexivity. }
    cbn [fst snd tables set_stages t_messages]. rewrite Hnone.
    erewrite bind_ok; last first.
    { unfold stage_update. rewrite call_ok by done. reflexivity. }
    reflexivity. }
  cbn [fst snd tables trace clock set_stages t_stages].
  unfold ret. do 2 f_equal. destruct (tables w). cbn.
  by rewrite stage_set_map_twice.
Qed.

(** X14: a batch without messages in the resolver.  With its client
    configured and a store that does not fail, [resolve_thread_entities]
    on threads that have no message
    writes the stage [resolving_entities], reads the profile and the
    messages, writes the stage [analyzing] and returns a success that
    counts no thread as processed.  It triggers no job: the threads are
    left in [analyzing]. *)
Theorem X14_resolver_leaves_threads_without_messages_analyzing
    user_id thread_ids w :
  get_supabase_client env = ret tt ->
  faults w = [] ->
  thread_ids <> [] ->
  filter (fun r => Is_true (message_matches thread_ids user_id r))
    (t_messages (tables w)) = [] ->
  resolve_thread_entities_in env json_loads user_id thread_ids w
  = (inr (resolver_report true 0 0 0 0 0 ∅ []),
     {| tables := set_stages (map (stage_set "analyzing" thread_ids user_id)
                                (t_stages (tables w))) (tables w);
        trace := [StageUpdate "analyzing" thread_ids user_id;
                  MessageSelect thread_ids user_id;
                  ProfileSelect user_id;
                  StageUpdate "resolving_entities" thread_ids user_id]
                 ++ trace w;
        faults := []; clock := clock w |}).
Proof.
  intros Hstore Hf Hids Hnone.
  rewrite (resolve_thread_entities_in_configured _ _ Hstore). unfold resolve_thread_entities.
  destruct thread_ids as [|t ts]; [done|].
  erewrite bind_ok; last first.
  { apply attempt_ok. unfold stage_update. rewrite call_ok by done. reflexivity. }
  cbn [fst snd].
  lazymatch goal with
  | |- context [bind (fetch_user_email ?u) _ ?W] =>
      destruct (fetch_user_email_ok u W eq_refl) as (user_email & E)
  end.
  rewrite (bind_ok _ _ _ _ _ E).
  erewrite bind_ok; last first.
  { apply attempt_ok. unfold message_select. rewrite call_ok by done. reflexivity. }
  cbn [fst snd tables set_stages t_messages]. rewrite Hnone.
  erewrite bind_ok; last first.
  { apply attempt_ok. unfold stage_update. rewrite call_ok by done. reflexivity. }
  cbn [fst snd tables trace clock set_stages t_stages].
  unfold ret. do 2 f_equal. destruct (tables w). cbn.
  by rewrite stage_set_map_twice.
Qed.

End WithoutMessages.

(** ** Letter case and whitespace *)

Lemma lower_char_idem c : Py.lower_char (Py.lower_char c) = Py.lower_char c.
Proof.
  destruct c as [b0 b1 b2 b3 b4 b5 b6 b7].
  destruct b0, b1, b2, b3, b4, b5, b6, b7; reflexivity.
Qed.

Lemma isspace_lower_char c : Py.isspace (Py.lower_char c) = Py.isspace c.
Proof.
  destruct c as [b0 b1 b2 b3 b4 b5 b6 b7].
  destruct b0, b1, b2, b3, b4, b5, b6, b7; reflexivity.
Qed.

Lemma lower_idem s : Py.lower (Py.lower s) = Py.lower s.
Proof.
  induction s as [|c s IH]; [done|]. cbn [Py.lower]. by rewrite lower_char_idem, IH.
Qed.

Lemma truthy_lower s : Py.truthy (Py.lower s) = Py.truthy s.
Proof. by destruct s. Qed.

Lemma lower_app a b : Py.lower (a +:+ b) = Py.lower a +:+ Py.lower b.
Proof.
  induction a as [|c a IH]; [by rewrite !app_nil_l_str|].
  rewrite app_cons_str. cbn [Py.lower]. by rewrite app_cons_str, IH.
Qed.

Lemma lstrip_lower s : Py.lstrip (Py.lower s) = Py.lower (Py.lstrip s).
Proof.
  induction s as [|c s IH]; [done|]. cbn [Py.lower Py.lstrip].
  rewrite isspace_lower_char. by destruct (Py.isspace c).
Qed.

Lemma rstrip_lower s : Py.rstrip (Py.lower s) = Py.lower (Py.rstrip s).
Proof.
  induction s as [|c s IH]; [done|]. cbn [Py.lower Py.rstrip]. rewrite IH.
  destruct (Py.rstrip s) as [|a r]; cbn [Py.lower]; [|done].
  rewrite isspace_lower_char. by destruct (Py.isspace c).
Qed.

Lemma strip_lower s : Py.strip (Py.lower s) = Py.lower (Py.strip s).
Proof. unfold Py.strip. by rewrite lstrip_lower, rstrip_lower. Qed.

Lemma rstrip_idem s : Py.rstrip (Py.rstrip s) = Py.rstrip s.
Proof.
  induction s as [|c s IH]; [done|]. cbn [Py.rstrip].
  destruct (Py.rstrip s) as [|a r] eqn:Hr.
  - destruct (Py.isspace c) eqn:Hc; [done|]. cbn [Py.rstrip]. by rewrite Hc.
  - cbn [Py.rstrip] in *. by rewrite IH.
Qed.

(** A text that does not begin with whitespace. *)
Lemma lstrip_clean s :
  match Py.lstrip s with "" => True | String c _ => Py.isspace c = false end.
Proof.
  induction s as [|c s IH]; [done|]. cbn [Py.lstrip].
  by destruct (Py.isspace c) eqn:Hc.
Qed.

Lemma rstrip_keeps_head c s :
  Py.isspace c = false -> exists r, Py.rstrip (String c s) = String c r.
Proof.
  intros Hc. cbn [Py.rstrip]. destruct (Py.rstrip s); [|by eexists].
  rewrite Hc. by eexists.
Qed.

Lemma strip_idem s : Py.strip (Py.strip s) = Py.strip s.
Proof.
  unfold Py.strip. pose proof (lstrip_clean s) as Hclean.
  destruct (Py.lstrip s) as [|c t]; [done|].
  destruct (rstrip_keeps_head c t Hclean) as [r Hr]. rewrite Hr.
  cbn [Py.lstrip]. rewrite Hclean, <- Hr. apply rstrip_idem.
Qed.

(** What is extracted from an address is trimmed. *)
Lemma extract_email_stripped address email :
  extract_email_from_address address = Some email -> Py.strip email = email.
Proof.
  unfold extract_email_from_address. destruct address as [a|]; [|done].
  destruct (negb (Py.truthy a)); [done|].
  destruct (Py.contains "<" a && Py.contains ">" a); intros [= <-]; apply strip_idem.
Qed.

Lemma normal_lower_stripped x :
  Py.strip x = x -> Py.truthy x = true -> normal_email (Py.lower x).
Proof.
  intros Hs Ht. split; [by rewrite truthy_lower|]. split; [apply lower_idem|].
  by rewrite strip_lower, Hs.
Qed.

(** ** Participant emails are normal *)

Lemma all_normal_empty : all_normal ∅.
Proof. intros e H. set_solver. Qed.

Lemma all_normal_union a b : all_normal a -> all_normal b -> all_normal (a ∪ b).
Proof. intros Ha Hb e [H|H]%elem_of_union; auto. Qed.

Lemma all_normal_subseteq a b : a ⊆ b -> all_normal b -> all_normal a.
Proof. intros Hs Hb e H. apply Hb. set_solver. Qed.

Lemma all_normal_extracted address :
  all_normal
    match extract_email_from_address address with
    | Some email => if Py.truthy email then {[ Py.lower email ]} else ∅
    | None => ∅
    end.
Proof.
  destruct (extract_email_from_address address) as [email|] eqn:He;
    [|apply all_normal_empty].
  destruct (Py.truthy email) eqn:Ht; [|apply all_normal_empty].
  intros e ->%elem_of_singleton.
  apply normal_lower_stripped; [by eapply extract_email_stripped | done].
Qed.

Lemma emails_of_items_normal_from items acc :
  all_normal acc ->
  all_normal
    (fold_left
       (fun (emails : gset string) item =>
          match extract_email_from_address (Some (item_str item)) with
          | Some email =>
              if Py.truthy email then emails ∪ {[ Py.lower email ]} else emails
          | None => emails
          end)
       items acc).
Proof.
  revert acc. induction items as [|item items IH]; intros acc Hacc; [done|].
  cbn [fold_left]. apply IH.
  pose proof (all_normal_extracted (Some (item_str item))) as Hx.
  destruct (extract_email_from_address (Some (item_str item))) as [email|]; [|done].
  destruct (Py.truthy email); [|done]. by apply all_normal_union.
Qed.

Lemma emails_of_items_normal items : all_normal (emails_of_items items).
Proof. apply emails_of_items_normal_from, all_normal_empty. Qed.

Section NormalEmails.

Variable json_loads : string -> JsonLoad.

Lemma extract_emails_from_json_normal json_data :
  all_normal (extract_emails_from_json json_loads json_data).
Proof.
  unfold extract_emails_from_json.
  destruct (negb (addr_truthy json_data)); [apply all_normal_empty|].
  destruct json_data as [|items|s|]; try apply all_normal_empty.
  - apply emails_of_items_normal.
  - destruct (json_loads s) as [|items|].
    + apply (all_normal_extracted (Some s)).
    + apply emails_of_items_normal.
    + apply all_normal_empty.
Qed.

Lemma message_emails_normal message :
  all_normal (message_emails json_loads message).
Proof.
  unfold message_emails. repeat apply all_normal_union.
  - destruct (Py.truthy_opt (m_from_address message)); [|apply all_normal_empty].
    apply all_normal_extracted.
  - destruct (addr_truthy (m_to_addresses message)); [|apply all_normal_empty].
    apply extract_emails_from_json_normal.
  - destruct (addr_truthy (m_cc_addresses message)); [|apply all_normal_empty].
    apply extract_emails_from_json_normal.
Qed.

Lemma extract_participant_emails_normal messages :
  all_normal (extract_participant_emails json_loads messages).
Proof.
  unfold extract_participant_emails.
  assert (H : forall acc, all_normal acc ->
                all_normal (fold_left
                              (fun emails message =>
                                 emails ∪ message_emails json_loads message)
                              messages acc)).
  { induction messages as [|m messages IH]; intros acc Hacc; [done|].
    cbn [fold_left]. apply IH, all_normal_union; [done|apply message_emails_normal]. }
  apply H, all_normal_empty.
Qed.

(** The emails of a map of threads are those of its values. *)
Lemma all_unique_emails_elem (thread_emails : gmap string (gset string)) e :
  e ∈ all_unique_emails thread_emails
  <-> exists thread_id emails,
        thread_emails !! thread_id = Some emails /\ e ∈ emails.
Proof.
  unfold all_unique_emails.
  assert (H : forall (l : list (string * gset string)) (acc : gset string),
             e ∈ fold_left (fun acc '(_, emails) => acc ∪ emails) l acc
             <-> e ∈ acc \/ exists k (s : gset string), (k, s) ∈ l /\ e ∈ s).
  { induction l as [|[k s] l IH]; intros acc; cbn [fold_left].
    - split; [by left|]. intros [H|(k & s & H & _)]; [done|].
      by apply elem_of_nil in H.
    - rewrite IH, elem_of_union. split.
      + intros [[H|H]|(k' & s' & H & He)].
        * by left.
        * right. exists k, s. split; [apply list_elem_of_here|done].
        * right. exists k', s'. split; [by apply list_elem_of_further|done].
      + intros [H|(k' & s' & H & He)]; [by left; left|].
        apply elem_of_cons in H as [[= -> ->]|H]; [by left; right|].
        right. by exists k', s'. }
  rewrite H. split.
  - intros [Hempty|(k & s & Hks & He)]; [set_solver|].
    exists k, s. split; [by apply elem_of_map_to_list|done].
  - intros (k & s & Hks & He). right. exists k, s.
    split; [by apply elem_of_map_to_list|done].
Qed.

Lemma thread_emails_normal_from messages (acc : gmap string (gset string)) :
  map_Forall (fun _ emails => all_normal emails) acc ->
  map_Forall (fun _ emails => all_normal emails)
    (fold_left (add_message_emails json_loads) messages acc).
Proof.
  revert acc. induction messages as [|m messages IH]; intros acc Hacc; [done|].
  cbn [fold_left]. apply IH. unfold add_message_emails.
  destruct (negb (Py.truthy (m_thread_id m))); [done|].
  apply map_Forall_insert_2; [|done].
  apply all_normal_union; [|apply message_emails_normal].
  destruct (acc !! m_thread_id m) as [s|] eqn:Hs; cbn.
  - by apply (Hacc _ _ Hs).
  - apply all_normal_empty.
Qed.

Lemma extract_thread_emails_normal user_email messages :
  map_Forall (fun _ emails => all_normal emails)
    (extract_thread_emails json_loads user_email messages).
Proof.
  unfold extract_thread_emails.
  pose proof (thread_emails_normal_from messages ∅ (map_Forall_empty _)) as H.
  destruct user_email as [own|]; [|done].
  destruct (Py.truthy own); [|done].
  intros k s Hks. apply lookup_fmap_Some in Hks as (s0 & <- & Hs0).
  eapply all_normal_subseteq; [|by apply (H _ _ Hs0)]. set_solver.
Qed.

(** X15: every participant email the two services work with is normal: it
    is not empty, it is in lower case and it has no whitespace at either
    end, whatever the address columns hold and whatever [json.loads] makes
    of them.  This holds for the emails of step 3 of the processor and for
    the unique emails of step 4 of the resolver. *)
Theorem X15_participant_emails_are_normal user_email messages e :
  (e ∈ extract_participant_emails json_loads messages ->
   Py.truthy e = true /\ Py.lower e = e /\ Py.strip e = e)
  /\ (e ∈ all_unique_emails (extract_thread_emails json_loads user_email messages) ->
      Py.truthy e = true /\ Py.lower e = e /\ Py.strip e = e).
Proof.
  split.
  - apply extract_participant_emails_normal.
  - intros (k & s & Hks & He)%all_unique_emails_elem.
    by apply (extract_thread_emails_normal user_email messages k s Hks).
Qed.

End NormalEmails.

Section EmailsToResolve.

Variable json_loads : string -> JsonLoad.




End EmailsToResolve.

(** ** Local part and domain *)

Lemma before_after_first c s :
  Py.contains c s = true -> before_first c s +:+ String c (after_first c s) = s.
Proof.
  induction s as [|x s IH]; [done|]. cbn [Py.contains before_first after_first].
  destruct (Ascii.eqb x c) eqn:Hx.
  - intros _. apply Ascii.eqb_eq in Hx as ->. by rewrite app_nil_l_str.
  - intros H. by rewrite app_cons_str, IH.
Qed.

Lemma contains_before_first c s : Py.contains c (before_first c s) = false.
Proof.
  induction s as [|x s IH]; [done|]. cbn [before_first].
  destruct (Ascii.eqb x c) eqn:Hx; [done|]. cbn [Py.contains]. by rewrite Hx.
Qed.

Lemma at_lower_char c : Ascii.eqb (Py.lower_char c) "@" = Ascii.eqb c "@".
Proof.
  destruct c as [b0 b1 b2 b3 b4 b5 b6 b7].
  destruct b0, b1, b2, b3, b4, b5, b6, b7; reflexivity.
Qed.

Lemma contains_at_lower s : Py.contains "@" (Py.lower s) = Py.contains "@" s.
Proof.
  induction s as [|c s IH]; [done|]. cbn [Py.lower Py.contains].
  by rewrite at_lower_char, IH.
Qed.

Lemma split_in_two c s :
  length (Py.split c s) = 2%nat ->
  Py.contains c s = true /\ Py.contains c (after_first c s) = false.
Proof.
  rewrite split_unfold. destruct (Py.contains c s); [|done].
  rewrite split_unfold. destruct (Py.contains c (after_first c s)); [|done].
  rewrite split_unfold. done.
Qed.

(** X17: an email with one at sign is the local part, the at sign and the
    domain, up to letter case: when [email.split("@")] has two parts,
    [extract_local_part_from_email] and [extract_domain_from_email] put
    together again give the email in lower case. *)
Theorem X17_local_part_and_domain_make_the_email email :
  length (Py.split "@" email) = 2%nat ->
  extract_local_part_from_email email +:+ "@" +:+ extract_domain_from_email email
  = Py.lower email.
Proof.
  intros [Hat Hone]%split_in_two.
  unfold extract_local_part_from_email, extract_domain_from_email.
  rewrite Hat. cbn [negb].
  rewrite split_nth_0, (split_nth_1 _ _ Hat), (before_first_absent _ _ Hone).
  rewrite <- (before_after_first _ _ Hat) at 3.
  by rewrite lower_app.
Qed.

Lemma domain_lower email :
  Py.lower (extract_domain_from_email email) = extract_domain_from_email email.
Proof.
  unfold extract_domain_from_email.
  destruct (negb (Py.contains "@" email)); [done|apply lower_idem].
Qed.

(** X18: the domain read from an email is in lower case and holds no at
    sign, also for an email with several at signs; and the processor takes
    it for a business domain unless it is empty or one of the five common
    providers as they are written in the list. *)
Theorem X18_domain_of_an_email email :
  Py.lower (extract_domain_from_email email) = extract_domain_from_email email
  /\ Py.contains "@" (extract_domain_from_email email) = false
  /\ (is_business_domain (extract_domain_from_email email) = false
      <-> extract_domain_from_email email = ""
          \/ extract_domain_from_email email ∈ COMMON_EMAIL_PROVIDERS).
Proof.
  split; [apply domain_lower|]. split.
  - unfold extract_domain_from_email.
    destruct (Py.contains "@" email) eqn:Hat; cbn [negb]; [|done].
    rewrite (split_nth_1 _ _ Hat), contains_at_lower. apply contains_before_first.
  - unfold is_business_domain. rewrite domain_lower.
    destruct (extract_domain_from_email email) as [|c d] eqn:Hd.
    + cbn. split; [by left|done].
    + cbn [Py.truthy negb]. rewrite negb_false_iff, bool_decide_eq_true.
      split; [by right|]. by intros [H|H].
Qed.

(** ** Linking participants *)

Lemma individual_insert r n w :
  faults w = [] ->
  try_ (participant_insert r ;;; ret (n + 1)) (fun individual_error => ret n) w
  = (inr (if existsb (participant_same r) (t_participants (tables w))
          then n else n + 1),
     {| tables := set_participants
                    (participant_add_new (t_participants (tables w)) r) (tables w);
        trace := ParticipantInsert r :: trace w; faults := []; clock := clock w |}).
Proof.
  intros Hf. unfold try_, bind, participant_insert, participant_add_new.
  rewrite call_ok by done.
  destruct (existsb (participant_same r) (t_participants (tables w))); cbn; [|done].
  unfold ret. f_equal. f_equal. by destruct (tables w).
Qed.

Lemma individual_inserts rows : forall w n,
  faults w = [] ->
  exists w',
    for_each rows
      (fun participant successful_inserts =>
         try_ (participant_insert participant ;;; ret (successful_inserts + 1))
              (fun individual_error => ret successful_inserts))
      n w
    = (inr (n + (Z.of_nat (length (t_participants (tables w')))
                 - Z.of_nat (length (t_participants (tables w))))), w')
    /\ t_participants (tables w')
       = fold_left participant_add_new rows (t_participants (tables w))
    /\ faults w' = [].
Proof.
  induction rows as [|r rows IH]; intros w n Hf.
  - exists w. cbn [for_each fold_left]. unfold ret.
    split; [f_equal; f_equal; lia|done].
  - cbn [for_each fold_left].
    rewrite (bind_ok _ _ _ _ _ (individual_insert r n w Hf)).
    match goal with |- context [for_each rows _ ?n1 ?w1] =>
      destruct (IH w1 n1 eq_refl) as (w' & Hrun & Ht & Hf') end.
    exists w'. split; [|by split]. rewrite Hrun.
    cbn [tables set_participants t_participants]. unfold participant_add_new.
    destruct (existsb (participant_same r) (t_participants (tables w))); [done|].
    f_equal. f_equal. rewrite length_app. cbn [length]. lia.
Qed.

(** X19: linking the participants of a batch when at most the batch upsert
    fails.  Either way the participants table ends up with every row that
    was not in it yet, added once; but the count that goes into the report
    is the number of rows handed in when the upsert goes through, and the
    number of rows that are new in the table when it fails and the rows are
    inserted one by one. *)
Theorem X19_linking_participants_with_and_without_the_upsert rows w :
  tail (faults w) = [] ->
  exists w',
    link_participants rows w
    = (inr match faults w with
           | Some _ :: _ =>
               Z.of_nat (length (t_participants (tables w')))
               - Z.of_nat (length (t_participants (tables w)))
           | _ => Z.of_nat (length rows)
           end, w')
    /\ t_participants (tables w')
       = fold_left participant_add_new rows (t_participants (tables w)).
Proof.
  intros Hf. unfold link_participants. destruct rows as [|r rows].
  - exists w. unfold ret. split; [|done].
    destruct (faults w) as [|[e|] plan]; [done| |done].
    f_equal. f_equal. lia.
  - unfold try_ at 1, bind at 1, participant_upsert, call.
    destruct (faults w) as [|[e|] plan] eqn:Hplan.
    + eexists. unfold ret. split; reflexivity.
    + cbn [tail] in Hf. subst plan.
      match goal with |- context [for_each (r :: rows) _ 0 ?w1] =>
        destruct (individual_inserts (r :: rows) w1 0 eq_refl)
          as (w' & Hrun & Ht & _) end.
      exists w'. split; [|exact Ht]. rewrite Hrun. done.
    + eexists. unfold ret. split; reflexivity.
Qed.

(** ** A message without body *)

Lemma join_texts_none sep (items : list (option string)) :
  None ∈ items ->
  exists e, join_texts sep items = inl e /\ exn_class e = TypeError.
Proof.
  induction items as [|[s|] items IH]; intros Hin.
  - by apply elem_of_nil in Hin.
  - apply elem_of_cons in Hin as [?|Hin]; [done|].
    destruct (IH Hin) as (e & E & Hc). exists e. cbn [join_texts]. by rewrite E.
  - eexists. split; reflexivity.
Qed.

Lemma load_participants_reads user_id thread_id w :
  faults w = [] ->
  exists participants reads,
    load_participants user_id thread_id w
    = (inr participants, after_calls reads w)
    /\ Forall (fun c => forall prompt, c <> LlmGenerate prompt) reads.
Proof.
  intros Hf. unfold load_participants.
  assert (Hp : match faults w with Some _ :: _ => False | _ => True end)
    by by rewrite Hf.
  erewrite bind_ok; last first.
  { unfold participant_select. by apply read_passes. }
  destruct (map pa_customer_id _) as [|c ids].
  - eexists _, _. split; [reflexivity|]. by repeat constructor.
  - erewrite bind_ok; last first.
    { unfold customer_select_in. apply read_passes. cbn. by rewrite Hf. }
    rewrite after_calls_app. eexists _, _. split; [reflexivity|].
    by repeat constructor.
Qed.

Section WithoutBody.

Variable env : Env.
Variable fromisoformat : string -> option DateTime.
Variable strptime_ymd : string -> option string.
Variable generate_content : string -> string.
Variable json_loads_analysis : string -> option Analysis.
Variable full_system_prompt : string.
Variable incremental_system_prompt : string -> string -> string.

Lemma analyze_messages_without_body user_id thread_id analysis_mode old_summary
    messages m w :
  faults w = [] ->
  m ∈ messages -> message_body m = None ->
  exists e reads,
    analyze_messages strptime_ymd generate_content json_loads_analysis
      full_system_prompt incremental_system_prompt
      user_id thread_id analysis_mode old_summary messages w
    = (inl e, after_calls reads w)
    /\ exn_class e = TypeError
    /\ Forall (fun c => forall prompt, c <> LlmGenerate prompt) reads.
Proof.
  intros Hf Hin Hbody. unfold analyze_messages.
  destruct (load_participants_reads user_id thread_id w Hf)
    as (participants & reads & E & Hreads).
  rewrite (bind_ok _ _ _ _ _ E).
  destruct (join_texts_none " " (map message_body messages)) as (e & Hj & Hc).
  { rewrite <- Hbody. by apply list_elem_of_fmap_2. }
  exists e, reads. unfold build_transcript, join_opt. rewrite Hj. cbn [lift].
  erewrite bind_raise by reflexivity. done.
Qed.

(** X20: a message that has no text in [body_text] and a null [body_html]
    fails the analysis of its thread.  With a store that does not fail and
    the thread's row in place, as soon as one of the messages selected is
    such a message, [analyze_thread] reports a failure with a [TypeError]
    (the bodies cannot be joined), the stage [failed] is the only thing
    written, and the model is not called. *)
Theorem X20_message_without_body_fails_the_analysis user_id thread_id
    thread_data m w :
  get_supabase_client env = ret tt ->
  get_gemini_client env = ret tt ->
  faults w = [] ->
  filter (fun r => Is_true (thread_matches thread_id user_id r))
    (t_threads (tables w)) = [thread_data] ->
  m ∈ selected_messages fromisoformat thread_data
        (messages_read user_id thread_id w) ->
  Py.truthy_opt (m_body_text m) = false ->
  m_body_html m = None ->
  exists e w',
    analyze_thread_in env fromisoformat strptime_ymd generate_content
      json_loads_analysis full_system_prompt incremental_system_prompt
      user_id thread_id w
    = (inr (analysis_failed thread_id e), w')
    /\ exn_class e = TypeError
    /\ tables w'
       = set_stages (map (stage_set "failed" [thread_id] user_id)
                       (t_stages (tables w))) (tables w)
    /\ forall prompt, LlmGenerate prompt ∈ trace w' ->
                      LlmGenerate prompt ∈ trace w.
Proof.
  intros Hstore Hmodel Hf Hone Hin Htext Hhtml.
  rewrite !(analyze_thread_in_configured _ _ _ _ _ _ _ Hstore Hmodel).
  assert (Hbody : message_body m = None).
  { unfold message_body, Py.or_. by rewrite Htext. }
  unfold selected_messages in Hin.
  assert (Hrun : exists e reads,
             analyze_selected fromisoformat strptime_ymd generate_content
               json_loads_analysis full_system_prompt incremental_system_prompt
               user_id thread_id w
             = (inl e, after_calls reads (after_reads user_id thread_id w))
             /\ exn_class e = TypeError
             /\ Forall (fun c => forall prompt, c <> LlmGenerate prompt) reads).
  { unfold analyze_selected.
    rewrite (analyze_selected_reads user_id thread_id w thread_data
               (fun thread_data messages => _) Hf Hone).
    cbv beta.
    destruct (th_last_analyzed_at thread_data) as [la|].
    - destruct (messages_read user_id thread_id w) as [|m0 ms] eqn:Hm;
        [by apply elem_of_nil in Hin|].
      destruct (List.filter (keep_message fromisoformat la) (m0 :: ms))
        as [|k kept] eqn:Hk; [by apply elem_of_nil in Hin|].
      by apply (analyze_messages_without_body _ _ _ _ _ m).
    - destruct (messages_read user_id thread_id w) as [|m0 ms] eqn:Hm;
        [by apply elem_of_nil in Hin|].
      by apply (analyze_messages_without_body _ _ _ _ _ m). }
  destruct Hrun as (e & reads & Hrun & Hc & Hreads).
  exists e. eexists. unfold analyze_thread.
  rewrite (try_bind_raise _ _ _ _ _ _ Hrun).
  fold (analysis_failed thread_id e).
  rewrite analyze_thread_handler_ok by (cbn; apply drop_nil).
  split; [reflexivity|]. split; [exact Hc|]. split; [reflexivity|].
  intros prompt. cbn [failed_after trace after_calls after_reads].
  rewrite app_nil_l.
  rewrite elem_of_cons, elem_of_app, !elem_of_cons.
  intros [?|[Hr|[?|[?|H]]]]; try done.
  rewrite Forall_forall in Hreads. by destruct (Hreads _ Hr prompt).
Qed.

End WithoutBody.

(** ** Truncation in general *)

(** X21: [truncate_messages_smart] on any list whose texts can be joined.
    At or below 100000 estimated tokens the list comes back as it is.
    Above, with five messages or more, it is the first fifth of the
    messages (by count, rounded down), the marker message and the last
    fifth; with fewer than five messages a fifth of the count is 0 and
    [messages[-0:]] is the whole list, so the result is the marker followed
    by every message: nothing is dropped. *)
Theorem X21_truncate_messages_smart_in_general messages total_text :
  join_opt " " (map sm_text messages) = inr total_text ->
  truncate_messages_smart messages
  = inr (if estimate_tokens total_text <=? 100000 then messages
         else if (length messages <? 5)%nat then marker_message :: messages
         else take (length messages / 5) messages
              ++ [marker_message]
              ++ drop (length messages - length messages / 5) messages).
Proof.
  intros Hj.
  destruct (Z.leb_spec (estimate_tokens total_text) 100000) as [Hle|Hgt].
  - by apply (truncate_messages_smart_within_limit _ total_text).
  - destruct (Nat.ltb_spec (length messages) 5) as [Hn|Hn].
    + by apply (truncate_messages_smart_over_limit_short _ total_text).
    + by apply (truncate_messages_smart_over_limit _ total_text).
Qed.

(** X22: the transcript [analyze_thread] hands to the model, for any
    messages whose bodies can be joined.  At or below 100000 estimated
    tokens it is [construct_transcript] of all messages.  Above, it is made
    of the lines of the first fifth of the messages, the marker line and
    the lines of the last fifth when there are five messages or more, and
    of the marker line followed by the lines of every message when there
    are fewer than five; a message is a whole line or no line. *)
Theorem X22_transcript_of_a_thread_in_general messages participants total_text :
  join_opt " " (map message_body messages) = inr total_text ->
  build_transcript messages participants
  = inr (if estimate_tokens total_text <=? 100000
         then construct_transcript messages participants
         else if (length messages <? 5)%nat
         then Py.join blank_line
                (TRUNCATION_MARKER
                 :: flat_map (transcript_line participants) messages)
         else Py.join blank_line
                (flat_map (transcript_line participants)
                   (take (length messages / 5) messages)
                 ++ [TRUNCATION_MARKER]
                 ++ flat_map (transcript_line participants)
                      (drop (length messages - length messages / 5) messages))).
Proof.
  intros Hj.
  destruct (Z.leb_spec (estimate_tokens total_text) 100000) as [Hle|Hgt].
  - by apply (build_transcript_within_limit _ _ total_text).
  - destruct (Nat.ltb_spec (length messages) 5) as [Hn|Hn].
    + by apply (build_transcript_over_limit_short _ _ total_text).
    + by apply (build_transcript_over_limit _ _ total_text).
Qed.

(** ** What resolution never writes *)

#[global] Instance processor_leaves_preorder : PreOrder processor_leaves.
Proof.
  split.
  - intros t. by repeat split.
  - intros t1 t2 t3 H G. unfold processor_leaves in *.
    destruct_and!. repeat split; congruence.
Qed.

#[global] Instance resolver_leaves_preorder : PreOrder resolver_leaves.
Proof.
  split.
  - intros t. by repeat split.
  - intros t1 t2 t3 H G. unfold resolver_leaves in *.
    destruct_and!. repeat split; congruence.
Qed.

Ltac processor_leaves_leaf :=
  idtac; lazymatch goal with
  | |- steps (evolving processor_leaves) (call ?c ?e) =>
      refine (evolving_call processor_leaves c e _);
      let t := fresh "t" in
      intros t; unfold processor_leaves, company_insert_effect; cbn;
      repeat (case_match; cbn); repeat split; reflexivity
  end.

Ltac resolver_leaves_leaf :=
  idtac; lazymatch goal with
  | |- steps (evolving resolver_leaves) (call ?c ?e) =>
      refine (evolving_call resolver_leaves c e _);
      let t := fresh "t" in
      intros t; unfold resolver_leaves, company_insert_effect; cbn;
      repeat (case_match; cbn); repeat split; reflexivity
  end.

Section ResolutionFrame.

Variable env : Env.
Variable json_loads : string -> JsonLoad.

Lemma get_supabase_client_steps (Rt : relation Tables) `{!PreOrder Rt} :
  steps (evolving Rt) (get_supabase_client env).
Proof.
  destruct (get_supabase_client_cases env) as [->|(e & -> & _)].
  - apply steps_ret; apply _.
  - apply steps_raise; apply _.
Qed.

Lemma process_thread_entities_leaves user_id thread_id :
  steps (evolving processor_leaves)
    (process_thread_entities json_loads user_id thread_id).
Proof. steps_walk processor_leaves_leaf. Qed.

Lemma resolve_thread_entities_leaves user_id thread_ids :
  steps (evolving resolver_leaves)
    (resolve_thread_entities json_loads user_id thread_ids).
Proof. steps_walk resolver_leaves_leaf. Qed.

(** X23: what the two resolution services never write, whatever the
    environment and the store do.  [process_thread_entities] leaves the
    profiles, the messages, the thread participants, the thread rows, the
    next steps, their assignments and the feature requests as they were:
    it writes only to the stages, the companies, the customers and the
    thread-company links.  [resolve_thread_entities], the hand-over to the
    job being one call, leaves the profiles, the messages and the
    thread-company links as they were. *)
Theorem X23_resolution_leaves_the_rest_alone user_id thread_id thread_ids w :
  processor_leaves (tables w)
    (tables (process_thread_entities_in env json_loads user_id thread_id w).2)
  /\ resolver_leaves (tables w)
       (tables (resolve_thread_entities_in env json_loads user_id thread_ids w).2).
Proof.
  split.
  - refine (steps_bind (evolving processor_leaves) _ _ _ _ w).
    + apply get_supabase_client_steps; apply _.
    + intros _. apply process_thread_entities_leaves.
  - refine (steps_bind (evolving resolver_leaves) _ _ _ _ w).
    + apply get_supabase_client_steps; apply _.
    + intros _. apply resolve_thread_entities_leaves.
Qed.

End ResolutionFrame.

(** ** Examples *)

Lemma legal_world_analysable :
  analysable fromisoformat_model "u1" "t1" (thread_t1 None) (legal_world []).
Proof.
  split; [reflexivity|]. split; [reflexivity|].
  split; [by vm_compute|]. eexists. by vm_compute.
Qed.

Lemma staffed_world_analysable :
  analysable fromisoformat_model "u1" "t1" (thread_t1 None) staffed_world.
Proof.
  split; [reflexivity|]. split; [reflexivity|].
  split; [by vm_compute|]. eexists. by vm_compute.
Qed.

(** X2 at work: thread [t9] has no row in [world_with []]. *)
Lemma X2_witness_unknown_thread :
  get_supabase_client full_env = ret tt
  /\ get_gemini_client full_env = ret tt
  /\ faults (world_with []) = []
  /\ analyze_in_full_env (analysis_with []) "u1" "t9" (world_with [])
     = (inr (analysis_failed "t9"
               (value_error "Thread t9 not found for user u1")),
        failed_after [ThreadSelect "t9" "u1"] "u1" "t9" (world_with [])).
Proof.
  split; [reflexivity|]. split; [reflexivity|].
  split; [reflexivity|].
  exact (proj1 (X2_analyze_thread_without_thread_or_messages full_env
                  fromisoformat_model (fun _ => None) (fun _ => "{...}")
                  (fun _ => Some (analysis_with [])) "Analyze."
                  (fun old_summary transcript => "Update.")
                  "u1" "t9" (world_with []) eq_refl eq_refl eq_refl) eq_refl).
Defined.

(** X5 at work: no API key is set, so the trigger runs the job in process
    and returns when [analyze_thread] has run. *)
Lemma X5_witness_no_api_key :
  Py.truthy "t1" = true
  /\ Py.truthy "u1" = true
  /\ get_supabase_client full_env = ret tt
  /\ get_gemini_client full_env = ret tt
  /\ trigger_analyze_thread_job_paths full_env fromisoformat_model (fun _ => None)
       (fun _ => "{...}") (fun _ => Some (analysis_with ["Follow up with legal"]))
       "Analyze." (fun old_summary transcript => "Update.")
       "u1" "t1" (legal_world [])
     = (inr tt,
        (analyze_in_full_env (analysis_with ["Follow up with legal"]) "u1" "t1"
           (after_analyzing_write "u1" "t1" (legal_world []))).2).
Proof.
  split; [reflexivity|]. split; [reflexivity|].
  split; [reflexivity|]. split; [reflexivity|].
  exact (X5_trigger_without_transport_runs_the_analysis
           full_env fromisoformat_model (fun _ => None) (fun _ => "{...}")
           (fun _ => Some (analysis_with ["Follow up with legal"])) "Analyze."
           (fun old_summary transcript => "Update.")
           "u1" "t1" (legal_world []) eq_refl eq_refl eq_refl eq_refl).
Defined.

(** X7 at work: the row of thread [t1] after its first analysis. *)
Lemma X7_witness_thread_t1 :
  get_supabase_client full_env = ret tt
  /\ get_gemini_client full_env = ret tt
  /\ analysable fromisoformat_model "u1" "t1" (thread_t1 None) (legal_world [])
  /\ answers (fun _ => "{...}")
       (fun _ => Some (analysis_with ["Follow up with legal"]))
       (analysis_with ["Follow up with legal"])
  /\ t_threads (tables (legal_world [])) !! 0%nat = Some (thread_t1 None)
  /\ exists r',
       t_threads
         (tables (analyze_in_full_env (analysis_with ["Follow up with legal"])
                    "u1" "t1" (legal_world [])).2) !! 0%nat = Some r'
       /\ th_last_analyzed_at r' = Some "2024-07-01T09:00:00"
       /\ th_summary r' = Some "Timeline"
       /\ th_sentiment r' = Some "Neutral".
Proof.
  split; [reflexivity|]. split; [reflexivity|].
  split; [exact legal_world_analysable|]. split; [apply answers_constant|].
  split; [reflexivity|].
  destruct (X7_analysis_patches_the_thread_row full_env
              fromisoformat_model (fun _ => None) (fun _ => "{...}")
              (fun _ => Some (analysis_with ["Follow up with legal"])) "Analyze."
              (fun old_summary transcript => "Update.")
              "u1" "t1" (thread_t1 None) (analysis_with ["Follow up with legal"])
              (legal_world []) 0%nat (thread_t1 None)
              eq_refl eq_refl legal_world_analysable (answers_constant _) eq_refl)
    as (r' & Hr & H).
  exists r'. split; [exact Hr|].
  destruct H as (_ & _ & Hla & Hs & Hse & _).
  split; [exact Hla|]. split; [exact Hs|exact Hse].
Defined.

(** X8 at work: the report of the first analysis of thread [t1], and its
    stage. *)
Lemma X8_witness_thread_t1 :
  get_supabase_client full_env = ret tt
  /\ get_gemini_client full_env = ret tt
  /\ analysable fromisoformat_model "u1" "t1" (thread_t1 None) (legal_world [])
  /\ answers (fun _ => "{...}")
       (fun _ => Some (analysis_with ["Follow up with legal"]))
       (analysis_with ["Follow up with legal"])
  /\ (exists problem_statement,
        (analyze_in_full_env (analysis_with ["Follow up with legal"]) "u1" "t1"
           (legal_world [])).1
        = inr {| ar_success := true; ar_thread_id := "t1"; ar_errors := [];
                 ar_analysis :=
                   Some (AnalysisDone "full" problem_statement (Some "Timeline")
                           (Some "Neutral") (Some 0) None 1 0
                           "2024-07-01T09:00:00") |})
  /\ t_stages
       (tables (analyze_in_full_env (analysis_with ["Follow up with legal"])
                  "u1" "t1" (legal_world [])).2)
     = [stage_of_t1 "completed"].
Proof.
  split; [reflexivity|]. split; [reflexivity|].
  split; [exact legal_world_analysable|]. split; [apply answers_constant|].
  destruct (X8_analysis_done_reports_and_completes full_env
              fromisoformat_model (fun _ => None) (fun _ => "{...}")
              (fun _ => Some (analysis_with ["Follow up with legal"])) "Analyze."
              (fun old_summary transcript => "Update.")
              "u1" "t1" (thread_t1 None) (analysis_with ["Follow up with legal"])
              (legal_world []) eq_refl eq_refl legal_world_analysable
              (answers_constant _))
    as [(problem_statement & timeline_summary & E & _ & Htl) Hstage].
  split; [|exact Hstage].
  exists problem_statement. unfold analyze_in_full_env.
  rewrite E, (Htl "Timeline" eq_refl). reflexivity.
Defined.


(** X10 at work: one step inserted for a thread with two customers. *)
Lemma X10_witness_two_customers :
  get_supabase_client full_env = ret tt
  /\ get_gemini_client full_env = ret tt
  /\ analysable fromisoformat_model "u1" "t1" (thread_t1 None) staffed_world
  /\ answers (fun _ => "{...}") (fun _ => Some analysis_with_requests)
       analysis_with_requests
  /\ exists inserted_steps added,
       t_next_steps
         (tables (analyze_in_full_env analysis_with_requests "u1" "t1" staffed_world).2)
       = inserted_steps
       /\ t_assignments
            (tables (analyze_in_full_env analysis_with_requests "u1" "t1"
                       staffed_world).2)
          = added
       /\ length added = (length inserted_steps * 2)%nat.
Proof.
  split; [reflexivity|]. split; [reflexivity|].
  split; [exact staffed_world_analysable|]. split; [apply answers_constant|].
  destruct (X10_assignments_of_an_analysis full_env
              fromisoformat_model (fun _ => None) (fun _ => "{...}")
              (fun _ => Some analysis_with_requests) "Analyze."
              (fun old_summary transcript => "Update.")
              "u1" "t1" (thread_t1 None) analysis_with_requests
              staffed_world eq_refl eq_refl staffed_world_analysable (answers_constant _))
    as (inserted_steps & added & Hns & Has & _ & Hlen & _).
  exists inserted_steps, added.
  split; [exact Hns|]. split; [exact Has|exact Hlen].
Defined.

(** X13 at work: thread [t1] has no message in [world_with []]. *)
Lemma X13_witness_no_messages :
  get_supabase_client full_env = ret tt
  /\ faults (world_with []) = []
  /\ filter (fun r => Is_true (message_matches ["t1"] "u1" r))
       (t_messages (tables (world_with []))) = []
  /\ (process_thread_entities_in full_env no_json "u1" "t1" (world_with [])).1
     = inr (processor_report_early true [])
  /\ t_stages (tables (process_thread_entities_in full_env no_json "u1" "t1"
                         (world_with [])).2)
     = [stage_of_t1 "queued"].
Proof.
  split; [reflexivity|].
  split; [reflexivity|]. split; [reflexivity|].
  rewrite (X13_processor_queues_a_thread_without_messages full_env no_json "u1" "t1"
             (world_with []) eq_refl eq_refl eq_refl).
  split; reflexivity.
Defined.

(** X14 at work: the batch of thread [t1] alone, without messages. *)
Lemma X14_witness_no_messages :
  get_supabase_client full_env = ret tt
  /\ faults (world_with []) = []
  /\ ["t1"] <> []
  /\ filter (fun r => Is_true (message_matches ["t1"] "u1" r))
       (t_messages (tables (world_with []))) = []
  /\ (resolve_thread_entities_in full_env no_json "u1" ["t1"] (world_with [])).1
     = inr (resolver_report true 0 0 0 0 0 ∅ [])
  /\ t_stages (tables (resolve_thread_entities_in full_env no_json "u1" ["t1"]
                         (world_with [])).2)
     = [stage_of_t1 "analyzing"].
Proof.
  split; [reflexivity|].
  assert (H : ["t1"] <> @nil string) by discriminate.
  split; [reflexivity|]. split; [exact H|]. split; [reflexivity|].
  rewrite (X14_resolver_leaves_threads_without_messages_analyzing full_env no_json "u1"
             ["t1"] (world_with []) eq_refl eq_refl H eq_refl).
  split; reflexivity.
Defined.

(** X17 at work. *)
Lemma X17_witness_alice :
  length (Py.split "@" "Alice@Acme.IO") = 2%nat
  /\ extract_local_part_from_email "Alice@Acme.IO" +:+ "@"
     +:+ extract_domain_from_email "Alice@Acme.IO"
     = "alice@acme.io".
Proof.
  split; [reflexivity|].
  exact (X17_local_part_and_domain_make_the_email "Alice@Acme.IO" eq_refl).
Defined.

(** X19 at work: the upsert fails; of the two rows, the one that is new is
    inserted and counted. *)
Lemma X19_witness_failing_upsert :
  tail (faults failing_upsert_world) = []
  /\ exists w',
       link_participants linking_rows failing_upsert_world = (inr 1, w')
       /\ length (t_participants (tables w')) = 3%nat.
Proof.
  split; [reflexivity|].
  destruct (X19_linking_participants_with_and_without_the_upsert
              linking_rows failing_upsert_world eq_refl) as (w' & E & Ht).
  exists w'. rewrite Ht in E. split; [exact E|]. rewrite Ht. reflexivity.
Defined.

(** X20 at work: the second message of thread [t1] has no body. *)
Lemma X20_witness_silent_message :
  get_supabase_client full_env = ret tt
  /\ get_gemini_client full_env = ret tt
  /\ faults silent_world = []
  /\ filter (fun r => Is_true (thread_matches "t1" "u1" r))
       (t_threads (tables silent_world)) = [thread_t1 None]
  /\ silent_message ∈ selected_messages fromisoformat_model (thread_t1 None)
                        (messages_read "u1" "t1" silent_world)
  /\ Py.truthy_opt (m_body_text silent_message) = false
  /\ m_body_html silent_message = None
  /\ exists e w',
       analyze_in_full_env (analysis_with ["Follow up with legal"]) "u1" "t1" silent_world
       = (inr (analysis_failed "t1" e), w')
       /\ exn_class e = TypeError
       /\ t_stages (tables w') = [stage_of_t1 "failed"].
Proof.
  split; [reflexivity|]. split; [reflexivity|].
  assert (Hin : silent_message
                ∈ selected_messages fromisoformat_model (thread_t1 None)
                    (messages_read "u1" "t1" silent_world)).
  { change (silent_message ∈ [january_message; silent_message]).
    apply list_elem_of_further, list_elem_of_here. }
  split; [reflexivity|]. split; [reflexivity|]. split; [exact Hin|].
  split; [reflexivity|]. split; [reflexivity|].
  destruct (X20_message_without_body_fails_the_analysis full_env
              fromisoformat_model (fun _ => None) (fun _ => "{...}")
              (fun _ => Some (analysis_with ["Follow up with legal"])) "Analyze."
              (fun old_summary transcript => "Update.")
              "u1" "t1" (thread_t1 None) silent_message silent_world
              eq_refl eq_refl eq_refl eq_refl Hin eq_refl eq_refl)
    as (e & w' & E & Hc & Ht & _).
  exists e, w'. split; [exact E|]. split; [exact Hc|]. rewrite Ht. reflexivity.
Defined.

(** X22 at work: the two messages of thread [t1] are far below the
    limit. *)
Lemma X22_witness_short_thread :
  join_opt " " (map message_body [january_message; august_message])
  = inr "Hello Hello"
  /\ build_transcript [january_message; august_message] ∅
     = inr (construct_transcript [january_message; august_message] ∅).
Proof.
  split; [reflexivity|].
  exact (X22_transcript_of_a_thread_in_general
           [january_message; august_message] ∅ "Hello Hello" eq_refl).
Defined.

(** X21 at work: two messages, one of them long, are over the limit; both
    come back, after the marker. *)
Lemma X21_witness_two_messages_over_the_limit :
  join_opt " " (map sm_text [long_smart_message; short_smart_message])
  = inr (Py.join " " [long_body; "Hello"])
  /\ truncate_messages_smart [long_smart_message; short_smart_message]
     = inr [marker_message; long_smart_message; short_smart_message].
Proof.
  assert (Hj : join_opt " " (map sm_text [long_smart_message; short_smart_message])
               = inr (Py.join " " [long_body; "Hello"])).
  { unfold join_opt.
    cbn [map sm_text long_smart_message short_smart_message join_texts].
    reflexivity. }
  split; [exact Hj|].
  rewrite (X21_truncate_messages_smart_in_general _ _ Hj).
  assert (H : (estimate_tokens (Py.join " " [long_body; "Hello"]) <=? 100000)
              = false).
  { apply Z.leb_gt. cbn [Py.join]. unfold estimate_tokens, long_body.
    rewrite len_app, len_iter_char. reflexivity. }
  rewrite H. reflexivity.
Defined.

(** X1 at work: without the key of the model the analyzer raises before
    it calls anything. *)
Lemma X1_witness_no_model_key :
  analyze_thread_in env_without_model fromisoformat_model (fun _ => None)
    (fun _ => "{...}") (fun _ => Some (analysis_with [])) "Analyze."
    (fun old_summary transcript => "Update.") "u1" "t1" (legal_world [])
  = (inl (value_error "GEMINI_API_KEY environment variable is required"),
     legal_world []).
Proof.
  apply (X1_analyze_thread_always_reports env_without_model).
  right. split; reflexivity.
Defined.

(** X4 at work: the job in the same environment writes [analyzing], then
    [failed], and raises. *)
Lemma X4_witness_no_model_key :
  (run_analyze_thread_job env_without_model fromisoformat_model (fun _ => None)
     (fun _ => "{...}") (fun _ => Some (analysis_with [])) "Analyze."
     (fun old_summary transcript => "Update.")
     {| payload_thread_id := Some "t1"; payload_user_id := Some "u1" |}
     (legal_world [])).1
  = inl (value_error "GEMINI_API_KEY environment variable is required")
  /\ new_calls
       (run_analyze_thread_job env_without_model fromisoformat_model
          (fun _ => None) (fun _ => "{...}") (fun _ => Some (analysis_with []))
          "Analyze." (fun old_summary transcript => "Update.")
          {| payload_thread_id := Some "t1"; payload_user_id := Some "u1" |})
       (legal_world [])
     = [StageUpdate "failed" ["t1"] "u1"; StageUpdate "analyzing" ["t1"] "u1"].
Proof.
  exact (proj1 (proj2 (proj2 (proj2
           (X4_job_raises_only_before_the_analysis
              env_without_model fromisoformat_model (fun _ => None)
              (fun _ => "{...}") (fun _ => Some (analysis_with [])) "Analyze."
              (fun old_summary transcript => "Update.")
              {| payload_thread_id := Some "t1"; payload_user_id := Some "u1" |}
              (legal_world []))) "t1" "u1" eq_refl eq_refl eq_refl eq_refl)
           eq_refl) _ eq_refl).
Defined.
